(** * arxiv-recent: the persistent store, the summarization engine, the
      run controller and the fetcher, embedded from [db.py], [llm.py],
      [summarizer.py], [push/__init__.py], [cli.py], [config.py] and
      [fetcher.py]. *)

From Stdlib Require Import ZArith List String Ascii Lia Bool Sorted.
From Stdlib Require Import Floats.PrimFloat.
From stdpp Require Import gmap strings list pretty.

Set Warnings "-register-all,-inexact-float".

Local Open Scope string_scope.
Local Open Scope Z_scope.

(* ===================================================================== *)
(** ** Python strings *)
(* ===================================================================== *)

Module PyStr.

(** [s.split(sep)] for a one-character separator: the empty string yields
    one empty field, [n] separators yield [n+1] fields. *)
Fixpoint split (sep : ascii) (s : string) : list string :=
  match s with
  | EmptyString => [EmptyString]
  | String c s' =>
      if Ascii.eqb c sep then EmptyString :: split sep s'
      else match split sep s' with
           | [] => [String c EmptyString]
           | w :: ws => String c w :: ws
           end
  end.

(** [sep.join(xs)] *)
Fixpoint join (sep : string) (xs : list string) : string :=
  match xs with
  | [] => EmptyString
  | [x] => x
  | x :: rest => String.append x (String.append sep (join sep rest))
  end.

Definition comma : ascii := ","%char.
Definition newline : ascii := Ascii.ascii_of_nat 10.

(** a non-empty string is truthy *)
Definition nonempty (s : string) : bool := negb (String.eqb s EmptyString).

Fixpoint contains_char (c : ascii) (s : string) : bool :=
  match s with
  | EmptyString => false
  | String a s' => Ascii.eqb a c || contains_char c s'
  end.

(** [sorted(xs)] on strings: insertion sort along the code-point order. *)
Fixpoint insert_sorted (x : string) (xs : list string) : list string :=
  match xs with
  | [] => [x]
  | y :: ys => if String.leb x y then x :: y :: ys else y :: insert_sorted x ys
  end.

Definition sorted (xs : list string) : list string :=
  fold_right insert_sorted [] xs.

(** [str.isspace] on the characters below 256. *)
Definition is_space (c : ascii) : bool :=
  let n := Ascii.nat_of_ascii c in
  ((9 <=? n)%nat && (n <=? 13)%nat) || ((28 <=? n)%nat && (n <=? 32)%nat)
  || (n =? 133)%nat || (n =? 160)%nat.

Fixpoint lstrip (s : string) : string :=
  match s with
  | EmptyString => EmptyString
  | String c s' => if is_space c then lstrip s' else s
  end.

Fixpoint rstrip (s : string) : string :=
  match s with
  | EmptyString => EmptyString
  | String c s' =>
      match rstrip s' with
      | EmptyString => if is_space c then EmptyString else String c EmptyString
      | r => String c r
      end
  end.

(** [s.strip()] *)
Definition strip (s : string) : string := rstrip (lstrip s).

(** [s.startswith(p)] *)
Definition startswith (s p : string) : bool := String.prefix p s.

(** [s.find(c)] for a one-character needle; [-1] when absent. *)
Fixpoint find_from (c : ascii) (s : string) (i : Z) : Z :=
  match s with
  | EmptyString => -1
  | String a s' => if Ascii.eqb a c then i else find_from c s' (i + 1)
  end.

Definition find (s : string) (c : ascii) : Z := find_from c s 0.

(** [s.rfind(c)] *)
Fixpoint rfind_from (c : ascii) (s : string) (i : Z) (last : Z) : Z :=
  match s with
  | EmptyString => last
  | String a s' => rfind_from c s' (i + 1) (if Ascii.eqb a c then i else last)
  end.

Definition rfind (s : string) (c : ascii) : Z := rfind_from c s 0 (-1).

(** [s[a:b]] for [0 <= a]. *)
Definition slice (s : string) (a b : Z) : string :=
  String.substring (Z.to_nat a) (Z.to_nat (b - a)) s.

(** [s[:n]] *)
Definition take (n : nat) (s : string) : string := String.substring 0 n s.

(** [str.lower] on the characters below 256: the capitals [A] to [Z],
    and [À] to [Þ] (192 to 222) without the multiplication sign (215),
    have their small letter 32 places further; every other character
    below 256 is its own lower case. *)
Definition is_capital (n : nat) : bool :=
  ((65 <=? n)%nat && (n <=? 90)%nat)
  || ((192 <=? n)%nat && (n <=? 214)%nat)
  || ((216 <=? n)%nat && (n <=? 222)%nat).

Definition lower_char (c : ascii) : ascii :=
  let n := Ascii.nat_of_ascii c in
  if is_capital n then Ascii.ascii_of_nat (n + 32) else c.

Fixpoint lower (s : string) : string :=
  match s with
  | EmptyString => EmptyString
  | String c s' => String (lower_char c) (lower s')
  end.

End PyStr.

(* ===================================================================== *)
(** ** Python values as [json.loads] produces them *)
(* ===================================================================== *)

Module Py.

Inductive pyval :=
  | VNone
  | VBool (b : bool)
  | VInt (z : Z)
  | VFloat (f : PrimFloat.float)
  | VStr (s : string)
  | VList (l : list pyval)
  | VDict (d : list (string * pyval)).

(** A [dict] with string keys, in insertion order. *)
Definition pydict : Type := list (string * pyval).

(** [bool(v)] *)
Definition truthy (v : pyval) : bool :=
  match v with
  | VNone => false
  | VBool b => b
  | VInt z => negb (z =? 0)
  | VFloat f => negb (PrimFloat.is_zero f)
  | VStr s => PyStr.nonempty s
  | VList l => match l with [] => false | _ => true end
  | VDict d => match d with [] => false | _ => true end
  end.

Definition is_list (v : pyval) : bool :=
  match v with VList _ => true | _ => false end.

Definition is_dict (v : pyval) : bool :=
  match v with VDict _ => true | _ => false end.

(** [d.get(key)] *)
Fixpoint dict_get (d : pydict) (key : string) : option pyval :=
  match d with
  | [] => None
  | (k, v) :: rest => if String.eqb k key then Some v else dict_get rest key
  end.

(** [key in d] *)
Definition dict_contains (d : pydict) (key : string) : bool :=
  match dict_get d key with Some _ => true | None => false end.

(** [d[key] = v]: overwrite in place, or append a new key. *)
Fixpoint dict_set (d : pydict) (key : string) (v : pyval) : pydict :=
  match d with
  | [] => [(key, v)]
  | (k, w) :: rest =>
      if String.eqb k key then (k, v) :: rest else (k, w) :: dict_set rest key v
  end.

(** What can be raised, by class.  [json.JSONDecodeError] is a
    [ValueError]; [OtherError] stands for any other class, by its name. *)
Inductive exn :=
  | ValueError
  | TypeError
  | KeyError
  | IndexError
  | AttributeError
  | HTTPError
  | OSError
  | OtherError (name : string).

Definition is_ValueError (e : exn) : bool :=
  match e with ValueError => true | _ => false end.

(** the classes that derive from [BaseException] and not from
    [Exception] *)
Definition base_only : list string :=
  ["KeyboardInterrupt"; "SystemExit"; "GeneratorExit"; "CancelledError"].

(** [isinstance(e, Exception)]: what [except Exception] catches *)
Definition is_Exception (e : exn) : bool :=
  match e with
  | OtherError name => negb (existsb (String.eqb name) base_only)
  | _ => true
  end.

Inductive outcome (A : Type) :=
  | Return (a : A)
  | Raise (e : exn).
Arguments Return {A} a.
Arguments Raise {A} e.

Definition bind {A B} (m : outcome A) (k : A -> outcome B) : outcome B :=
  match m with
  | Return a => k a
  | Raise e => Raise e
  end.

(** what [json.loads] does with a text: it returns a value, raises
    [json.JSONDecodeError], or raises something else ([RecursionError] on
    deeply nested text, a plain [ValueError] on a number with too many
    digits) *)
Inductive loaded :=
  | Loaded (v : pyval)
  | NotJSON
  | LoadFails (e : exn).

(** What the interpreter and the standard library supply: [json.loads],
    [json.dumps] with [indent=2], and [repr] on the values whose [str] is
    their [repr]. *)
Class Runtime := {
  json_loads : string -> loaded;
  json_dumps : pyval -> string;
  py_repr : pyval -> string
}.

(** [str(v)] *)
Definition py_str `{Runtime} (v : pyval) : string :=
  match v with
  | VStr s => s
  | VNone => "None"
  | VBool true => "True"
  | VBool false => "False"
  | VInt z => pretty z
  | VFloat _ | VList _ | VDict _ => py_repr v
  end.

End Py.

(* ===================================================================== *)
(** ** db.py: the SQLite persistence layer *)
(* ===================================================================== *)

Module Db.
Import Py.

(** A paper as [fetcher._parse_entry] builds it: nine text fields. *)
Record Paper := {
  arxiv_id : string;
  title : string;
  authors : string;
  category : string;
  published_at : string;
  updated_at : string;
  abs_url : string;
  pdf_url : string;
  abstract : string
}.

(** A row of table [papers]: the paper and [fetched_at]. *)
Record PaperRow := {
  row_paper : Paper;
  fetched_at : string
}.

(** A row of table [runs] (its key [run_date] is the map key). *)
Record RunRow := {
  status : string;
  sent_channels : string;
  created_at : string
}.

(** The three tables.  [papers] is a list of rows, so that the effect of
    the primary key on [INSERT OR IGNORE] is explicit; [summaries] and
    [runs] are maps from their primary key.  [summaries] holds the decoded
    [summary_json]. *)
Record Database := {
  papers : list PaperRow;
  summaries : gmap string pydict;
  runs : gmap string RunRow
}.

Definition empty_db : Database :=
  {| papers := []; summaries := ∅; runs := ∅ |}.

Definition row_id (r : PaperRow) : string := arxiv_id (row_paper r).

(** the rows of [papers] whose primary key is [id] *)
Definition rows_for (db : Database) (id : string) : list PaperRow :=
  List.filter (fun r => String.eqb (row_id r) id) (papers db).

Definition has_paper (db : Database) (id : string) : bool :=
  existsb (fun r => String.eqb (row_id r) id) (papers db).

(** [upsert_paper]: [INSERT OR IGNORE]; returns [cur.rowcount > 0]. *)
Definition upsert_paper (db : Database) (paper : Paper) (now : string)
  : bool * Database :=
  if has_paper db (arxiv_id paper) then (false, db)
  else (true,
        {| papers := papers db ++ [{| row_paper := paper; fetched_at := now |}];
           summaries := summaries db;
           runs := runs db |}).

(** [upsert_papers]: the count of newly inserted rows. *)
Fixpoint upsert_papers_from (inserted : Z) (db : Database) (ps : list Paper)
    (now : string) : Z * Database :=
  match ps with
  | [] => (inserted, db)
  | p :: rest =>
      let '(ok, db') := upsert_paper db p now in
      upsert_papers_from (if ok then inserted + 1 else inserted) db' rest now
  end.

Definition upsert_papers (db : Database) (ps : list Paper) (now : string)
  : Z * Database :=
  upsert_papers_from 0 db ps now.

Definition has_summary (db : Database) (id : string) : bool :=
  match summaries db !! id with Some _ => true | None => false end.

(** [save_summary]: [INSERT OR REPLACE]. *)
Definition save_summary (db : Database) (id : string) (summary : pydict)
  : Database :=
  {| papers := papers db;
     summaries := <[id := summary]> (summaries db);
     runs := runs db |}.

Definition get_summary (db : Database) (id : string) : option pydict :=
  summaries db !! id.

Definition get_run (db : Database) (run_date : string) : option RunRow :=
  runs db !! run_date.

(** [upsert_run]: insert, or on conflict replace [status] and
    [sent_channels] and keep [created_at]. *)
Definition upsert_run (db : Database) (run_date status0 sent : string)
    (now : string) : Database :=
  let row :=
    match runs db !! run_date with
    | Some old =>
        {| status := status0; sent_channels := sent;
           created_at := created_at old |}
    | None =>
        {| status := status0; sent_channels := sent; created_at := now |}
    end in
  {| papers := papers db;
     summaries := summaries db;
     runs := <[run_date := row]> (runs db) |}.

(** [channel in run["sent_channels"].split(",")] *)
Definition was_sent (db : Database) (run_date channel : string) : bool :=
  match get_run db run_date with
  | None => false
  | Some run =>
      bool_decide (channel ∈ PyStr.split PyStr.comma (sent_channels run))
  end.

(** [{c for c in s.split(",") if c}] *)
Definition channel_set (s : string) : gset string :=
  list_to_set (List.filter PyStr.nonempty (PyStr.split PyStr.comma s)).

Definition mark_sent (db : Database) (run_date channel : string)
    (now : string) : Database :=
  match get_run db run_date with
  | None => upsert_run db run_date "sent" channel now
  | Some run =>
      let existing := channel_set (sent_channels run) in
      let existing := existing ∪ {[ channel ]} in
      upsert_run db run_date "sent"
        (PyStr.join "," (PyStr.sorted (elements existing))) now
  end.

End Db.

(* ===================================================================== *)
(** ** The world outside the process *)
(* ===================================================================== *)

Module World.
Import Py.

Record Message := { role : string; content : string }.

Record Payload := {
  p_model : string;
  p_messages : list Message;
  p_temperature : PrimFloat.float;
  p_max_tokens : Z
}.

(** The environment of one process run.  [mono] is the reading of the
    monotonic clock in nanoseconds and [elapsed] the time that passes
    before each later reading; [responses] is what the model gateway
    answers to each HTTP attempt, [smtp] and [onebot] what each mail and
    group-chat delivery meets (a network call returns or raises an
    [Exception]); [requests] and [delivered] log what was sent out. *)
Record Env := {
  mono : Z;
  elapsed : list N;
  responses : list (outcome pyval);
  requests : list Payload;
  smtp : list (outcome unit);
  onebot : list (outcome unit);
  delivered : list string
}.

Definition second : Z := 1000000000.

(** [time.monotonic()] *)
Definition time_monotonic (e : Env) : Z * Env :=
  match elapsed e with
  | [] => (mono e, e)
  | d :: ds =>
      let t := mono e + Z.of_N d in
      (t, {| mono := t; elapsed := ds; responses := responses e;
             requests := requests e; smtp := smtp e; onebot := onebot e;
             delivered := delivered e |})
  end.

(** [await asyncio.sleep(d)] *)
Definition sleep (d : Z) (e : Env) : Env :=
  {| mono := mono e + Z.max 0 d; elapsed := elapsed e;
     responses := responses e; requests := requests e; smtp := smtp e;
     onebot := onebot e; delivered := delivered e |}.

(** one HTTP POST to the gateway: [client.post], [raise_for_status],
    [resp.json()] *)
Definition http_post (payload : Payload) (e : Env) : outcome pyval * Env :=
  let log := (requests e ++ [payload])%list in
  match responses e with
  | [] =>
      (Raise HTTPError,
       {| mono := mono e; elapsed := elapsed e; responses := [];
          requests := log; smtp := smtp e; onebot := onebot e;
          delivered := delivered e |})
  | r :: rs =>
      (r,
       {| mono := mono e; elapsed := elapsed e; responses := rs;
          requests := log; smtp := smtp e; onebot := onebot e;
          delivered := delivered e |})
  end.

(** [send_email(...)] *)
Definition send_email (e : Env) : outcome unit * Env :=
  match smtp e with
  | [] => (Raise OSError, e)
  | r :: rs =>
      (r,
       {| mono := mono e; elapsed := elapsed e; responses := responses e;
          requests := requests e; smtp := rs; onebot := onebot e;
          delivered :=
            match r with
            | Return _ => (delivered e ++ ["email"])%list
            | Raise _ => delivered e
            end |})
  end.

(** [send_qq(...)] *)
Definition send_qq (e : Env) : outcome unit * Env :=
  match onebot e with
  | [] => (Raise OSError, e)
  | r :: rs =>
      (r,
       {| mono := mono e; elapsed := elapsed e; responses := responses e;
          requests := requests e; smtp := smtp e; onebot := rs;
          delivered :=
            match r with
            | Return _ => (delivered e ++ ["qq"])%list
            | Raise _ => delivered e
            end |})
  end.

End World.

(* ===================================================================== *)
(** ** config.py: the settings the core reads *)
(* ===================================================================== *)

Module Config.
Import Py.

(** [push_channels] is the value of the property of that name;
    [qq_configured] is read inside the [try] of [push_digest] and may
    raise. *)
Record Settings := {
  vllm_url : string;
  vllm_model_name : string;
  vllm_api_key : string;
  llm_max_concurrency : Z;
  llm_rate_limit_rpm : Z;
  push_channels : list string;
  email_configured : bool;
  qq_configured : outcome bool
}.

End Config.

(* ===================================================================== *)
(** ** llm.py: the rate limiter and the chat client *)
(* ===================================================================== *)

Module Llm.
Import Py World.

(** The limiter: its ceiling and the clock readings it tracks, oldest
    first.  ([_interval] is never read, and the lock is the sequencing of
    the calls.) *)
Record RateLimiter := {
  _rpm : Z;
  _timestamps : list Z
}.

Definition new_RateLimiter (rpm : Z) : RateLimiter :=
  {| _rpm := rpm; _timestamps := [] |}.

(** the 60.0 second window *)
Definition WINDOW : Z := 60 * second.

(** [RateLimiter.acquire], the body under the lock.  Returns how long it
    slept, if it did. *)
Definition acquire (rl : RateLimiter) (e : Env)
  : outcome (option Z) * RateLimiter * Env :=
  let '(now, e1) := time_monotonic e in
  let cutoff := now - WINDOW in
  let ts := List.filter (fun t => cutoff <? t) (_timestamps rl) in
  if _rpm rl <=? Z.of_nat (length ts) then
    match ts with
    | [] => (Raise IndexError, {| _rpm := _rpm rl; _timestamps := ts |}, e1)
    | t0 :: _ =>
        let sleep_until := t0 + WINDOW in
        let wait_time := sleep_until - now in
        let '(slept, e2) :=
          if 0 <? wait_time then (Some wait_time, sleep wait_time e1)
          else (None, e1) in
        let '(t, e3) := time_monotonic e2 in
        (Return slept, {| _rpm := _rpm rl; _timestamps := (ts ++ [t])%list |}, e3)
    end
  else
    let '(t, e3) := time_monotonic e1 in
    (Return None, {| _rpm := _rpm rl; _timestamps := (ts ++ [t])%list |}, e3).

Record LLMClient := {
  _url : string;
  _model : string;
  _api_key : string;
  _semaphore : Z;
  _rate_limiter : RateLimiter
}.

Definition new_LLMClient (cfg : Config.Settings) : LLMClient :=
  {| _url := Config.vllm_url cfg;
     _model := Config.vllm_model_name cfg;
     _api_key := Config.vllm_api_key cfg;
     _semaphore := Config.llm_max_concurrency cfg;
     _rate_limiter := new_RateLimiter (Config.llm_rate_limit_rpm cfg) |}.

Definition with_limiter (c : LLMClient) (rl : RateLimiter) : LLMClient :=
  {| _url := _url c; _model := _model c; _api_key := _api_key c;
     _semaphore := _semaphore c; _rate_limiter := rl |}.

(** [wait_exponential(multiplier=2, min=4, max=60)] after attempt [n] *)
Definition backoff (n : Z) : Z :=
  Z.max 4 (Z.min 60 (2 * 2 ^ (n - 1))) * second.

(** [_post] under [@retry(stop_after_attempt(3), ..., reraise=True)]:
    [left] attempts remain, [n] is the number of the next one. *)
Fixpoint post_attempts (left : nat) (n : Z) (payload : Payload) (e : Env)
  : outcome pyval * Env :=
  match left with
  | O => (Raise HTTPError, e)
  | S left' =>
      match http_post payload e with
      | (Return data, e') => (Return data, e')
      | (Raise ex, e') =>
          match left' with
          | O => (Raise ex, e')
          | S _ => post_attempts left' (n + 1) payload (sleep (backoff n) e')
          end
      end
  end.

Definition _post (payload : Payload) (e : Env) : outcome pyval * Env :=
  post_attempts 3 1 payload e.

(** [v[0]] *)
Definition subscript_0 (v : pyval) : outcome pyval :=
  match v with
  | VList (x :: _) => Return x
  | VList [] => Raise IndexError
  | VStr (String c _) => Return (VStr (String c EmptyString))
  | VStr EmptyString => Raise IndexError
  | VDict _ => Raise KeyError
  | _ => Raise TypeError
  end.

(** [v[key]] for a string key *)
Definition subscript (v : pyval) (key : string) : outcome pyval :=
  match v with
  | VDict d =>
      match dict_get d key with
      | Some x => Return x
      | None => Raise KeyError
      end
  | _ => Raise TypeError
  end.

(** the tail of [chat]: from the decoded body to the reply text *)
Definition reply_content (data : pyval) : outcome pyval :=
  match data with
  | VDict d =>
      let choices :=
        match dict_get d "choices" with Some c => c | None => VList [] end in
      if negb (truthy choices) then Raise ValueError
      else bind (subscript_0 choices) (fun c0 =>
           bind (subscript c0 "message") (fun m =>
           subscript m "content"))
  | _ => Raise AttributeError
  end.

(** [LLMClient.chat].  The tasks are run one after the other, so the
    semaphore around [_post] always has a free slot. *)
Definition chat (c : LLMClient) (messages : list Message)
    (temperature : PrimFloat.float) (max_tokens : Z) (e : Env)
  : outcome pyval * LLMClient * Env :=
  match acquire (_rate_limiter c) e with
  | (Raise ex, rl, e1) => (Raise ex, with_limiter c rl, e1)
  | (Return _, rl, e1) =>
      let payload :=
        {| p_model := _model c; p_messages := messages;
           p_temperature := temperature; p_max_tokens := max_tokens |} in
      match _post payload e1 with
      | (Raise ex, e2) => (Raise ex, with_limiter c rl, e2)
      | (Return data, e2) => (reply_content data, with_limiter c rl, e2)
      end
  end.

Definition fence : string := "```".

(** [_extract_json] *)
Definition _extract_json `{Runtime} (raw : pyval) : outcome pyval :=
  match raw with
  | VStr text =>
      let text := PyStr.strip text in
      let text :=
        if PyStr.startswith text fence then
          let lines := PyStr.split PyStr.newline text in
          let lines :=
            match lines with
            | l0 :: rest => if PyStr.startswith l0 fence then rest else lines
            | [] => lines
            end in
          let lines :=
            match lines with
            | [] => lines
            | _ =>
                if String.eqb (PyStr.strip (List.last lines "")) fence
                then removelast lines else lines
            end in
          PyStr.strip (PyStr.join (String PyStr.newline "") lines)
        else text in
      match json_loads text with
      | Loaded v => Return v
      | LoadFails ex => Raise ex
      | NotJSON =>
          let start := PyStr.find text "{"%char in
          let end_ := PyStr.rfind text "}"%char in
          if negb (start =? -1) && negb (end_ =? -1) && (start <? end_) then
            match json_loads (PyStr.slice text start (end_ + 1)) with
            | Loaded v => Return v
            | LoadFails ex => Raise ex
            | NotJSON => Raise ValueError
            end
          else Raise ValueError
      end
  | _ => Raise AttributeError
  end.

(** [LLMClient.chat_json] *)
Definition chat_json `{Runtime} (c : LLMClient) (messages : list Message)
    (temperature : PrimFloat.float) (max_tokens : Z) (e : Env)
  : outcome pyval * LLMClient * Env :=
  match chat c messages temperature max_tokens e with
  | (Raise ex, c', e') => (Raise ex, c', e')
  | (Return raw, c', e') => (_extract_json raw, c', e')
  end.

End Llm.

(* ===================================================================== *)
(** ** summarizer.py *)
(* ===================================================================== *)

Module Summarizer.
Import Py World Db Llm.

Definition dq : string := String (Ascii.ascii_of_nat 34) EmptyString.
Definition nl : string := String PyStr.newline EmptyString.
Definition quoted (s : string) : string := String.concat "" [dq; s; dq].

Definition SUMMARY_SCHEMA : pyval :=
  VDict [
    ("title_zh", VStr "Chinese translation of the paper title");
    ("tldr_zh", VStr "One-sentence TL;DR in Chinese");
    ("contributions_zh", VList [VStr "List of key contributions in Chinese"]);
    ("method_zh", VStr "Methodology description in Chinese");
    ("experiments_zh", VStr "Experiments description in Chinese");
    ("results_zh", VStr "Key results in Chinese");
    ("limitations_zh", VStr "Limitations in Chinese");
    ("who_should_read_zh", VStr "Who should read this paper, in Chinese");
    ("links", VDict [("abs", VStr "arXiv abstract URL");
                     ("pdf", VStr "arXiv PDF URL")])
  ].

(** [SUMMARIZE_PROMPT.format(...)] *)
Definition SUMMARIZE_PROMPT (title authors category abstract abs_url pdf_url
    schema : string) : string :=
  String.concat "" [
    "You are an expert AI research assistant. ";
    "Given the following arXiv paper metadata, ";
    "produce a structured summary in Chinese (Simplified)."; nl; nl;
    "**Paper:**"; nl;
    "- Title: "; title; nl;
    "- Authors: "; authors; nl;
    "- Category: "; category; nl;
    "- Abstract: "; abstract; nl;
    "- arXiv URL: "; abs_url; nl;
    "- PDF URL: "; pdf_url; nl; nl;
    "**Instructions:**"; nl;
    "1. Output ONLY valid JSON matching this exact schema ";
    "(no extra text before/after):"; nl;
    schema; nl; nl;
    "2. All text fields must be in Simplified Chinese."; nl;
    "3. If any information is not available from the abstract, use ";
    quoted "unknown"; " for that field."; nl;
    "4. The "; quoted "contributions_zh";
    " field must be a JSON array of strings."; nl;
    "5. The "; quoted "links"; " field must contain "; quoted "abs"; " and ";
    quoted "pdf"; " keys with the URLs provided above."; nl;
    "6. Do NOT hallucinate any details not present in the abstract."; nl;
    "7. Be concise but informative."; nl; nl;
    "Output the JSON now:" ].

(** [REPAIR_PROMPT.format(...)] *)
Definition REPAIR_PROMPT (schema broken_text : string) : string :=
  String.concat "" [
    "The following text was supposed to be valid JSON matching this schema:";
    nl; schema; nl; nl;
    "But it failed to parse. Please fix it and return ONLY valid JSON."; nl;
    "Do not add any explanation, just output the corrected JSON."; nl; nl;
    "Broken text:"; nl; broken_text ].

Definition _build_messages `{Runtime} (paper : Paper) : list Message :=
  let user_msg :=
    SUMMARIZE_PROMPT (title paper) (authors paper) (category paper)
      (abstract paper) (abs_url paper) (pdf_url paper)
      (json_dumps SUMMARY_SCHEMA) in
  [{| role := "user"; content := user_msg |}].

(** [broken_text[:3000]] is a slice: of a string, of a list (then
    formatted through its [repr]), or a [TypeError]. *)
Definition _build_repair_messages `{Runtime} (broken_text : pyval)
  : outcome (list Message) :=
  let build (piece : string) :=
    [{| role := "user";
        content := REPAIR_PROMPT (json_dumps SUMMARY_SCHEMA) piece |}] in
  match broken_text with
  | VStr s => Return (build (PyStr.take 3000 s))
  | VList l => Return (build (py_repr (VList (firstn 3000 l))))
  | _ => Raise TypeError
  end.

Definition default_links : pyval := VDict [("abs", VStr ""); ("pdf", VStr "")].

Definition defaults : pydict := [
  ("title_zh", VStr "unknown");
  ("tldr_zh", VStr "unknown");
  ("contributions_zh", VList [VStr "unknown"]);
  ("method_zh", VStr "unknown");
  ("experiments_zh", VStr "unknown");
  ("results_zh", VStr "unknown");
  ("limitations_zh", VStr "unknown");
  ("who_should_read_zh", VStr "unknown");
  ("links", default_links)
].

(** one turn of the loop over [defaults.items()] *)
Definition fill_default (data : pydict) (item : string * pyval) : pydict :=
  let '(key, default) := item in
  match dict_get data key with
  | None => dict_set data key default
  | Some v => if negb (truthy v) then dict_set data key default else data
  end.

(** [_validate_summary] on a [dict] *)
Definition _validate_summary `{Runtime} (data : pydict) : pydict :=
  let data := fold_left fill_default defaults data in
  let data :=
    match dict_get data "contributions_zh" with
    | Some (VList _) => data
    | Some v => dict_set data "contributions_zh" (VList [VStr (py_str v)])
    | None =>
        dict_set data "contributions_zh" (VList [VStr (py_str (VStr "unknown"))])
    end in
  let data :=
    match dict_get data "links" with
    | Some (VDict _) => data
    | _ => dict_set data "links" default_links
    end in
  data.

(** [_validate_summary] on whatever [chat_json] returned: anything but a
    [dict] fails in the loop with a [TypeError]. *)
Definition _validate_summary_py `{Runtime} (result : pyval) : outcome pydict :=
  match result with
  | VDict d => Return (_validate_summary d)
  | _ => Raise TypeError
  end.

(** the minimal summary of the two fallback branches *)
Definition minimal_summary `{Runtime} (paper : Paper) : pydict :=
  _validate_summary
    [("title_zh", VStr (title paper));
     ("links", VDict [("abs", VStr (abs_url paper));
                      ("pdf", VStr (pdf_url paper))])].

Definition temperature_chat : PrimFloat.float := 0.3%float.
Definition temperature_json : PrimFloat.float := 0.1%float.

(** [summarize_one] *)
Definition summarize_one `{Runtime} (client : LLMClient) (paper : Paper)
    (e : Env) : outcome pydict * LLMClient * Env :=
  let messages := _build_messages paper in
  let '(r, c1, e1) := chat_json client messages temperature_json 4096 e in
  match bind r _validate_summary_py with
  | Return s => (Return s, c1, e1)
  | Raise ex =>
      if negb (is_ValueError ex) then (Raise ex, c1, e1)
      else
        (* repair attempt; [except Exception] returns the minimal summary *)
        match chat c1 messages temperature_chat 4096 e1 with
        | (Raise _, c2, e2) => (Return (minimal_summary paper), c2, e2)
        | (Return raw, c2, e2) =>
            match _build_repair_messages raw with
            | Raise _ => (Return (minimal_summary paper), c2, e2)
            | Return repair_msgs =>
                let '(r3, c3, e3) :=
                  chat_json c2 repair_msgs temperature_json 4096 e2 in
                match bind r3 _validate_summary_py with
                | Return s => (Return s, c3, e3)
                | Raise _ => (Return (minimal_summary paper), c3, e3)
                end
            end
        end
  end.

(** [summary.setdefault("links", {})] and the two assignments into it *)
Definition set_links (summary : pydict) (paper : Paper) : outcome pydict :=
  let summary :=
    if dict_contains summary "links" then summary
    else dict_set summary "links" (VDict []) in
  match dict_get summary "links" with
  | Some (VDict links) =>
      let links := dict_set links "abs" (VStr (abs_url paper)) in
      let links := dict_set links "pdf" (VStr (pdf_url paper)) in
      Return (dict_set summary "links" (VDict links))
  | _ => Raise TypeError
  end.

(** [_do_one]: the task of one paper.  It never raises. *)
Definition _do_one `{Runtime} (paper : Paper)
    (st : Database * LLMClient * Env)
  : (string * pydict) * (Database * LLMClient * Env) :=
  let '(db, client, e) := st in
  let id := arxiv_id paper in
  let '(r, c1, e1) := summarize_one client paper e in
  match bind r (fun summary => set_links summary paper) with
  | Return summary => ((id, summary), (save_summary db id summary, c1, e1))
  | Raise _ => ((id, minimal_summary paper), (db, c1, e1))
  end.

(** the tasks of [asyncio.gather], run one after the other *)
Fixpoint gather `{Runtime} (tasks : list Paper)
    (st : Database * LLMClient * Env)
  : list (string * pydict) * (Database * LLMClient * Env) :=
  match tasks with
  | [] => ([], st)
  | p :: rest =>
      let '(r, st1) := _do_one p st in
      let '(rs, st2) := gather rest st1 in
      (r :: rs, st2)
  end.

Record Summarized := {
  s_paper : Paper;
  summary : option pydict
}.

(** the reassembly loop: [if s:] treats an empty dict as absent *)
Definition collect (db : Database) (p : Paper) : Summarized :=
  match get_summary db (arxiv_id p) with
  | Some s =>
      if truthy (VDict s) then {| s_paper := p; summary := Some s |}
      else {| s_paper := p; summary := None |}
  | None => {| s_paper := p; summary := None |}
  end.

(** [summarize_papers] *)
Definition summarize_papers `{Runtime} (papers : list Paper) (db : Database)
    (cfg : Config.Settings) (e : Env) : list Summarized * Database * Env :=
  let client := new_LLMClient cfg in
  let to_summarize :=
    List.filter (fun p => negb (has_summary db (arxiv_id p))) papers in
  let '(results, (db', _, e')) := gather to_summarize (db, client, e) in
  let all_summaries := List.map (collect db') papers in
  (all_summaries, db', e').

End Summarizer.

(* ===================================================================== *)
(** ** push/__init__.py *)
(* ===================================================================== *)

Module Push.
Import Py World.

(** the [results] dict: channel name to success flag, in insertion order *)
Definition results_t : Type := list (string * bool).

Fixpoint results_set (r : results_t) (key : string) (ok : bool) : results_t :=
  match r with
  | [] => [(key, ok)]
  | (k, b) :: rest =>
      if String.eqb k key then (k, ok) :: rest
      else (k, b) :: results_set rest key ok
  end.

Fixpoint results_get (r : results_t) (key : string) : option bool :=
  match r with
  | [] => None
  | (k, b) :: rest => if String.eqb k key then Some b else results_get rest key
  end.

(** one turn of the loop over the configured channels *)
Definition push_one (cfg : Config.Settings) (channel : string)
    (st : results_t * Env) : results_t * Env :=
  let '(results, e) := st in
  let channel := PyStr.lower (PyStr.strip channel) in
  if String.eqb channel "email" then
    if negb (Config.email_configured cfg) then
      (results_set results "email" false, e)
    else
      match send_email e with
      | (Return _, e') => (results_set results "email" true, e')
      | (Raise _, e') => (results_set results channel false, e')
      end
  else if String.eqb channel "qq" then
    match Config.qq_configured cfg with
    | Raise _ => (results_set results channel false, e)
    | Return false => (results_set results "qq" false, e)
    | Return true =>
        match send_qq e with
        | (Return _, e') => (results_set results "qq" true, e')
        | (Raise _, e') => (results_set results channel false, e')
        end
    end
  else (results_set results channel false, e).

(** [push_digest]; the digest texts do not influence which sends
    succeed, which the environment decides. *)
Definition push_digest (markdown plaintext run_date : string)
    (cfg : Config.Settings) (e : Env) : results_t * Env :=
  let results : results_t := [] in
  let channels := Config.push_channels cfg in
  match channels with
  | [] => (results, e)
  | _ => fold_left (fun st ch => push_one cfg ch st) channels (results, e)
  end.

End Push.

(* ===================================================================== *)
(** ** cli.py: the run controller *)
(* ===================================================================== *)

Module Cli.
Import Py Db.

(** What [cmd_run] calls outside the store, over a world [W]. *)
Class Collaborators (W : Type) := {
  fetch_papers : Config.Settings -> W -> outcome (list Paper) * W;
  summarize_papers :
    list Paper -> Database -> Config.Settings -> W ->
    outcome (list Summarizer.Summarized) * Database * W;
  render_markdown : list Summarizer.Summarized -> string -> outcome string;
  render_plaintext : list Summarizer.Summarized -> string -> outcome string;
  _save_digest :
    string -> string -> string -> Config.Settings -> W -> outcome unit * W;
  push_digest :
    string -> string -> string -> Config.Settings -> W ->
    outcome Push.results_t * W;
  _now_iso : W -> string
}.

(** what one invocation did, in order *)
Inductive event :=
  | EFetch
  | EUpsertPapers
  | ESummarize
  | ERender
  | ESaveDigest
  | EPush
  | EUpsertRun (status0 sent : string)
  | EClose.

(** [set(run["sent_channels"].split(",")) if run["sent_channels"] else set()] *)
Definition already_sent (run : RunRow) : gset string :=
  if PyStr.nonempty (sent_channels run)
  then list_to_set (PyStr.split PyStr.comma (sent_channels run))
  else ∅.

(** the idempotency check at the head of [cmd_run] *)
Definition already_completed (cfg : Config.Settings) (db : Database)
    (today : string) : bool :=
  match get_run db today with
  | Some run =>
      if String.eqb (status run) "sent" then
        let configured : gset string :=
          list_to_set (Config.push_channels cfg) in
        bool_decide (configured ≠ ∅)
        && bool_decide (configured ⊆ already_sent run)
      else false
  | None => false
  end.

(** [[ch for ch, ok in results.items() if ok]] *)
Definition succeeded (results : Push.results_t) : list string :=
  List.map fst (List.filter snd results).

Section Controller.
Context {W : Type} `{Collaborators W}.

Definition state : Type := (Database * W * list event)%type.

(** stages 2 to 4, once the fetched papers are stored *)
Definition after_fetch (today : string) (cfg : Config.Settings)
    (papers : list Paper) (db : Database) (w : W) (tr : list event)
  : outcome unit * state :=
  let '(r2, db2, w2) := summarize_papers papers db cfg w in
  let tr := (tr ++ [ESummarize])%list in
  match r2 with
  | Raise ex => (Raise ex, (db2, w2, tr))
  | Return summarized =>
      let tr := (tr ++ [ERender])%list in
      match render_markdown summarized today with
      | Raise ex => (Raise ex, (db2, w2, tr))
      | Return md =>
          match render_plaintext summarized today with
          | Raise ex => (Raise ex, (db2, w2, tr))
          | Return txt =>
              let '(r3, w3) := _save_digest md txt today cfg w2 in
              let tr := (tr ++ [ESaveDigest])%list in
              match r3 with
              | Raise ex => (Raise ex, (db2, w3, tr))
              | Return _ =>
                  let '(r4, w4) := push_digest md txt today cfg w3 in
                  let tr := (tr ++ [EPush])%list in
                  match r4 with
                  | Raise ex => (Raise ex, (db2, w4, tr))
                  | Return results =>
                      let sent := succeeded results in
                      let status0 :=
                        match sent with [] => "rendered" | _ => "sent" end in
                      let chans := PyStr.join "," sent in
                      (Return tt,
                       (upsert_run db2 today status0 chans (_now_iso w4), w4,
                        (tr ++ [EUpsertRun status0 chans])%list))
                  end
              end
          end
      end
  end.

(** the body of the [try] in [cmd_run] *)
Definition pipeline (today : string) (cfg : Config.Settings)
    (db : Database) (w : W) : outcome unit * state :=
  if already_completed cfg db today then (Return tt, (db, w, []))
  else
    let '(r1, w1) := fetch_papers cfg w in
    match r1 with
    | Raise ex => (Raise ex, (db, w1, [EFetch]))
    | Return [] =>
        (Return tt,
         (upsert_run db today "empty" "" (_now_iso w1), w1,
          [EFetch; EUpsertRun "empty" ""]))
    | Return papers =>
        let '(_, db1) := upsert_papers db papers (_now_iso w1) in
        after_fetch today cfg papers db1 w1 [EFetch; EUpsertPapers]
    end.

(** [cmd_run], with [today] the run date it settled on: the [try], the
    [except Exception] that records [failed] and re-raises, and the
    [finally] that closes the store.  What is raised and is no
    [Exception] (a [KeyboardInterrupt], say) passes the handler by and
    meets the [finally] only. *)
Definition cmd_run (today : string) (cfg : Config.Settings)
    (db : Database) (w : W) : outcome unit * state :=
  match pipeline today cfg db w with
  | (Return tt, (db1, w1, tr)) =>
      (Return tt, (db1, w1, (tr ++ [EClose])%list))
  | (Raise ex, (db1, w1, tr)) =>
      if is_Exception ex then
        (Raise ex,
         (upsert_run db1 today "failed" "" (_now_iso w1), w1,
          (tr ++ [EUpsertRun "failed" ""; EClose])%list))
      else (Raise ex, (db1, w1, (tr ++ [EClose])%list))
  end.

End Controller.

(** *** The collaborators of this repository over a concrete world *)

Record Outside := {
  env : World.Env;
  catalog : outcome (list Paper);
  disk : outcome unit;
  files : list (string * string);
  wall : string
}.

Definition with_env (o : Outside) (e : World.Env) : Outside :=
  {| env := e; catalog := catalog o; disk := disk o; files := files o;
     wall := wall o |}.

(** [_save_digest]: two files named after the run date *)
Definition save_digest_files (md txt run_date : string) (o : Outside)
  : outcome unit * Outside :=
  match disk o with
  | Raise ex => (Raise ex, o)
  | Return _ =>
      (Return tt,
       {| env := env o; catalog := catalog o; disk := disk o;
          files :=
            (files o
             ++ [(String.concat "" ["digest-"; run_date; ".md"], md);
                 (String.concat "" ["digest-"; run_date; ".txt"], txt)])%list;
          wall := wall o |})
  end.

Definition repo_collaborators `{Runtime}
    (render_md render_txt : list Summarizer.Summarized -> string -> outcome string)
  : Collaborators Outside := {|
  fetch_papers := fun _ o => (catalog o, o);
  summarize_papers := fun papers db cfg o =>
    let '(out, db', e') := Summarizer.summarize_papers papers db cfg (env o) in
    (Return out, db', with_env o e');
  render_markdown := render_md;
  render_plaintext := render_txt;
  _save_digest := fun md txt run_date _ o => save_digest_files md txt run_date o;
  push_digest := fun md txt run_date cfg o =>
    let '(results, e') := Push.push_digest md txt run_date cfg (env o) in
    (Return results, with_env o e');
  _now_iso := wall
|}.

End Cli.

(* ===================================================================== *)
(** ** Sample data, after the fixtures of tests/conftest.py *)
(* ===================================================================== *)

Module Samples.
Import Py Db World.

Definition sample_paper : Paper :=
  {| arxiv_id := "2401.00001";
     title := "Test Paper on Large Language Models";
     authors := "Alice, Bob";
     category := "cs.CL";
     published_at := "2024-01-15T00:00:00Z";
     updated_at := "2024-01-15T00:00:00Z";
     abs_url := "https://arxiv.org/abs/2401.00001";
     pdf_url := "https://arxiv.org/pdf/2401.00001";
     abstract := "We present a novel approach to training large language models." |}.

(** the test input of [test_validate_summary_wrong_contributions_type] *)
Definition wrong_contributions : pydict :=
  [("title_zh", VStr "t");
   ("contributions_zh", VStr "single string instead of list")].

(** a runtime without a JSON codec, for runs that never reach it *)
Definition offline : Runtime :=
  {| json_loads := fun _ => NotJSON;
     json_dumps := fun _ => EmptyString;
     py_repr := fun _ => EmptyString |}.

Definition sample_cfg (channels : list string) : Config.Settings :=
  {| Config.vllm_url := "http://localhost:8000/v1/chat/completions";
     Config.vllm_model_name := "model";
     Config.vllm_api_key := "";
     Config.llm_max_concurrency := 4;
     Config.llm_rate_limit_rpm := 30;
     Config.push_channels := channels;
     Config.email_configured := true;
     Config.qq_configured := Return true |}.

(** an environment in which the gateway is unreachable and the mail and
    group-chat deliveries meet the given fates *)
Definition env_with (mail chat : list (outcome unit)) : Env :=
  {| mono := 0; elapsed := []; responses := []; requests := [];
     smtp := mail; onebot := chat; delivered := [] |}.

Definition outside_with (e : Env) (cat : outcome (list Paper))
    (dsk : outcome unit) : Cli.Outside :=
  {| Cli.env := e; Cli.catalog := cat; Cli.disk := dsk; Cli.files := [];
     Cli.wall := "2024-01-15T08:30:00+00:00" |}.

(** a renderer that returns a heading only *)
Definition heading_render (papers : list Summarizer.Summarized)
    (run_date : string) : outcome string :=
  Return (String.append "arXiv Digest " run_date).

Definition sample_collaborators : Cli.Collaborators Cli.Outside :=
  @Cli.repo_collaborators offline heading_render heading_render.

(** a store in which the run of 2024-01-15 is recorded as sent by mail *)
Definition sent_by_email : Database :=
  upsert_run empty_db "2024-01-15" "sent" "email" "2024-01-15T08:31:00+00:00".

End Samples.

(* ===================================================================== *)
(** ** Vocabulary of the statements below *)
(* ===================================================================== *)

Module SpecDefs.
Import Py Db PyStr.

(** the [sent_channels] string that [mark_sent] writes *)
Definition merged (db : Database) (run_date channel : string) : string :=
  match get_run db run_date with
  | None => channel
  | Some run =>
      join "," (sorted (elements (channel_set (sent_channels run) ∪ {[channel]})))
  end.

(** the value a required field ends up with after the defaulting loop *)
Definition filled (data : pydict) (key : string) (default : pyval) : pyval :=
  match dict_get data key with
  | Some v => if truthy v then v else default
  | None => default
  end.

(** the shape the last two checks of [_validate_summary] enforce *)
Definition normal_contributions `{Runtime} (v : pyval) : pyval :=
  match v with
  | VList l => VList l
  | _ => VList [VStr (py_str v)]
  end.

Definition normal_links (v : pyval) : pyval :=
  match v with
  | VDict l => VDict l
  | _ => Summarizer.default_links
  end.

Definition text_fields : list string :=
  ["title_zh"; "tldr_zh"; "method_zh"; "experiments_zh"; "results_zh";
   "limitations_zh"; "who_should_read_zh"].

(** the name under which [push_digest] records a configured channel *)
Definition channel_key (channel : string) : string :=
  PyStr.lower (PyStr.strip channel).

(** [acquired n done rl e]: a limiter made for [n] requests per minute
    has served the acquisitions that completed at the clock readings
    [done], newest first, and is now [rl] in environment [e].  Between two
    acquisitions anything may happen outside, but the clock does not run
    backwards. *)
Inductive acquired (n : nat) : list Z -> Llm.RateLimiter -> World.Env -> Prop :=
  | acquired_none e :
      acquired n [] (Llm.new_RateLimiter (Z.of_nat n)) e
  | acquired_next done rl e e1 slept rl' e' :
      acquired n done rl e ->
      World.mono e <= World.mono e1 ->
      Llm.acquire rl e1 = (Return slept, rl', e') ->
      acquired n (World.mono e' :: done) rl' e'.

(** newest-first lists of completion times: each is no earlier than the
    ones after it *)
Fixpoint desc (l : list Z) : Prop :=
  match l with
  | [] => True
  | t :: rest => (forall x, In x rest -> x <= t) /\ desc rest
  end.

(** each completion is a full window later than the one [S m] places
    before it (and than all older ones) *)
Fixpoint spaced (m : nat) (l : list Z) : Prop :=
  match l with
  | [] => True
  | t :: rest =>
      (forall x, In x (skipn m rest) -> x + Llm.WINDOW <= t) /\ spaced m rest
  end.

(** the invariant of the limiter along a history of acquisitions *)
Definition limiter_inv (n : nat) (done : list Z) (rl : Llm.RateLimiter)
    (e : World.Env) : Prop :=
  Llm._rpm rl = Z.of_nat n /\
  (exists dead,
     done = (rev (Llm._timestamps rl) ++ dead)%list /\
     forall x, In x dead -> x + Llm.WINDOW <= World.mono e) /\
  (forall x, In x done -> x <= World.mono e) /\
  desc done /\ spaced (Nat.pred n) done.

(** [t] lies in the 60 second interval that starts at [a] *)
Definition in_window (a t : Z) : bool :=
  (a <=? t) && (t <? a + Llm.WINDOW).

(** the statuses [cmd_run] writes when it does not return early *)
Definition written (st : string) : Prop :=
  st = "empty" \/ st = "rendered" \/ st = "sent" \/ st = "failed".

(** the order of run states: pending and failed, then empty and
    rendered, then sent *)
Definition status_rank (st : string) : nat :=
  if String.eqb st "sent" then 2%nat
  else if String.eqb st "empty" || String.eqb st "rendered" then 1%nat
  else 0%nat.



End SpecDefs.

(* ===================================================================== *)
(** ** db.py: the read queries *)
(* ===================================================================== *)

Module Queries.
Import Py Db.

(** [ORDER BY p.published_at DESC]: text comparison, newest first; rows
    with equal [published_at] are kept in table order. *)
Fixpoint insert_desc {A} (key : A -> string) (r : A) (rs : list A) : list A :=
  match rs with
  | [] => [r]
  | x :: xs =>
      if String.leb (key x) (key r) then r :: x :: xs
      else x :: insert_desc key r xs
  end.

Definition order_desc {A} (key : A -> string) (rs : list A) : list A :=
  fold_right (insert_desc key) [] rs.

(** [get_papers_without_summary]: the left join filtered on a missing
    summary row. *)
Definition get_papers_without_summary (db : Database) : list PaperRow :=
  order_desc (fun r => published_at (row_paper r))
    (List.filter (fun r => negb (has_summary db (row_id r))) (papers db)).

(** [get_all_papers_with_summaries]: the inner join; each row comes with
    its [summary_json]. *)
Definition joined (db : Database) (r : PaperRow) : list (PaperRow * pydict) :=
  match summaries db !! row_id r with
  | Some s => [(r, s)]
  | None => []
  end.

Definition get_all_papers_with_summaries (db : Database)
  : list (PaperRow * pydict) :=
  order_desc (fun rs => published_at (row_paper (fst rs)))
    (List.concat (List.map (joined db) (papers db))).

End Queries.

(* ===================================================================== *)
(** ** cli.py: the other commands *)
(* ===================================================================== *)

Module Commands.
Import Py Db Cli Queries.

Section Commands.
Context {W : Type} `{Collaborators W}.

(** [cmd_fetch]: no handler, only the [finally]. *)
Definition cmd_fetch (cfg : Config.Settings) (db : Database) (w : W)
  : outcome unit * state :=
  let '(r, w1) := fetch_papers cfg w in
  match r with
  | Raise ex => (Raise ex, (db, w1, [EFetch; EClose]))
  | Return papers =>
      let '(_, db1) := upsert_papers db papers (_now_iso w1) in
      (Return tt, (db1, w1, [EFetch; EUpsertPapers; EClose]))
  end.

(** [cmd_summarize] *)
Definition cmd_summarize (cfg : Config.Settings) (db : Database) (w : W)
  : outcome unit * state :=
  match get_papers_without_summary db with
  | [] => (Return tt, (db, w, [EClose]))
  | rows =>
      let '(r, db1, w1) :=
        summarize_papers (List.map row_paper rows) db cfg w in
      match r with
      | Raise ex => (Raise ex, (db1, w1, [ESummarize; EClose]))
      | Return _ => (Return tt, (db1, w1, [ESummarize; EClose]))
      end
  end.

(** the rows of [cmd_send] once [summary_json] is decoded *)
Definition with_summary (rs : PaperRow * pydict) : Summarizer.Summarized :=
  {| Summarizer.s_paper := row_paper (fst rs);
     Summarizer.summary := Some (snd rs) |}.

(** [cmd_send], with [today] the run date it settled on. *)
Definition cmd_send (today : string) (cfg : Config.Settings)
    (db : Database) (w : W) : outcome unit * state :=
  match get_all_papers_with_summaries db with
  | [] => (Return tt, (db, w, [EClose]))
  | rows =>
      let papers := List.map with_summary rows in
      match render_markdown papers today with
      | Raise ex => (Raise ex, (db, w, [ERender; EClose]))
      | Return md =>
          match render_plaintext papers today with
          | Raise ex => (Raise ex, (db, w, [ERender; EClose]))
          | Return txt =>
              let '(r3, w3) := _save_digest md txt today cfg w in
              match r3 with
              | Raise ex => (Raise ex, (db, w3, [ERender; ESaveDigest; EClose]))
              | Return _ =>
                  let '(r4, w4) := push_digest md txt today cfg w3 in
                  match r4 with
                  | Raise ex =>
                      (Raise ex, (db, w4, [ERender; ESaveDigest; EPush; EClose]))
                  | Return results =>
                      match succeeded results with
                      | [] =>
                          (Return tt,
                           (db, w4, [ERender; ESaveDigest; EPush; EClose]))
                      | sent =>
                          (Return tt,
                           (mark_sent db today (PyStr.join "," sent)
                              (_now_iso w4), w4,
                            [ERender; ESaveDigest; EPush;
                             EUpsertRun "sent" (PyStr.join "," sent); EClose]))
                      end
                  end
              end
          end
      end
  end.

End Commands.

End Commands.

(* ===================================================================== *)
(** ** config.py: the comma-separated settings *)
(* ===================================================================== *)

Module ConfigLists.

(** [[s.strip() for s in text.split(",") if s.strip()]], the body of the
    properties [push_channels], [arxiv_categories] and the keyword lists *)
Definition comma_list (text : string) : list string :=
  List.filter PyStr.nonempty
    (List.map PyStr.strip (PyStr.split PyStr.comma text)).

End ConfigLists.
(* ===================================================================== *)
(** ** llm.py: the health check *)
(* ===================================================================== *)

Module Health.
Import Py World Llm.

(** [LLMClient.check_health]: any exception is logged and answered with
    [False]. *)
Definition check_health (c : LLMClient) (e : Env) : bool * LLMClient * Env :=
  let messages :=
    [{| role := "user"; content := "Reply with exactly: ok" |}] in
  match chat c messages 0%float 10 e with
  | (Return (VStr result), c', e') => (PyStr.nonempty (PyStr.strip result), c', e')
  | (Return _, c', e') => (false, c', e')
  | (Raise _, c', e') => (false, c', e')
  end.

End Health.

(* ===================================================================== *)
(** ** fetcher.py: fetching from the arXiv API *)
(* ===================================================================== *)

Module Fetcher.
Import Py Db.

(** the settings the fetcher reads *)
Record FetchSettings := {
  arxiv_categories : list string;
  arxiv_include_keywords : list string;
  arxiv_exclude_keywords : list string;
  max_papers_per_day : Z;
  time_window_hours : Z
}.

(** The arXiv API as the fetcher meets it: the fate of each call of
    [_fetch_arxiv_page] (after its retries; it returns the entries
    parsed or raises an [Exception]), the
    calls made so far, the seconds slept, and whether a publication time
    lies within a number of hours before now ([None] when parsing or
    comparing it raises [ValueError] or [TypeError]). *)
Record Arxiv := {
  pages : list (outcome (list Paper));
  asked : list (string * Z * Z);
  slept : Z;
  published_since : string -> Z -> option bool
}.

Definition sleep (secs : Z) (e : Arxiv) : Arxiv :=
  {| pages := pages e; asked := asked e; slept := slept e + secs;
     published_since := published_since e |}.

(** [_build_query] *)
Definition _build_query (categories : list string) : string :=
  PyStr.join " OR " (List.map (String.append "cat:") categories).

(** [needle in hay] *)
Fixpoint contains (needle hay : string) : bool :=
  String.prefix needle hay
  || match hay with
     | EmptyString => false
     | String _ rest => contains needle rest
     end.

(** [any(kw.lower() in text for kw in kws)] *)
Definition any_keyword (kws : list string) (text : string) : bool :=
  existsb (fun kw => contains (PyStr.lower kw) text) kws.

(** the body of the loop of [_apply_keyword_filter]: is [p] appended? *)
Definition keeps (include exclude : list string) (p : Paper) : bool :=
  let text :=
    PyStr.lower (String.append (title p) (String.append " " (abstract p))) in
  if negb (length exclude =? 0)%nat && any_keyword exclude text then false
  else if negb (length include =? 0)%nat && negb (any_keyword include text)
       then false
  else true.

Definition _apply_keyword_filter (papers : list Paper)
    (include exclude : list string) : list Paper :=
  List.filter (keeps include exclude) papers.

(** [_apply_time_filter]: a paper whose time cannot be read is kept *)
Definition _apply_time_filter (papers : list Paper) (hours : Z) (e : Arxiv)
  : list Paper :=
  List.filter
    (fun p => match published_since e (published_at p) hours with
              | Some recent => recent
              | None => true
              end)
    papers.

(** [_fetch_arxiv_page], retries included *)
Definition _fetch_arxiv_page (query : string) (start max_results : Z)
    (e : Arxiv) : outcome (list Paper) * Arxiv :=
  let log := (asked e ++ [(query, start, max_results)])%list in
  match pages e with
  | [] =>
      (Raise HTTPError,
       {| pages := []; asked := log; slept := slept e;
          published_since := published_since e |})
  | r :: rs =>
      (r, {| pages := rs; asked := log; slept := slept e;
             published_since := published_since e |})
  end.

Definition page_size : Z := 100.

(** [range(0, fetch_limit, page_size)] *)
Definition page_starts (fetch_limit : Z) : list Z :=
  List.map (fun k => Z.of_nat k * page_size)
    (seq 0 (Z.to_nat ((fetch_limit + page_size - 1) / page_size))).

(** the inner loop: append the papers whose identifier was not seen *)
Definition add_paper (st : list Paper * gset string) (p : Paper)
  : list Paper * gset string :=
  let '(all_papers, seen_ids) := st in
  if bool_decide (arxiv_id p ∈ seen_ids) then (all_papers, seen_ids)
  else ((all_papers ++ [p])%list, seen_ids ∪ {[arxiv_id p]}).

(** the loop over the pages, with its three [break]s *)
Fixpoint fetch_pages (query : string) (fetch_limit : Z) (starts : list Z)
    (page_idx : Z) (st : list Paper * gset string) (e : Arxiv)
  : list Paper * Arxiv :=
  match starts with
  | [] => (fst st, e)
  | start :: rest =>
      let e := if 0 <? page_idx then sleep 4 e else e in
      let batch_size := Z.min page_size (fetch_limit - start) in
      match _fetch_arxiv_page query start batch_size e with
      | (Raise _, e1) => (fst st, e1)
      | (Return [], e1) => (fst st, e1)
      | (Return batch, e1) =>
          let st := fold_left add_paper batch st in
          if Z.of_nat (length batch) <? batch_size then (fst st, e1)
          else fetch_pages query fetch_limit rest (page_idx + 1) st e1
      end
  end.

(** [l[:n]] *)
Definition py_take {A} (n : Z) (l : list A) : list A :=
  if 0 <=? n then firstn (Z.to_nat n) l
  else firstn (length l - Z.to_nat (- n)) l.

(** [fetch_papers] *)
Definition fetch_papers (cfg : FetchSettings) (e : Arxiv)
  : list Paper * Arxiv :=
  match arxiv_categories cfg with
  | [] => ([], e)
  | categories =>
      let query := _build_query categories in
      let fetch_limit := Z.min (max_papers_per_day cfg * 3) 300 in
      let '(all_papers, e1) :=
        fetch_pages query fetch_limit (page_starts fetch_limit) 0 ([], ∅) e in
      let papers := _apply_time_filter all_papers (time_window_hours cfg) e1 in
      let papers :=
        _apply_keyword_filter papers (arxiv_include_keywords cfg)
          (arxiv_exclude_keywords cfg) in
      (py_take (max_papers_per_day cfg) papers, e1)
  end.

End Fetcher.

(* ===================================================================== *)
(** ** More sample inputs *)
(* ===================================================================== *)

Module MoreSamples.
Import Py Db World Samples.

Definition second_paper : Paper :=
  {| arxiv_id := "2401.00002";
     title := "Paper 2";
     authors := "Alice, Bob";
     category := "cs.CL";
     published_at := "2024-01-14T00:00:00Z";
     updated_at := "2024-01-14T00:00:00Z";
     abs_url := "https://arxiv.org/abs/2401.00002";
     pdf_url := "https://arxiv.org/pdf/2401.00002";
     abstract := "We study efficient attention mechanisms for transformers." |}.

(** a runtime whose JSON reader knows the empty object only *)
Definition empty_object_codec : Runtime :=
  {| json_loads :=
       fun s => if String.eqb s "{}" then Loaded (VDict []) else NotJSON;
     json_dumps := fun _ => EmptyString;
     py_repr := fun _ => EmptyString |}.

(** a store with one paper and its summary *)
Definition one_summarized : Database :=
  save_summary (snd (upsert_paper empty_db sample_paper "2024-01-15T08:00:00+00:00"))
    "2401.00001" [("title_zh", VStr "t")].

(** fetch settings and an API that answers one short page *)
Definition sample_fetch_cfg : Fetcher.FetchSettings :=
  {| Fetcher.arxiv_categories := ["cs.CL"; "cs.AI"];
     Fetcher.arxiv_include_keywords := [];
     Fetcher.arxiv_exclude_keywords := [];
     Fetcher.max_papers_per_day := 50;
     Fetcher.time_window_hours := 72 |}.

Definition sample_arxiv : Fetcher.Arxiv :=
  {| Fetcher.pages := [Return [sample_paper; second_paper; sample_paper]];
     Fetcher.asked := [];
     Fetcher.slept := 0;
     Fetcher.published_since := fun _ _ => Some true |}.

(** a first run on an empty store in which the mail goes out *)
Definition first_run : outcome unit * Cli.state :=
  @Cli.cmd_run _ sample_collaborators "2024-01-15" (sample_cfg ["email"])
    empty_db
    (outside_with (env_with [Return tt] []) (Return [sample_paper])
       (Return tt)).

(** the world at a later run: another paper in the catalog, mail down *)
Definition later_outside : Cli.Outside :=
  outside_with (env_with [] []) (Return [second_paper]) (Return tt).

End MoreSamples.

(* ===================================================================== *)
(** ** More vocabulary for the statements *)
(* ===================================================================== *)

Module MoreSpecDefs.
Import Py.

(** what the gateway answers to the [i]-th HTTP attempt from now on *)
Definition answer (e : World.Env) (i : nat) : outcome pyval :=
  nth i (World.responses e) (Raise HTTPError).

(** a well-formed reply body: the text [x] as content of the first choice *)
Definition reply_body (x : pyval) (more : list pyval) (extra : pydict) : pyval :=
  VDict (("choices",
          VList (VDict [("message", VDict [("content", x)])] :: more)) :: extra).

(** the uniform shape of a validated summary: the nine fields present
    and truthy, the contributions a list, the links a mapping *)
Definition valid_summary (s : pydict) : Prop :=
  (forall key, In key (List.map fst Summarizer.defaults) ->
     exists v, dict_get s key = Some v /\ truthy v = true) /\
  (exists l, dict_get s "contributions_zh" = Some (VList l)) /\
  (exists l, dict_get s "links" = Some (VDict l)).

(** a summary as [_do_one] stores it for paper [p]: validated, with the
    paper's own two links *)
Definition stored_for (p : Db.Paper) (s : pydict) : Prop :=
  valid_summary s /\
  exists links,
    dict_get s "links" = Some (VDict links) /\
    dict_get links "abs" = Some (VStr (Db.abs_url p)) /\
    dict_get links "pdf" = Some (VStr (Db.pdf_url p)).

(** [a] may stand before [b] in a list ordered newest first *)
Definition newest_first {A} (key : A -> string) (a b : A) : Prop :=
  String.leb (key b) (key a) = true.

(** what [_extract_json] does with stripped text that has no fence left *)
Definition parse_stripped `{Runtime} (text : string) : outcome pyval :=
  match json_loads text with
  | Loaded v => Return v
  | LoadFails ex => Raise ex
  | NotJSON =>
      let start := PyStr.find text "{"%char in
      let end_ := PyStr.rfind text "}"%char in
      if negb (start =? -1) && negb (end_ =? -1) && (start <? end_) then
        match json_loads (PyStr.slice text start (end_ + 1)) with
        | Loaded v => Return v
        | LoadFails ex => Raise ex
        | NotJSON => Raise ValueError
        end
      else Raise ValueError
  end.

(** what the delivery channels have been through: the fates still to come
    and the log of what went out *)
Definition outbox (e : World.Env)
  : list (outcome unit) * list (outcome unit) * list string :=
  (World.smtp e, World.onebot e, World.delivered e).

(** the stages of [cmd_run] in the order of the source *)
Definition stages : list Cli.event :=
  [Cli.EFetch; Cli.EUpsertPapers; Cli.ESummarize; Cli.ERender;
   Cli.ESaveDigest; Cli.EPush].

(** what the loop keeps about the papers collected so far *)
Definition collected (st : list Db.Paper * gset string) : Prop :=
  NoDup (List.map Db.arxiv_id (fst st)) /\
  forall p, In p (fst st) -> Db.arxiv_id p ∈ snd st.

(** the request for the page that begins at [start] *)
Definition request (query : string) (fetch_limit start : Z) : string * Z * Z :=
  (query, start, Z.min Fetcher.page_size (fetch_limit - start)).

End MoreSpecDefs.

(* ===================================================================== *)
(** * Verification *)
(* ===================================================================== *)

(** ** Strings: split, join, sorted *)

Module PyStrFacts.
Import PyStr.

Lemma split_not_nil sep s : split sep s <> [].
Proof.
  destruct s as [|c s]; simpl; [discriminate|].
  destruct (Ascii.eqb c sep); [discriminate|].
  destruct (split sep s); discriminate.
Qed.

(** no field of a split contains the separator *)
Lemma split_no_sep sep s x :
  In x (split sep s) -> contains_char sep x = false.
Proof.
  revert x. induction s as [|c s IH]; intros x Hx; simpl in Hx.
  - destruct Hx as [<-|[]]. reflexivity.
  - destruct (Ascii.eqb c sep) eqn:Ec.
    + destruct Hx as [<-|Hx]; [reflexivity|auto].
    + destruct (split sep s) as [|w ws] eqn:Es.
      * destruct Hx as [<-|[]]. simpl. now rewrite Ec.
      * destruct Hx as [<-|Hx].
        -- simpl. rewrite Ec. simpl. apply IH. now left.
        -- apply IH. now right.
Qed.

Lemma split_sep_free sep x :
  contains_char sep x = false -> split sep x = [x].
Proof.
  induction x as [|c x IH]; simpl; intros Hc; [reflexivity|].
  apply orb_false_iff in Hc as [Hc Hx].
  rewrite Hc, (IH Hx). reflexivity.
Qed.

Lemma split_app_sep sep x rest :
  contains_char sep x = false ->
  split sep (String.append x (String sep rest)) = x :: split sep rest.
Proof.
  induction x as [|c x IH]; simpl; intros Hc.
  - now rewrite Ascii.eqb_refl.
  - apply orb_false_iff in Hc as [Hc Hx].
    rewrite Hc, (IH Hx). reflexivity.
Qed.

(** splitting a join gives the fields back *)
Lemma split_join sep xs :
  xs <> [] ->
  (forall x, In x xs -> contains_char sep x = false) ->
  split sep (join (String sep EmptyString) xs) = xs.
Proof.
  induction xs as [|x xs IH]; intros Hne Hfree; [congruence|].
  destruct xs as [|y ys].
  - simpl. apply split_sep_free. apply Hfree. now left.
  - change (join (String sep EmptyString) (x :: y :: ys))
      with (String.append x
              (String.append (String sep EmptyString)
                 (join (String sep EmptyString) (y :: ys)))).
    change (String.append (String sep EmptyString)
              (join (String sep EmptyString) (y :: ys)))
      with (String sep (join (String sep EmptyString) (y :: ys))).
    rewrite split_app_sep by (apply Hfree; now left).
    rewrite IH; [reflexivity|discriminate|].
    intros z Hz. apply Hfree. now right.
Qed.

Lemma In_insert_sorted x y ys : In x (insert_sorted y ys) <-> x = y \/ In x ys.
Proof.
  induction ys as [|z zs IH]; simpl.
  - intuition congruence.
  - destruct (String.leb y z); simpl; [intuition congruence|].
    rewrite IH. intuition congruence.
Qed.

Lemma In_sorted x xs : In x (sorted xs) <-> In x xs.
Proof.
  induction xs as [|y ys IH]; simpl; [tauto|].
  rewrite In_insert_sorted, IH. intuition congruence.
Qed.

(** the fields before a separator, then the fields after it *)
Lemma split_app sep x y :
  split sep (String.append x (String sep y))
  = (split sep x ++ split sep y)%list.
Proof.
  induction x as [|c x IH]; simpl.
  - now rewrite Ascii.eqb_refl.
  - destruct (Ascii.eqb c sep); [now rewrite IH|].
    rewrite IH. destruct (split sep x) as [|w ws] eqn:E.
    + now apply split_not_nil in E.
    + reflexivity.
Qed.

(** splitting a join gives the fields of all the parts *)
Lemma split_join_concat sep xs :
  xs <> [] ->
  split sep (join (String sep EmptyString) xs)
  = List.concat (List.map (split sep) xs).
Proof.
  induction xs as [|x xs IH]; intros Hne; [congruence|].
  destruct xs as [|y ys].
  - cbn [join List.map List.concat]. now rewrite app_nil_r.
  - change (join (String sep EmptyString) (x :: y :: ys))
      with (String.append x
              (String.append (String sep EmptyString)
                 (join (String sep EmptyString) (y :: ys)))).
    change (String.append (String sep EmptyString)
              (join (String sep EmptyString) (y :: ys)))
      with (String sep (join (String sep EmptyString) (y :: ys))).
    rewrite split_app, IH by discriminate. reflexivity.
Qed.

End PyStrFacts.

(** ** The persistent store *)

Module DbFacts.
Import Py Db PyStr PyStrFacts Samples SpecDefs.

Lemma has_paper_rows_for db id :
  has_paper db id = false -> rows_for db id = [].
Proof.
  unfold has_paper, rows_for. induction (papers db) as [|r rs IH]; simpl.
  - reflexivity.
  - intros Hno. apply orb_false_iff in Hno as [Hr Hrs].
    rewrite Hr. auto.
Qed.

Lemma filter_app_list {A} (f : A -> bool) (l1 l2 : list A) :
  List.filter f (l1 ++ l2)%list = (List.filter f l1 ++ List.filter f l2)%list.
Proof.
  induction l1 as [|a l1 IH]; simpl; [reflexivity|].
  destruct (f a); simpl; now rewrite IH.
Qed.

Lemma existsb_app_list {A} (f : A -> bool) (l1 l2 : list A) :
  existsb f (l1 ++ l2)%list = existsb f l1 || existsb f l2.
Proof.
  induction l1 as [|a l1 IH]; simpl; [reflexivity|].
  now rewrite IH, orb_assoc.
Qed.

(** a duplicate identifier leaves the store as it is *)
Lemma upsert_paper_duplicate db q now :
  has_paper db (arxiv_id q) = true -> upsert_paper db q now = (false, db).
Proof. intros Hdup. unfold upsert_paper. now rewrite Hdup. Qed.

Lemma upsert_paper_fresh db p now :
  has_paper db (arxiv_id p) = false ->
  upsert_paper db p now =
  (true, {| papers := (papers db ++ [{| row_paper := p; fetched_at := now |}])%list;
            summaries := summaries db; runs := runs db |}).
Proof. intros Hnew. unfold upsert_paper. now rewrite Hnew. Qed.

(** C2. A paper whose identifier is not yet stored is inserted by the
    first [upsert_paper], which returns [True]; a second [upsert_paper]
    with that identifier (the same paper, or another one carrying the same
    identifier) returns [False] and leaves the store unchanged, so table
    [papers] holds exactly one row for the identifier: the one first
    inserted.  On any store, an identifier already present makes
    [upsert_paper] a no-op returning [False]. *)
Theorem upsert_paper_twice (db : Database) (p q : Paper) (t1 t2 : string) :
  arxiv_id q = arxiv_id p ->
  (has_paper db (arxiv_id p) = false ->
   let first := upsert_paper db p t1 in
   let second := upsert_paper (snd first) q t2 in
   fst first = true /\ fst second = false /\ snd second = snd first /\
   rows_for (snd second) (arxiv_id p)
   = [{| row_paper := p; fetched_at := t1 |}])
  /\ (has_paper db (arxiv_id p) = true ->
      upsert_paper db q t2 = (false, db)).
Proof.
  intros Hid. split.
  - intros Hnew first second. subst first second.
    rewrite (upsert_paper_fresh db p t1 Hnew). cbn [fst snd].
    set (db1 := {| papers := _; summaries := _; runs := _ |}).
    assert (Hdup : has_paper db1 (arxiv_id q) = true).
    { unfold has_paper, db1. cbn [papers]. rewrite existsb_app_list. simpl.
      unfold row_id. cbn [row_paper]. rewrite Hid, String.eqb_refl.
      now rewrite orb_true_r. }
    rewrite (upsert_paper_duplicate db1 q t2 Hdup). cbn [fst snd].
    repeat split.
    unfold rows_for, db1. cbn [papers]. rewrite filter_app_list.
    fold (rows_for db (arxiv_id p)). rewrite (has_paper_rows_for _ _ Hnew).
    simpl. unfold row_id. cbn [row_paper]. now rewrite String.eqb_refl.
  - intros Hdup. apply upsert_paper_duplicate. now rewrite Hid.
Qed.

Lemma upsert_paper_twice_witness :
  has_paper empty_db (arxiv_id sample_paper) = false /\
  fst (upsert_paper empty_db sample_paper "t1") = true /\
  fst (upsert_paper (snd (upsert_paper empty_db sample_paper "t1"))
         sample_paper "t2") = false.
Proof.
  pose proof (upsert_paper_twice empty_db sample_paper sample_paper "t1" "t2"
                eq_refl) as [Hfresh _].
  specialize (Hfresh eq_refl). cbv zeta in Hfresh.
  destruct Hfresh as (H1 & H2 & _).
  split; [reflexivity|]. split; assumption.
Defined.

Lemma elem_of_channel_set c s :
  c ∈ channel_set s <-> c <> "" /\ In c (split comma s).
Proof.
  unfold channel_set. rewrite elem_of_list_to_set, list_elem_of_In.
  rewrite filter_In. unfold nonempty. rewrite negb_true_iff.
  rewrite String.eqb_neq. tauto.
Qed.

Lemma channel_set_sep_free c s :
  c ∈ channel_set s -> contains_char comma c = false.
Proof.
  rewrite elem_of_channel_set. intros [_ Hin]. eapply split_no_sep; eauto.
Qed.

Lemma get_run_upsert_run db run_date st sent now :
  exists created,
    get_run (upsert_run db run_date st sent now) run_date
    = Some {| status := st; sent_channels := sent; created_at := created |}.
Proof.
  unfold get_run, upsert_run. cbn [runs]. rewrite lookup_insert_eq.
  destruct (runs db !! run_date); eauto.
Qed.

Lemma get_run_mark_sent db run_date channel now :
  exists created,
    get_run (mark_sent db run_date channel now) run_date
    = Some {| status := "sent"; sent_channels := merged db run_date channel;
              created_at := created |}.
Proof.
  unfold mark_sent, merged.
  destruct (get_run db run_date); apply get_run_upsert_run.
Qed.

Lemma In_split_merged db run_date channel c :
  contains_char comma channel = false ->
  In c (split comma (merged db run_date channel)) <->
  c = channel \/
  exists run, get_run db run_date = Some run /\ c ∈ channel_set (sent_channels run).
Proof.
  intros Hfree. unfold merged. destruct (get_run db run_date) as [run|].
  - set (S := channel_set (sent_channels run) ∪ {[channel]}).
    assert (HS : forall x, In x (sorted (elements S)) <-> x ∈ S).
    { intros x. now rewrite In_sorted, <- list_elem_of_In, elem_of_elements. }
    change "," with (String comma EmptyString).
    rewrite split_join.
    + rewrite HS. unfold S. rewrite elem_of_union, elem_of_singleton.
      split.
      * intros [Hc|Hc]; [right; eauto|now left].
      * intros [Hc|(r & Hr & Hc)]; [now right|]. injection Hr as <-. now left.
    + intros Hnil.
      assert (Hin : In channel (sorted (elements S))).
      { apply HS. unfold S. apply elem_of_union. right.
        now apply elem_of_singleton. }
      rewrite Hnil in Hin. destruct Hin.
    + intros x Hx. apply (proj1 (HS x)) in Hx. unfold S in Hx.
      apply elem_of_union in Hx as [Hx|Hx].
      * eapply channel_set_sep_free; eauto.
      * apply elem_of_singleton in Hx. now subst.
  - rewrite split_sep_free by assumption. simpl.
    split.
    + intros [<-|[]]. now left.
    + intros [->|(r & Hr & _)]; [now left|discriminate].
Qed.

Lemma was_sent_true db run_date c :
  was_sent db run_date c = true <->
  exists run, get_run db run_date = Some run
              /\ In c (split comma (sent_channels run)).
Proof.
  unfold was_sent. destruct (get_run db run_date) as [run|].
  - rewrite bool_decide_eq_true, list_elem_of_In. split; eauto.
    intros (r & Hr & Hin). now injection Hr as <-.
  - split; [discriminate|]. intros (r & Hr & _). discriminate.
Qed.

(** what is marked, and what was recorded before, is reported as sent *)
Lemma was_sent_mark_sent db run_date channel now c :
  contains_char comma channel = false ->
  c = channel \/ (c <> "" /\ was_sent db run_date c = true) ->
  was_sent (mark_sent db run_date channel now) run_date c = true.
Proof.
  intros Hfree Hc. apply was_sent_true.
  destruct (get_run_mark_sent db run_date channel now) as [created Hrun].
  eexists. split; [exact Hrun|]. cbn [sent_channels].
  apply In_split_merged; [assumption|].
  destruct Hc as [->|[Hne Hsent]]; [now left|right].
  apply was_sent_true in Hsent as (run & Hr & Hin).
  exists run. split; [assumption|]. now apply elem_of_channel_set.
Qed.

(** C9. After [mark_sent(run_id, "email")] and then
    [mark_sent(run_id, "qq")], on any store, [was_sent] holds of both
    channels, the run's status is [sent], and every non-empty channel that
    [was_sent] reported before the two calls is still reported: the new
    channel is merged into the recorded set. *)
Theorem mark_sent_email_then_qq (db : Database) (run_id t1 t2 : string) :
  let db2 := mark_sent (mark_sent db run_id "email" t1) run_id "qq" t2 in
  was_sent db2 run_id "email" = true /\
  was_sent db2 run_id "qq" = true /\
  (exists run, get_run db2 run_id = Some run /\ status run = "sent") /\
  (forall c, c <> "" -> was_sent db run_id c = true ->
             was_sent db2 run_id c = true).
Proof.
  intros db2. subst db2.
  assert (Hemail : forall c,
             c = "email" \/ (c <> "" /\ was_sent db run_id c = true) ->
             c <> "" /\ was_sent (mark_sent db run_id "email" t1) run_id c = true).
  { intros c Hc. split.
    - destruct Hc as [->|[Hne _]]; [discriminate|assumption].
    - apply was_sent_mark_sent; [reflexivity|assumption]. }
  repeat split.
  - apply was_sent_mark_sent; [reflexivity|]. right. apply Hemail. now left.
  - apply was_sent_mark_sent; [reflexivity|]. now left.
  - destruct (get_run_mark_sent (mark_sent db run_id "email" t1) run_id "qq" t2)
      as [created Hrun].
    eexists. split; [exact Hrun|reflexivity].
  - intros c Hne Hsent. apply was_sent_mark_sent; [reflexivity|].
    right. apply Hemail. right. now split.
Qed.

(** C10. A run stored with an empty sent-channel string, as
    [upsert_run] leaves it when called without channels, makes
    [was_sent(run_id, "")] true: splitting the empty string on commas
    gives one empty field. *)
Theorem was_sent_empty_channel (db : Database) (run_id : string) :
  (forall run, get_run db run_id = Some run -> sent_channels run = "" ->
               was_sent db run_id "" = true) /\
  (forall st now, was_sent (upsert_run db run_id st "" now) run_id "" = true) /\
  split comma "" = [""].
Proof.
  split; [|split].
  - intros run Hrun Hempty. apply was_sent_true. exists run.
    split; [assumption|]. rewrite Hempty. now left.
  - intros st now. apply was_sent_true.
    destruct (get_run_upsert_run db run_id st "" now) as [created Hrun].
    eexists. split; [exact Hrun|]. now left.
  - reflexivity.
Qed.

Lemma was_sent_empty_channel_witness :
  get_run (upsert_run empty_db "2024-01-15" "empty" "" "t0") "2024-01-15"
  = Some {| status := "empty"; sent_channels := ""; created_at := "t0" |}
  /\ was_sent (upsert_run empty_db "2024-01-15" "empty" "" "t0")
       "2024-01-15" "" = true.
Proof.
  assert (Hrun : get_run (upsert_run empty_db "2024-01-15" "empty" "" "t0")
                   "2024-01-15"
                 = Some {| status := "empty"; sent_channels := "";
                           created_at := "t0" |}) by reflexivity.
  split; [exact Hrun|].
  exact (proj1 (was_sent_empty_channel
                  (upsert_run empty_db "2024-01-15" "empty" "" "t0")
                  "2024-01-15") _ Hrun eq_refl).
Defined.

Lemma mark_sent_email_then_qq_witness :
  was_sent (upsert_run empty_db "2024-01-15" "sent" "telegram" "t0")
    "2024-01-15" "telegram" = true /\
  was_sent (mark_sent (mark_sent
              (upsert_run empty_db "2024-01-15" "sent" "telegram" "t0")
              "2024-01-15" "email" "t1") "2024-01-15" "qq" "t2")
    "2024-01-15" "telegram" = true.
Proof.
  assert (Hbefore :
    was_sent (upsert_run empty_db "2024-01-15" "sent" "telegram" "t0")
      "2024-01-15" "telegram" = true) by (vm_compute; reflexivity).
  split; [exact Hbefore|].
  refine (proj2 (proj2 (proj2 (mark_sent_email_then_qq
            (upsert_run empty_db "2024-01-15" "sent" "telegram" "t0")
            "2024-01-15" "t1" "t2"))) "telegram" _ Hbefore).
  discriminate.
Defined.

(** the channels on record after [mark_sent], for any channel argument *)
Lemma In_split_merged_any db run_date channel c :
  In c (split comma (merged db run_date channel)) <->
  In c (split comma channel) \/
  exists run, get_run db run_date = Some run /\
              c ∈ channel_set (sent_channels run).
Proof.
  unfold merged. destruct (get_run db run_date) as [run|].
  2:{ split; [now left|]. intros [Hc|(r & Hr & _)]; [exact Hc|discriminate]. }
  set (S := channel_set (sent_channels run) ∪ {[channel]}).
  assert (HS : forall x, In x (sorted (elements S)) <-> x ∈ S).
  { intros x. now rewrite In_sorted, <- list_elem_of_In, elem_of_elements. }
  change "," with (String comma EmptyString).
  rewrite split_join_concat.
  2:{ intros Hnil.
      assert (Hin : In channel (sorted (elements S))).
      { apply HS. unfold S. apply elem_of_union. right.
        now apply elem_of_singleton. }
      rewrite Hnil in Hin. destruct Hin. }
  rewrite in_concat. split.
  - intros (l & Hl & Hc). apply in_map_iff in Hl as (x & <- & Hx).
    apply HS in Hx. unfold S in Hx. apply elem_of_union in Hx as [Hx|Hx].
    + right. exists run. split; [reflexivity|].
      rewrite (split_sep_free _ _ (channel_set_sep_free _ _ Hx)) in Hc.
      destruct Hc as [<-|[]]. exact Hx.
    + apply elem_of_singleton in Hx. subst x. now left.
  - intros [Hc|(r & [= <-] & Hc)].
    + exists (split comma channel). split; [|exact Hc].
      apply in_map. apply HS. unfold S. apply elem_of_union. right.
      now apply elem_of_singleton.
    + exists [c]. split; [|now left].
      rewrite <- (split_sep_free _ _ (channel_set_sep_free _ _ Hc)).
      apply in_map. apply HS. unfold S. apply elem_of_union. now left.
Qed.

End DbFacts.

(** ** Validation of summaries *)

Module ValidateFacts.
Import Py Db Summarizer SpecDefs Samples.

Lemma dict_get_set_eq d k v : dict_get (dict_set d k v) k = Some v.
Proof.
  induction d as [|[k0 w] d IH]; simpl.
  - now rewrite String.eqb_refl.
  - destruct (String.eqb k0 k) eqn:E; simpl; rewrite E; auto.
Qed.

Lemma dict_get_set_ne d k k' v :
  k <> k' -> dict_get (dict_set d k v) k' = dict_get d k'.
Proof.
  intros Hne. induction d as [|[k0 w] d IH]; simpl.
  - apply String.eqb_neq in Hne. now rewrite Hne.
  - destruct (String.eqb k0 k) eqn:E; simpl.
    + apply String.eqb_eq in E. subst k0.
      apply String.eqb_neq in Hne. now rewrite Hne.
    + destruct (String.eqb k0 k'); auto.
Qed.

Lemma dict_get_absent (d : pydict) k :
  ~ In k (List.map fst d) -> dict_get d k = None.
Proof.
  induction d as [|[k0 w] d IH]; simpl; intros Hno; [reflexivity|].
  destruct (String.eqb k0 k) eqn:E.
  - apply String.eqb_eq in E. tauto.
  - apply IH. tauto.
Qed.

Lemma fill_default_same data key default :
  dict_get (fill_default data (key, default)) key
  = Some (filled data key default).
Proof.
  unfold fill_default, filled.
  destruct (dict_get data key) as [v|] eqn:E.
  - destruct (truthy v); simpl; [assumption|apply dict_get_set_eq].
  - apply dict_get_set_eq.
Qed.

Lemma fill_default_other data key default k :
  key <> k -> dict_get (fill_default data (key, default)) k = dict_get data k.
Proof.
  intros Hne. unfold fill_default.
  destruct (dict_get data key) as [v|].
  - destruct (truthy v); simpl; [reflexivity|now apply dict_get_set_ne].
  - now apply dict_get_set_ne.
Qed.

(** the loop over [defaults.items()], read back key by key *)
Lemma fill_defaults_get (ds : pydict) :
  NoDup (List.map fst ds) ->
  forall data k,
    dict_get (fold_left fill_default ds data) k
    = match dict_get ds k with
      | Some default => Some (filled data k default)
      | None => dict_get data k
      end.
Proof.
  induction ds as [|[k0 d0] ds IH]; intros Hnd data k; [reflexivity|].
  simpl in Hnd. apply NoDup_cons in Hnd as [Hk0 Hnd].
  cbn [fold_left]. rewrite (IH Hnd). cbn [dict_get].
  destruct (String.eqb k0 k) eqn:E.
  - apply String.eqb_eq in E. subst k.
    rewrite dict_get_absent by (now rewrite <- list_elem_of_In).
    apply fill_default_same.
  - apply String.eqb_neq in E.
    unfold filled. rewrite (fill_default_other _ _ _ _ E). reflexivity.
Qed.

Lemma defaults_keys_NoDup : NoDup (List.map fst defaults).
Proof.
  apply (bool_decide_unpack (NoDup (List.map fst defaults))).
  vm_compute. exact I.
Qed.

Lemma filled_truthy data key default :
  truthy default = true -> truthy (filled data key default) = true.
Proof.
  intros Hd. unfold filled. destruct (dict_get data key) as [v|]; [|assumption].
  destruct (truthy v) eqn:E; assumption.
Qed.

Section Validate.
Context `{Runtime}.

(** [_validate_summary], read back key by key *)
Lemma validate_get (data : pydict) (k : string) :
  dict_get (_validate_summary data) k
  = if String.eqb k "links" then
      Some (normal_links (filled data "links" default_links))
    else if String.eqb k "contributions_zh" then
      Some (normal_contributions
              (filled data "contributions_zh" (VList [VStr "unknown"])))
    else match dict_get defaults k with
         | Some default => Some (filled data k default)
         | None => dict_get data k
         end.
Proof.
  pose proof (fill_defaults_get defaults defaults_keys_NoDup data) as Hget.
  unfold _validate_summary. cbv zeta.
  set (d1 := fold_left fill_default defaults data) in *.
  pose proof (Hget "contributions_zh") as Hc.
  change (dict_get defaults "contributions_zh")
    with (Some (VList [VStr "unknown"])) in Hc.
  pose proof (Hget "links") as Hl.
  change (dict_get defaults "links") with (Some default_links) in Hl.
  cbv beta iota in Hc, Hl.
  rewrite Hc.
  set (c := filled data "contributions_zh" (VList [VStr "unknown"])) in *.
  set (d2 := match c with
             | VList _ => d1
             | _ => dict_set d1 "contributions_zh" (VList [VStr (py_str c)])
             end).
  assert (Hd2 : forall k', dict_get d2 k'
                = if String.eqb k' "contributions_zh"
                  then Some (normal_contributions c) else dict_get d1 k').
  { intros k'. destruct (String.eqb k' "contributions_zh") eqn:E.
    - apply String.eqb_eq in E. subst k'. unfold d2, normal_contributions.
      destruct c; try apply dict_get_set_eq. exact Hc.
    - apply String.eqb_neq in E. unfold d2.
      destruct c; try reflexivity;
        apply dict_get_set_ne; congruence. }
  rewrite (Hd2 "links").
  change (String.eqb "links" "contributions_zh") with false.
  cbv beta iota. rewrite Hl.
  set (l := filled data "links" default_links) in *.
  destruct (String.eqb k "links") eqn:E.
  - apply String.eqb_eq in E. subst k. unfold normal_links.
    destruct l; try apply dict_get_set_eq. rewrite Hd2. exact Hl.
  - apply String.eqb_neq in E.
    assert (Hd3 : dict_get d2 k
                  = if String.eqb k "contributions_zh"
                    then Some (normal_contributions c)
                    else match dict_get defaults k with
                         | Some default => Some (filled data k default)
                         | None => dict_get data k
                         end).
    { rewrite Hd2. destruct (String.eqb k "contributions_zh"); [reflexivity|].
      apply Hget. }
    destruct l; try exact Hd3;
      (rewrite dict_get_set_ne by congruence; exact Hd3).
Qed.

(* evaluate the comparisons of literal keys and the lookups in [defaults] *)
Ltac eval_keys :=
  repeat match goal with
  | |- context [String.eqb ?a ?b] =>
      let r := eval vm_compute in (String.eqb a b) in
      change (String.eqb a b) with r
  | |- context [dict_get defaults ?k] =>
      let r := eval vm_compute in (dict_get defaults k) in
      change (dict_get defaults k) with r
  end; cbv beta iota.

Lemma normal_contributions_truthy v :
  truthy v = true -> truthy (normal_contributions v) = true.
Proof. destruct v; simpl; auto. Qed.

Lemma normal_links_truthy v :
  truthy v = true -> truthy (normal_links v) = true.
Proof. destruct v; simpl; auto. Qed.

(** C4. For every input mapping, [_validate_summary] returns a mapping in
    which each of the nine required fields is present and truthy.  A text
    field keeps a truthy input value and is ["unknown"] otherwise;
    [contributions_zh] is the input list when that is a non-empty list,
    the one-element list holding [str] of the input when that is a truthy
    value of another type (the string itself for a string), and
    [["unknown"]] otherwise; [links] is the input when that is a non-empty
    mapping and the default pair of empty links otherwise, in particular
    for every input that is not a mapping. *)
Theorem validate_summary_normalises (data : pydict) :
  let r := _validate_summary data in
  (forall key, In key (List.map fst defaults) ->
     exists v, dict_get r key = Some v /\ truthy v = true) /\
  (forall key, In key text_fields ->
     dict_get r key = Some (filled data key (VStr "unknown"))) /\
  dict_get r "contributions_zh"
  = Some (normal_contributions
            (filled data "contributions_zh" (VList [VStr "unknown"]))) /\
  dict_get r "links"
  = Some (normal_links (filled data "links" default_links)) /\
  (forall v, dict_get data "contributions_zh" = Some v ->
     truthy v = true -> is_list v = false ->
     dict_get r "contributions_zh" = Some (VList [VStr (py_str v)])) /\
  (forall s, dict_get data "contributions_zh" = Some (VStr s) -> s <> "" ->
     dict_get r "contributions_zh" = Some (VList [VStr s])) /\
  (forall v, dict_get data "links" = Some v -> is_dict v = false ->
     dict_get r "links" = Some default_links).
Proof.
  intros r. subst r.
  assert (Hc : dict_get (_validate_summary data) "contributions_zh"
               = Some (normal_contributions
                         (filled data "contributions_zh" (VList [VStr "unknown"]))))
    by (rewrite validate_get; eval_keys; reflexivity).
  assert (Hl : dict_get (_validate_summary data) "links"
               = Some (normal_links (filled data "links" default_links)))
    by (rewrite validate_get; eval_keys; reflexivity).
  assert (Ht : forall key, In key text_fields ->
             dict_get (_validate_summary data) key
             = Some (filled data key (VStr "unknown"))).
  { intros key Hin. unfold text_fields in Hin.
    repeat (destruct Hin as [<-|Hin];
            [rewrite validate_get; eval_keys; reflexivity|]).
    destruct Hin. }
  split; [|split; [exact Ht|split; [exact Hc|split; [exact Hl|split; [|split]]]]].
  - intros key Hin.
    assert (Hcases : In key text_fields \/ key = "contributions_zh"
                     \/ key = "links").
    { simpl in Hin. unfold text_fields. simpl. intuition. }
    destruct Hcases as [Hin'|[->| ->]].
    + eexists. split; [apply Ht; assumption|]. now apply filled_truthy.
    + eexists. split; [exact Hc|].
      apply normal_contributions_truthy. now apply filled_truthy.
    + eexists. split; [exact Hl|].
      apply normal_links_truthy. now apply filled_truthy.
  - intros v Hv Htruthy Hlist. rewrite Hc. unfold filled.
    rewrite Hv, Htruthy. destruct v; try reflexivity. discriminate.
  - intros s Hs Hne. rewrite Hc. unfold filled. rewrite Hs.
    assert (Htruthy : truthy (VStr s) = true).
    { simpl. unfold PyStr.nonempty. apply negb_true_iff.
      now apply String.eqb_neq. }
    rewrite Htruthy. reflexivity.
  - intros v Hv Hdict. rewrite Hl. unfold filled. rewrite Hv.
    destruct (truthy v); [|reflexivity].
    destruct v; try reflexivity. discriminate.
Qed.

End Validate.

Lemma validate_summary_normalises_witness :
  dict_get wrong_contributions "contributions_zh"
  = Some (VStr "single string instead of list") /\
  dict_get (@_validate_summary offline wrong_contributions) "contributions_zh"
  = Some (VList [VStr "single string instead of list"]).
Proof.
  split; [reflexivity|].
  refine (proj1 (proj2 (proj2 (proj2 (proj2 (proj2
           (@validate_summary_normalises offline wrong_contributions))))))
          "single string instead of list" eq_refl _).
  discriminate.
Defined.

End ValidateFacts.

(** ** The run controller *)

Module CliFacts.
Import Py Db Cli SpecDefs MoreSpecDefs Samples.

Lemma not_in_stages k st ch : ~ In (EUpsertRun st ch) (firstn k stages).
Proof.
  intros Hin. unfold stages in Hin.
  do 6 (destruct k as [|k];
        [cbn in Hin;
         repeat (destruct Hin as [Hin|Hin]; [discriminate Hin|]); exact Hin|]).
  cbn in Hin. repeat (destruct Hin as [Hin|Hin]; [discriminate Hin|]).
  destruct k; exact Hin.
Qed.


Section Controller.
Context {W : Type} `{Collaborators W}.


(** and what becomes of one that is no [Exception] *)
Lemma cmd_run_of_interrupt today cfg db w ex db1 w1 tr :
  is_Exception ex = false ->
  pipeline today cfg db w = (Raise ex, (db1, w1, tr)) ->
  cmd_run today cfg db w = (Raise ex, (db1, w1, (tr ++ [EClose])%list)).
Proof. intros Hex Hp. unfold cmd_run. now rewrite Hp, Hex. Qed.

Lemma cmd_run_of_return today cfg db w db1 w1 tr :
  pipeline today cfg db w = (Return tt, (db1, w1, tr)) ->
  cmd_run today cfg db w = (Return tt, (db1, w1, (tr ++ [EClose])%list)).
Proof. intros Hp. unfold cmd_run. now rewrite Hp. Qed.



(** the stages after the fetch, as far as they get *)
Lemma after_fetch_shape today cfg ps db w tr :
  let out := after_fetch today cfg ps db w tr in
  let db2 := snd (fst (summarize_papers ps db cfg w)) in
  match fst out with
  | Raise _ =>
      fst (fst (snd out)) = db2 /\
      exists k, (1 <= k <= 4)%nat /\
        snd (snd out)
        = (tr ++ firstn k [ESummarize; ERender; ESaveDigest; EPush])%list
  | Return _ =>
      exists st ch now,
        fst (fst (snd out)) = upsert_run db2 today st ch now /\
        snd (snd out)
        = (tr ++ [ESummarize; ERender; ESaveDigest; EPush; EUpsertRun st ch])%list /\
        ((st = "rendered" /\ ch = "") \/ st = "sent")
  end.
Proof.
  unfold after_fetch.
  destruct (summarize_papers ps db cfg w) as [[r2 db2] w2]. cbn [fst snd].
  destruct r2 as [summarized|ex]; cbn [fst snd].
  2:{ split; [reflexivity|]. exists 1%nat. split; [lia|reflexivity]. }
  destruct (render_markdown summarized today) as [md|ex]; cbn [fst snd].
  2:{ split; [reflexivity|]. exists 2%nat. split; [lia|].
      now rewrite <- app_assoc. }
  destruct (render_plaintext summarized today) as [txt|ex]; cbn [fst snd].
  2:{ split; [reflexivity|]. exists 2%nat. split; [lia|].
      now rewrite <- app_assoc. }
  destruct (_save_digest md txt today cfg w2) as [r3 w3].
  destruct r3 as [u|ex]; cbn [fst snd].
  2:{ split; [reflexivity|]. exists 3%nat. split; [lia|].
      now rewrite <- !app_assoc. }
  destruct (push_digest md txt today cfg w3) as [r4 w4].
  destruct r4 as [results|ex]; cbn [fst snd].
  2:{ split; [reflexivity|]. exists 4%nat. split; [lia|].
      now rewrite <- !app_assoc. }
  eexists _, _, _. split; [reflexivity|]. split; [now rewrite <- !app_assoc|].
  destruct (succeeded results); [left; split; reflexivity|right; reflexivity].
Qed.

(** the body of the [try] when the run is not skipped *)
Lemma pipeline_shape today cfg db w :
  already_completed cfg db today = false ->
  let out := pipeline today cfg db w in
  exists k : nat,
    (1 <= k <= 6)%nat /\
    match fst out with
    | Return _ =>
        exists st ch db1 now,
          snd (snd out) = (firstn k stages ++ [EUpsertRun st ch])%list /\
          fst (fst (snd out)) = upsert_run db1 today st ch now /\
          ((st = "empty" /\ ch = "" /\ k = 1%nat) \/
           (st = "rendered" /\ ch = "" /\ k = 6%nat) \/
           (st = "sent" /\ k = 6%nat))
    | Raise _ => snd (snd out) = firstn k stages
    end.
Proof.
  intros Hgo. unfold pipeline. rewrite Hgo.
  destruct (fetch_papers cfg w) as [r1 w1].
  destruct r1 as [[|p ps]|ex]; cbn [fst snd].
  - exists 1%nat. split; [lia|].
    exists "empty", "", db, (_now_iso w1).
    split; [reflexivity|]. split; [reflexivity|]. now left.
  - destruct (upsert_papers db (p :: ps) (_now_iso w1)) as [n db1].
    pose proof (after_fetch_shape today cfg (p :: ps) db1 w1
                  [EFetch; EUpsertPapers]) as Hshape.
    cbv zeta in Hshape.
    destruct (after_fetch today cfg (p :: ps) db1 w1 [EFetch; EUpsertPapers])
      as [r [[db2 w2] tr]].
    cbn [fst snd] in Hshape |- *. destruct r as [[]|ex].
    + destruct Hshape as (st & ch & now & Hdb & Htr & Hst).
      exists 6%nat. split; [lia|].
      exists st, ch, (snd (fst (summarize_papers (p :: ps) db1 cfg w1))), now.
      split; [exact Htr|]. split; [exact Hdb|].
      destruct Hst as [[-> ->]| ->]; auto.
    + destruct Hshape as (Hdb & k & Hk & Htr).
      exists (2 + k)%nat. split; [lia|]. exact Htr.
  - exists 1%nat. split; [lia|reflexivity].
Qed.

(** the course of a run that is not skipped *)
Lemma cmd_run_shape today cfg db w :
  already_completed cfg db today = false ->
  let out := cmd_run today cfg db w in
  exists (k : nat) (db1 : Database),
    (1 <= k <= 6)%nat /\
    match fst out with
    | Return _ =>
        exists st ch now,
          snd (snd out) = (firstn k stages ++ [EUpsertRun st ch; EClose])%list /\
          fst (fst (snd out)) = upsert_run db1 today st ch now /\
          ((st = "empty" /\ ch = "" /\ k = 1%nat) \/
           (st = "rendered" /\ ch = "" /\ k = 6%nat) \/
           (st = "sent" /\ k = 6%nat))
    | Raise ex =>
        if is_Exception ex then
          exists now,
            snd (snd out)
            = (firstn k stages ++ [EUpsertRun "failed" ""; EClose])%list /\
            fst (fst (snd out)) = upsert_run db1 today "failed" "" now
        else
          snd (snd out) = (firstn k stages ++ [EClose])%list /\
          fst (fst (snd out)) = db1
    end.
Proof.
  intros Hgo. pose proof (pipeline_shape today cfg db w Hgo) as Hshape.
  cbv zeta in Hshape |- *. unfold cmd_run.
  destruct (pipeline today cfg db w) as [r [[db1 w1] tr]].
  cbn [fst snd] in Hshape. destruct Hshape as (k & Hk & Hshape).
  destruct r as [[]|ex].
  - destruct Hshape as (st & ch & db0 & now & Htr & Hdb & Hst).
    cbn [fst snd]. exists k, db0. split; [exact Hk|].
    exists st, ch, now. split; [|split; [exact Hdb|exact Hst]].
    rewrite Htr, <- app_assoc. reflexivity.
  - exists k, db1. split; [exact Hk|].
    destruct (is_Exception ex) eqn:Eex; cbn [fst snd]; rewrite Eex.
    + exists (_now_iso w1). rewrite Hshape. split; reflexivity.
    + rewrite Hshape. split; reflexivity.
Qed.

(** the store a run leaves: the store of its last stage, with or without
    the run record written on top *)
Lemma cmd_run_store today cfg db w :
  already_completed cfg db today = false ->
  exists d,
    ((d = db /\
      ((exists ex w1, fetch_papers cfg w = (Raise ex, w1)) \/
       (exists w1, fetch_papers cfg w = (Return [], w1)))) \/
     exists p ps w1,
       fetch_papers cfg w = (Return (p :: ps), w1) /\
       d = snd (fst (summarize_papers (p :: ps)
                       (snd (upsert_papers db (p :: ps) (_now_iso w1)))
                       cfg w1))) /\
    (fst (fst (snd (cmd_run today cfg db w))) = d \/
     exists st ch now,
       fst (fst (snd (cmd_run today cfg db w))) = upsert_run d today st ch now).
Proof.
  intros Hgo. unfold cmd_run, pipeline. rewrite Hgo.
  destruct (fetch_papers cfg w) as [r1 w1].
  destruct r1 as [[|p ps]|ex].
  - exists db. split; [left; split; [reflexivity|right; eauto]|].
    right. cbn [fst snd]. eauto.
  - pose proof (after_fetch_shape today cfg (p :: ps)
                  (snd (upsert_papers db (p :: ps) (_now_iso w1))) w1
                  [EFetch; EUpsertPapers]) as Hshape.
    cbv zeta in Hshape.
    destruct (upsert_papers db (p :: ps) (_now_iso w1)) as [n db1] eqn:Eup.
    cbn [snd] in Hshape |- *.
    exists (snd (fst (summarize_papers (p :: ps) db1 cfg w1))).
    split; [right; exists p, ps, w1; split; [reflexivity|now rewrite Eup]|].
    destruct (after_fetch today cfg (p :: ps) db1 w1 [EFetch; EUpsertPapers])
      as [r [[db2 w2] tr]].
    cbn [fst snd] in Hshape. destruct r as [[]|ex].
    + destruct Hshape as (st & ch & now & Hdb & _). cbn [fst snd]. eauto.
    + destruct Hshape as (Hdb & _).
      destruct (is_Exception ex); cbn [fst snd]; rewrite Hdb; eauto.
  - exists db. split; [left; split; [reflexivity|left; eauto]|].
    destruct (is_Exception ex); cbn [fst snd]; eauto.
Qed.


End Controller.


End CliFacts.

Module IdempotencyFacts.
Import Py Db Cli SpecDefs Samples CliFacts.

(** C3, as stated, fails: with no channel configured, every configured
    channel is trivially in the recorded set of a run stored as [sent],
    yet [cmd_run] fetches again and overwrites the run record. *)
Lemma rerun_without_channels_fetches :
  ~ (forall (W : Type) (C : Collaborators W) (today : string)
            (cfg : Config.Settings) (db : Database) (w : W) (run : RunRow),
        get_run db today = Some run ->
        status run = "sent" ->
        (forall ch, In ch (Config.push_channels cfg) -> ch ∈ already_sent run) ->
        cmd_run today cfg db w = (Return tt, (db, w, [EClose]))).
Proof.
  intros Hclaim.
  specialize (Hclaim _ sample_collaborators "2024-01-15" (sample_cfg [])
                sent_by_email
                (outside_with (env_with [] []) (Return []) (Return tt))
                {| status := "sent"; sent_channels := "email";
                   created_at := "2024-01-15T08:31:00+00:00" |}
                eq_refl eq_refl).
  assert (Hvac : forall ch, In ch (Config.push_channels (sample_cfg [])) ->
            ch ∈ already_sent {| status := "sent"; sent_channels := "email";
                                 created_at := "2024-01-15T08:31:00+00:00" |})
    by (intros ch []).
  specialize (Hclaim Hvac).
  assert (Htrace :
    snd (snd (@cmd_run _ sample_collaborators "2024-01-15" (sample_cfg [])
                sent_by_email
                (outside_with (env_with [] []) (Return []) (Return tt))))
    = [EFetch; EUpsertRun "empty" ""; EClose]) by reflexivity.
  rewrite Hclaim in Htrace. discriminate Htrace.
Qed.

Section Controller.
Context {W : Type} `{Collaborators W}.

(** C3, amended.  When the stored run has status [sent], at least one
    channel is configured and every configured channel is in the recorded
    sent-channel set, [cmd_run] returns at once: nothing is fetched,
    summarized, rendered or pushed, the store and the world outside are
    as before, and the only action is closing the store connection. *)
Theorem completed_run_is_noop (today : string) (cfg : Config.Settings)
    (db : Database) (w : W) (run : RunRow) :
  get_run db today = Some run ->
  status run = "sent" ->
  Config.push_channels cfg <> [] ->
  (forall ch, In ch (Config.push_channels cfg) -> ch ∈ already_sent run) ->
  cmd_run today cfg db w = (Return tt, (db, w, [EClose])).
Proof.
  intros Hrun Hsent Hne Hall.
  assert (Hdone : already_completed cfg db today = true).
  { unfold already_completed. rewrite Hrun, Hsent. cbn [String.eqb].
    change (String.eqb "sent" "sent") with true. cbv iota.
    apply andb_true_iff. split; apply bool_decide_eq_true.
    - destruct (Config.push_channels cfg) as [|c cs]; [congruence|].
      intros Hempty.
      assert (Hc : c ∈ (list_to_set (c :: cs) : gset string))
        by (apply elem_of_list_to_set; left).
      rewrite Hempty in Hc. now apply not_elem_of_empty in Hc.
    - intros ch Hch. apply elem_of_list_to_set, list_elem_of_In in Hch.
      now apply Hall. }
  unfold cmd_run, pipeline. rewrite Hdone. reflexivity.
Qed.

End Controller.

Lemma completed_run_is_noop_witness :
  @cmd_run _ sample_collaborators "2024-01-15" (sample_cfg ["email"])
    sent_by_email
    (outside_with (env_with [Return tt] []) (Return [sample_paper]) (Return tt))
  = (Return tt,
     (sent_by_email,
      outside_with (env_with [Return tt] []) (Return [sample_paper]) (Return tt),
      [EClose])).
Proof.
  apply (@completed_run_is_noop _ sample_collaborators "2024-01-15"
           (sample_cfg ["email"]) sent_by_email _
           {| status := "sent"; sent_channels := "email";
              created_at := "2024-01-15T08:31:00+00:00" |}).
  - reflexivity.
  - reflexivity.
  - discriminate.
  - intros ch [<-|[]]. vm_compute. reflexivity.
Defined.

End IdempotencyFacts.

(** ** What a call leaves alone *)

Module FrameFacts.
Import Py World Db Llm Summarizer SpecDefs MoreSpecDefs.

Lemma http_post_spec payload e :
  fst (http_post payload e) = answer e 0 /\
  requests (snd (http_post payload e)) = (requests e ++ [payload])%list /\
  responses (snd (http_post payload e)) = skipn 1 (responses e) /\
  mono (snd (http_post payload e)) = mono e.
Proof.
  unfold http_post, answer. destruct (responses e) as [|r rs]; cbn; auto.
Qed.

(** the attempts of [_post], counted *)
Lemma post_attempts_spec (payload : Payload) (e : Env) :
  exists k : nat,
    (1 <= k <= 3)%nat /\
    requests (snd (_post payload e)) = (requests e ++ repeat payload k)%list /\
    responses (snd (_post payload e)) = skipn k (responses e) /\
    mono (snd (_post payload e)) = mono e + Z.of_nat (k - 1) * (4 * second) /\
    fst (_post payload e) = answer e (k - 1) /\
    (forall i, (i < k - 1)%nat -> exists ex, answer e i = Raise ex) /\
    ((k < 3)%nat -> exists data, fst (_post payload e) = Return data).
Proof.
  unfold _post, post_attempts, http_post, answer.
  destruct (responses e) as [|[d1|x1] [|[d2|x2] [|[d3|x3] rs]]];
    cbn [sleep responses requests mono fst snd];
    first
      [ exists 1%nat; cbn;
        repeat split; try lia; try (rewrite Z.add_0_r; reflexivity);
        try (intros i Hi; lia); eauto; fail
      | exists 2%nat; cbn;
        repeat split; try lia; try (rewrite <- app_assoc; reflexivity);
        try (intros i Hi; assert (i = 0)%nat as -> by lia; cbn; eauto);
        eauto; fail
      | exists 3%nat; cbn;
        repeat split; try lia; try (rewrite <- !app_assoc; reflexivity);
        try (intros i Hi;
             assert (i = 0 \/ i = 1)%nat as [-> | ->] by lia; cbn; eauto);
        try (intros Hk; lia); eauto ];
    change (backoff 1) with (4 * second);
    change (backoff (1 + 1)) with (4 * second); unfold second; lia.
Qed.

Lemma time_monotonic_frame e :
  responses (snd (time_monotonic e)) = responses e /\
  requests (snd (time_monotonic e)) = requests e /\
  smtp (snd (time_monotonic e)) = smtp e /\
  onebot (snd (time_monotonic e)) = onebot e /\
  delivered (snd (time_monotonic e)) = delivered e.
Proof. unfold time_monotonic. destruct (elapsed e); repeat split. Qed.

(** an acquisition touches the clock only *)
Lemma acquire_frame rl e :
  responses (snd (acquire rl e)) = responses e /\
  requests (snd (acquire rl e)) = requests e.
Proof.
  unfold acquire.
  pose proof (time_monotonic_frame e) as (Hr1 & Hq1 & _).
  destruct (time_monotonic e) as [now e1]. cbn [snd] in *.
  generalize (List.filter (fun t => now - WINDOW <? t) (_timestamps rl)).
  intros ts. destruct (_rpm rl <=? Z.of_nat (length ts)).
  - destruct ts as [|t0 rest]; [cbn; auto|].
    destruct (0 <? t0 + WINDOW - now).
    + pose proof (time_monotonic_frame (sleep (t0 + WINDOW - now) e1))
        as (Hr2 & Hq2 & _).
      destruct (time_monotonic (sleep (t0 + WINDOW - now) e1)) as [t e3].
      cbn [snd sleep responses requests] in *. split; congruence.
    + pose proof (time_monotonic_frame e1) as (Hr2 & Hq2 & _).
      destruct (time_monotonic e1) as [t e3]. cbn [snd] in *. split; congruence.
  - pose proof (time_monotonic_frame e1) as (Hr2 & Hq2 & _).
    destruct (time_monotonic e1) as [t e3]. cbn [snd] in *. split; congruence.
Qed.

Lemma time_monotonic_outbox e : outbox (snd (time_monotonic e)) = outbox e.
Proof. unfold time_monotonic. destruct (elapsed e); reflexivity. Qed.

Lemma acquire_outbox rl e : outbox (snd (acquire rl e)) = outbox e.
Proof.
  unfold acquire.
  pose proof (time_monotonic_outbox e) as H1.
  destruct (time_monotonic e) as [now e1]. cbn [snd] in *.
  generalize (List.filter (fun t => now - WINDOW <? t) (_timestamps rl)).
  intros ts. destruct (_rpm rl <=? Z.of_nat (length ts)).
  - destruct ts as [|t0 rest]; [exact H1|].
    destruct (0 <? t0 + WINDOW - now).
    + pose proof (time_monotonic_outbox (sleep (t0 + WINDOW - now) e1)) as H2.
      destruct (time_monotonic (sleep (t0 + WINDOW - now) e1)) as [t e3].
      cbn [snd] in *. rewrite H2. exact H1.
    + pose proof (time_monotonic_outbox e1) as H2.
      destruct (time_monotonic e1) as [t e3]. cbn [snd] in *. congruence.
  - pose proof (time_monotonic_outbox e1) as H2.
    destruct (time_monotonic e1) as [t e3]. cbn [snd] in *. congruence.
Qed.

Lemma post_outbox payload e : outbox (snd (_post payload e)) = outbox e.
Proof.
  unfold _post, post_attempts, http_post.
  destruct (responses e) as [|[d1|x1] [|[d2|x2] [|[d3|x3] rs]]]; reflexivity.
Qed.

Lemma chat_outbox c messages temperature max_tokens e :
  outbox (snd (chat c messages temperature max_tokens e)) = outbox e.
Proof.
  unfold chat. pose proof (acquire_outbox (_rate_limiter c) e) as H1.
  destruct (acquire (_rate_limiter c) e) as [[r rl] e1]. cbn [snd] in H1.
  destruct r as [slept|ex]; [|exact H1].
  match goal with
  | |- context [_post ?payload e1] =>
      pose proof (post_outbox payload e1) as H2;
      destruct (_post payload e1) as [r2 e2]
  end.
  cbn [snd] in *. destruct r2; cbn [snd]; congruence.
Qed.

Section Engine.
Context `{Runtime}.

Lemma chat_json_outbox c messages temperature max_tokens e :
  outbox (snd (chat_json c messages temperature max_tokens e)) = outbox e.
Proof.
  unfold chat_json.
  pose proof (chat_outbox c messages temperature max_tokens e) as H1.
  destruct (chat c messages temperature max_tokens e) as [[r c'] e'].
  destruct r; exact H1.
Qed.

Lemma summarize_one_outbox c paper e :
  outbox (snd (summarize_one c paper e)) = outbox e.
Proof.
  unfold summarize_one.
  pose proof (chat_json_outbox c (_build_messages paper) temperature_json 4096 e)
    as H1.
  destruct (chat_json c (_build_messages paper) temperature_json 4096 e)
    as [[r c1] e1]. cbn [snd] in H1.
  destruct (bind r _validate_summary_py) as [s|ex]; [exact H1|].
  destruct (negb (is_ValueError ex)); [exact H1|].
  pose proof (chat_outbox c1 (_build_messages paper) temperature_chat 4096 e1)
    as H2.
  destruct (chat c1 (_build_messages paper) temperature_chat 4096 e1)
    as [[raw c2] e2]. cbn [snd] in H2.
  destruct raw as [raw|ex2]; [|cbn [snd]; congruence].
  destruct (_build_repair_messages raw) as [msgs|ex3]; [|cbn [snd]; congruence].
  pose proof (chat_json_outbox c2 msgs temperature_json 4096 e2) as H3.
  destruct (chat_json c2 msgs temperature_json 4096 e2) as [[r3 c3] e3].
  cbn [snd] in H3.
  destruct (bind r3 _validate_summary_py); cbn [snd]; congruence.
Qed.

Lemma gather_outbox tasks : forall db c e,
  outbox (snd (snd (gather tasks (db, c, e)))) = outbox e.
Proof.
  induction tasks as [|p rest IH]; intros db c e; [reflexivity|].
  cbn [gather]. unfold _do_one.
  pose proof (summarize_one_outbox c p e) as H1.
  destruct (summarize_one c p e) as [[r c1] e1]. cbn [snd] in H1.
  destruct (bind r (fun summary => set_links summary p)) as [s|ex].
  - specialize (IH (save_summary db (arxiv_id p) s) c1 e1).
    destruct (gather rest (save_summary db (arxiv_id p) s, c1, e1))
      as [rs [[db2 c2] e2]].
    cbn [snd] in *. congruence.
  - specialize (IH db c1 e1).
    destruct (gather rest (db, c1, e1)) as [rs [[db2 c2] e2]].
    cbn [snd] in *. congruence.
Qed.

(** summarizing sends no mail and no group message *)
Lemma summarize_papers_outbox papers db cfg e :
  outbox (snd (summarize_papers papers db cfg e)) = outbox e.
Proof.
  unfold summarize_papers.
  match goal with
  | |- context [gather ?todo (db, ?c, e)] =>
      pose proof (gather_outbox todo db c e) as H1;
      destruct (gather todo (db, c, e)) as [results [[db1 c1] e1]]
  end.
  exact H1.
Qed.

End Engine.

End FrameFacts.

Module PushFacts.
Import Py World Db Push Cli SpecDefs Samples CliFacts.

Lemma In_succeeded (results : Push.results_t) ch :
  In ch (succeeded results) <-> In (ch, true) results.
Proof.
  unfold succeeded. rewrite in_map_iff. split.
  - intros ([c ok] & Hc & Hin). apply filter_In in Hin as [Hin Hok].
    simpl in *. now subst.
  - intros Hin. exists (ch, true). split; [reflexivity|].
    apply filter_In. now split.
Qed.

Lemma succeeded_none (results : Push.results_t) :
  (forall ch ok, In (ch, ok) results -> ok = false) -> succeeded results = [].
Proof.
  intros Hall. destruct (succeeded results) as [|c cs] eqn:E; [reflexivity|].
  assert (Hin : In c (succeeded results)) by (rewrite E; now left).
  apply In_succeeded, Hall in Hin. discriminate.
Qed.

Lemma results_set_fresh (results : results_t) key ok :
  results_get results key = None ->
  results_set results key ok = (results ++ [(key, ok)])%list.
Proof.
  induction results as [|[k b] rest IH]; simpl; [reflexivity|].
  destruct (String.eqb k key); [discriminate|].
  intros Hnone. now rewrite IH.
Qed.

Lemma results_get_app (results : results_t) key key' ok :
  key' <> key ->
  results_get (results ++ [(key', ok)])%list key = results_get results key.
Proof.
  intros Hne. induction results as [|[k b] rest IH]; simpl.
  - apply String.eqb_neq in Hne. now rewrite Hne.
  - destruct (String.eqb k key); [reflexivity|exact IH].
Qed.

Lemma succeeded_app (results : results_t) key ok :
  succeeded (results ++ [(key, ok)])%list
  = (succeeded results ++ (if ok then [key] else []))%list.
Proof.
  unfold succeeded. rewrite DbFacts.filter_app_list, List.map_app.
  destruct ok; reflexivity.
Qed.

(** one turn of the loop on a channel not yet in the mapping: one entry
    is added under the channel's key, and it is [True] exactly when a
    message went out *)
Lemma push_one_fresh cfg channel results e :
  results_get results (channel_key channel) = None ->
  exists ok e',
    push_one cfg channel (results, e)
    = ((results ++ [(channel_key channel, ok)])%list, e') /\
    delivered e' = (delivered e ++ (if ok then [channel_key channel] else []))%list.
Proof.
  intros Hfresh. unfold push_one. fold (channel_key channel).
  destruct (String.eqb (channel_key channel) "email") eqn:Eemail.
  - apply String.eqb_eq in Eemail. rewrite Eemail in *.
    destruct (Config.email_configured cfg); cbn [negb].
    + unfold send_email. destruct (smtp e) as [|[u|ex] rs].
      * exists false, e. rewrite results_set_fresh by assumption.
        split; [reflexivity|]. now rewrite app_nil_r.
      * eexists true, _. rewrite results_set_fresh by assumption.
        split; reflexivity.
      * eexists false, _. rewrite results_set_fresh by assumption.
        split; [reflexivity|]. cbn. now rewrite app_nil_r.
    + exists false, e. rewrite results_set_fresh by assumption.
      split; [reflexivity|]. now rewrite app_nil_r.
  - destruct (String.eqb (channel_key channel) "qq") eqn:Eqq.
    + apply String.eqb_eq in Eqq. rewrite Eqq in *.
      destruct (Config.qq_configured cfg) as [[|]|ex].
      * unfold send_qq. destruct (onebot e) as [|[u|ex] rs].
        -- exists false, e. rewrite results_set_fresh by assumption.
           split; [reflexivity|]. now rewrite app_nil_r.
        -- eexists true, _. rewrite results_set_fresh by assumption.
           split; reflexivity.
        -- eexists false, _. rewrite results_set_fresh by assumption.
           split; [reflexivity|]. cbn. now rewrite app_nil_r.
      * exists false, e. rewrite results_set_fresh by assumption.
        split; [reflexivity|]. now rewrite app_nil_r.
      * exists false, e. rewrite results_set_fresh by assumption.
        split; [reflexivity|]. now rewrite app_nil_r.
    + exists false, e. rewrite results_set_fresh by assumption.
      split; [reflexivity|]. now rewrite app_nil_r.
Qed.

Lemma push_loop_deliveries cfg channels :
  NoDup (List.map channel_key channels) ->
  forall results e,
    (forall ch, In ch channels -> results_get results (channel_key ch) = None) ->
    forall results' e',
      fold_left (fun st ch => push_one cfg ch st) channels (results, e)
      = (results', e') ->
      exists added,
        results' = (results ++ added)%list /\
        List.map fst added = List.map channel_key channels /\
        delivered e' = (delivered e ++ succeeded added)%list.
Proof.
  induction channels as [|ch rest IH]; intros Hnd results e Hfresh results' e'.
  - cbn. intros [= <- <-]. exists [].
    split; [now rewrite app_nil_r|]. split; [reflexivity|].
    now rewrite app_nil_r.
  - cbn [List.map] in Hnd. apply NoDup_cons in Hnd as [Hch Hnd].
    cbn [fold_left].
    destruct (push_one_fresh cfg ch results e (Hfresh ch (or_introl eq_refl)))
      as (ok & e1 & Hone & Hdel).
    rewrite Hone. intros Hfold.
    apply IH in Hfold; [|exact Hnd|].
    + destruct Hfold as (added & Hadd & Hkeys & Hlog).
      exists ((channel_key ch, ok) :: added). split; [|split].
      * rewrite Hadd, <- app_assoc. reflexivity.
      * cbn. now rewrite Hkeys.
      * rewrite Hlog, Hdel, <- app_assoc. f_equal.
        unfold succeeded. destruct ok; reflexivity.
    + intros c Hc. rewrite results_get_app.
      * apply Hfresh. now right.
      * intros Heq. apply Hch. rewrite Heq.
        apply list_elem_of_In, in_map. exact Hc.
Qed.

(** with pairwise distinct channel names, the channels [push_digest] maps
    to [True] are, in order, the ones a message went out on *)
Lemma push_digest_deliveries md txt run_date cfg e results e' :
  NoDup (List.map channel_key (Config.push_channels cfg)) ->
  Push.push_digest md txt run_date cfg e = (results, e') ->
  List.map fst results = List.map channel_key (Config.push_channels cfg) /\
  delivered e' = (delivered e ++ succeeded results)%list.
Proof.
  intros Hnd. unfold Push.push_digest.
  destruct (Config.push_channels cfg) as [|ch rest] eqn:Ech.
  - intros [= <- <-]. split; [reflexivity|]. cbn. now rewrite app_nil_r.
  - intros Hfold.
    apply (push_loop_deliveries cfg (ch :: rest) Hnd [] e) in Hfold.
    + destruct Hfold as (added & -> & Hkeys & Hlog). cbn [app].
      split; assumption.
    + reflexivity.
Qed.

(** with no channel configured [push_digest] returns the empty mapping
    and sends nothing *)
Lemma push_digest_no_channels md txt run_date cfg e :
  Config.push_channels cfg = [] ->
  Push.push_digest md txt run_date cfg e = ([], e).
Proof. intros Hnone. unfold Push.push_digest. now rewrite Hnone. Qed.

(** C7, as stated, fails: mail is configured twice, as [email] and as
    [Email].  The first delivery succeeds and the second fails; both are
    entered under the key [email], the outcome of the second replaces
    that of the first, and the run is recorded as [rendered] with no
    channel although a mail went out in this invocation. *)
Lemma duplicate_channel_hides_delivery :
  ~ (forall (today : string) (cfg : Config.Settings) (db : Database)
            (o : Outside) db' o' tr run,
        @cmd_run _ sample_collaborators today cfg db o
        = (Return tt, (db', o', tr)) ->
        In EPush tr ->
        get_run db' today = Some run ->
        delivered (env o') <> delivered (env o) ->
        status run = "sent").
Proof.
  intros Hclaim.
  set (o := outside_with (env_with [Return tt; Raise OSError] [])
              (Return [sample_paper]) (Return tt)).
  set (cfg := sample_cfg ["email"; "Email"]).
  assert (Hrun : exists db' o' tr,
            @cmd_run _ sample_collaborators "2024-01-15" cfg empty_db o
            = (Return tt, (db', o', tr)) /\
            In EPush tr /\
            get_run db' "2024-01-15"
            = Some {| status := "rendered"; sent_channels := "";
                      created_at := "2024-01-15T08:30:00+00:00" |} /\
            delivered (env o') = ["email"]).
  { eexists _, _, _. split; [vm_compute; reflexivity|].
    split; [do 5 right; left; reflexivity|]. split; reflexivity. }
  destruct Hrun as (db' & o' & tr & Hrun & Hpush & Hget & Hdel).
  specialize (Hclaim "2024-01-15" cfg empty_db o db' o' tr _ Hrun Hpush Hget).
  assert (Hne : delivered (env o') <> delivered (env o))
    by (rewrite Hdel; discriminate).
  specialize (Hclaim Hne). discriminate Hclaim.
Qed.

Section Repository.
Context `{Runtime}.
Variables render_md render_txt :
  list Summarizer.Summarized -> string -> outcome string.

(** C7, amended.  Let the configured channel names be pairwise
    different once stripped and put in lower case.  When a run of the
    pipeline reaches the push stage, [cmd_run] returns normally and the
    run record it leaves lists, joined by commas and in the order of the
    configuration, exactly the channels on which a message went out in
    this invocation; its status is [sent] when there is such a channel,
    and [rendered] with an empty sent-channel string when every
    configured channel failed or no channel is configured. *)
Theorem push_stage_records_outcome (today : string) (cfg : Config.Settings)
    (db : Database) (o : Outside) p papers n db1 summarized db2 e2 md txt u :
  NoDup (List.map channel_key (Config.push_channels cfg)) ->
  already_completed cfg db today = false ->
  catalog o = Return (p :: papers) ->
  upsert_papers db (p :: papers) (wall o) = (n, db1) ->
  Summarizer.summarize_papers (p :: papers) db1 cfg (env o)
  = (summarized, db2, e2) ->
  render_md summarized today = Return md ->
  render_txt summarized today = Return txt ->
  disk o = Return u ->
  exists db' o' tr run sent,
    @cmd_run _ (repo_collaborators render_md render_txt) today cfg db o
    = (Return tt, (db', o', tr)) /\
    get_run db' today = Some run /\
    delivered (env o') = (delivered (env o) ++ sent)%list /\
    (forall ch, In ch sent ->
       In ch (List.map channel_key (Config.push_channels cfg))) /\
    sent_channels run = PyStr.join "," sent /\
    (sent <> [] -> status run = "sent") /\
    (sent = [] -> status run = "rendered" /\ sent_channels run = "") /\
    (Config.push_channels cfg = [] -> sent = []).
Proof.
  intros Hnd Hgo Hcat Hup Hsum Hmd Htxt Hdisk.
  destruct (Push.push_digest md txt today cfg e2) as [results e4] eqn:Hpush.
  destruct (push_digest_deliveries _ _ _ _ _ _ _ Hnd Hpush) as [Hkeys Hdel].
  pose proof (FrameFacts.summarize_papers_outbox (p :: papers) db1 cfg (env o))
    as Hbox.
  rewrite Hsum in Hbox. cbn [snd] in Hbox.
  assert (Hlog : delivered e2 = delivered (env o))
    by (apply (f_equal snd) in Hbox; exact Hbox).
  set (status0 := match succeeded results with
                  | [] => "rendered" | _ => "sent" end).
  destruct (DbFacts.get_run_upsert_run db2 today status0
              (PyStr.join "," (succeeded results)) (wall o))
    as [created Hrun].
  eexists _, _, _, _, (succeeded results).
  split; [|split; [exact Hrun|]].
  - apply cmd_run_of_return. unfold pipeline. rewrite Hgo.
    cbn [fetch_papers _now_iso repo_collaborators]. rewrite Hcat, Hup.
    unfold after_fetch.
    cbn [summarize_papers render_markdown render_plaintext _save_digest
         push_digest _now_iso repo_collaborators].
    rewrite Hsum, Hmd, Htxt. unfold save_digest_files, with_env.
    cbn [disk env catalog files wall]. rewrite Hdisk.
    cbn [disk env catalog files wall]. rewrite Hpush.
    cbn [disk env catalog files wall]. fold status0. reflexivity.
  - cbn [env sent_channels status]. split; [now rewrite Hdel, Hlog|].
    split.
    { intros ch Hch. rewrite <- Hkeys. apply In_succeeded in Hch.
      apply (in_map fst) in Hch. exact Hch. }
    split; [reflexivity|]. unfold status0. split; [|split].
    + intros Hsent. destruct (succeeded results); [congruence|reflexivity].
    + intros ->. split; reflexivity.
    + intros Hnone. unfold Push.push_digest in Hpush. rewrite Hnone in Hpush.
      injection Hpush as <- _. reflexivity.
Qed.

End Repository.

Lemma push_stage_records_outcome_witness :
  exists db' o' tr run sent,
    @cmd_run _ sample_collaborators "2024-01-15" (sample_cfg ["email"; "qq"])
      empty_db
      (outside_with (env_with [Return tt] [Raise OSError])
         (Return [sample_paper]) (Return tt))
    = (Return tt, (db', o', tr)) /\
    get_run db' "2024-01-15" = Some run /\
    delivered (env o') = ([] ++ sent)%list /\
    (forall ch, In ch sent ->
       In ch (List.map channel_key ["email"; "qq"])) /\
    sent_channels run = PyStr.join "," sent /\
    (sent <> [] -> status run = "sent") /\
    (sent = [] -> status run = "rendered" /\ sent_channels run = "") /\
    (["email"; "qq"] = [] -> sent = []).
Proof.
  eapply (@push_stage_records_outcome offline heading_render heading_render
            "2024-01-15" (sample_cfg ["email"; "qq"]) empty_db
            (outside_with (env_with [Return tt] [Raise OSError])
               (Return [sample_paper]) (Return tt))
            sample_paper []).
  - change (NoDup ["email"; "qq"]). apply NoDup_cons. split.
    + intros Hin. apply list_elem_of_In in Hin.
      destruct Hin as [Hx|[]]. discriminate Hx.
    + apply NoDup_singleton.
  - reflexivity.
  - reflexivity.
  - reflexivity.
  - reflexivity.
  - reflexivity.
  - reflexivity.
  - reflexivity.
Defined.

End PushFacts.

Module MonotonicityFacts.
Import Py Db Cli SpecDefs MoreSpecDefs Samples CliFacts DbFacts.

(** C6, as stated, fails: a run recorded as [sent] by mail is run again
    because a second channel is configured; both deliveries fail this
    time, and [cmd_run] overwrites the record with status [rendered] and
    an empty sent-channel string. *)
Lemma rerun_rolls_back_sent_run :
  ~ (forall (W : Type) (C : Collaborators W) (today : string)
            (cfg : Config.Settings) (db : Database) (w : W)
            (old new : RunRow) res db' w' tr,
        get_run db today = Some old ->
        cmd_run today cfg db w = (res, (db', w', tr)) ->
        get_run db' today = Some new ->
        status new = "failed" \/
        ((status_rank (status old) <= status_rank (status new))%nat /\
         channel_set (sent_channels old) ⊆ channel_set (sent_channels new))).
Proof.
  intros Hclaim.
  set (w := outside_with (env_with [Raise OSError] [Raise OSError])
              (Return [sample_paper]) (Return tt)).
  set (cfg := sample_cfg ["email"; "qq"]).
  assert (Hnew :
    get_run (fst (fst (snd (@cmd_run _ sample_collaborators "2024-01-15" cfg
                              sent_by_email w)))) "2024-01-15"
    = Some {| status := "rendered"; sent_channels := "";
              created_at := "2024-01-15T08:31:00+00:00" |})
    by (vm_compute; reflexivity).
  destruct (@cmd_run _ sample_collaborators "2024-01-15" cfg sent_by_email w)
    as [res [[db' w'] tr]] eqn:Hrun.
  cbn [fst snd] in Hnew.
  specialize (Hclaim _ sample_collaborators "2024-01-15" cfg sent_by_email w
                {| status := "sent"; sent_channels := "email";
                   created_at := "2024-01-15T08:31:00+00:00" |}
                _ res db' w' tr eq_refl Hrun Hnew).
  destruct Hclaim as [Hfailed|[Hrank _]].
  - discriminate Hfailed.
  - vm_compute in Hrank. lia.
Qed.

Section Controller.
Context {W : Type} `{Collaborators W}.

(** the record that a run leaves when it is not skipped *)
Lemma cmd_run_record today cfg db w res db' w' tr :
  already_completed cfg db today = false ->
  cmd_run today cfg db w = (res, (db', w', tr)) ->
  (exists ex, res = Raise ex /\ is_Exception ex = false /\
              forall st ch, ~ In (EUpsertRun st ch) tr) \/
  exists st ch created,
    get_run db' today
    = Some {| status := st; sent_channels := ch; created_at := created |} /\
    In (EUpsertRun st ch) tr /\ written st /\ (st <> "sent" -> ch = "") /\
    (st = "failed" <-> exists ex, res = Raise ex).
Proof.
  intros Hgo Hrun. pose proof (cmd_run_shape today cfg db w Hgo) as Hshape.
  cbv zeta in Hshape. rewrite Hrun in Hshape. cbn [fst snd] in Hshape.
  destruct Hshape as (k & db1 & Hk & Hshape).
  destruct res as [u|ex].
  - right. destruct Hshape as (st & ch & now & Htr & Hdb & Hst).
    destruct (get_run_upsert_run db1 today st ch now) as [created Hget].
    exists st, ch, created. rewrite Hdb. split; [exact Hget|].
    split; [rewrite Htr; apply in_or_app; right; now left|].
    unfold written.
    destruct Hst as [(-> & -> & _)|[(-> & -> & _)|(-> & _)]];
      (split; [auto|]); (split; [auto; congruence|]);
      (split; [discriminate|intros [ex Hex]; discriminate Hex]).
  - destruct (is_Exception ex) eqn:Eex.
    + right. destruct Hshape as (now & Htr & Hdb).
      destruct (get_run_upsert_run db1 today "failed" "" now)
        as [created Hget].
      exists "failed", "", created. rewrite Hdb. split; [exact Hget|].
      split; [rewrite Htr; apply in_or_app; right; now left|].
      split; [do 3 right; reflexivity|]. split; [reflexivity|].
      split; eauto.
    + left. destruct Hshape as [Htr _]. exists ex.
      split; [reflexivity|]. split; [exact Eex|].
      intros st ch Hin. rewrite Htr in Hin.
      apply in_app_or in Hin as [Hin|[Hin|[]]];
        [now apply not_in_stages in Hin|discriminate Hin].
Qed.

Lemma status_rank_le_sent st : (status_rank st <= status_rank "sent")%nat.
Proof.
  unfold status_rank. change (String.eqb "sent" "sent") with true. cbv iota.
  destruct (String.eqb st "sent"); [lia|]. destruct (_ || _); lia.
Qed.

(** C6, amended.  A run whose record is not [sent] is never skipped.
    When a run is not skipped, it either is cut short by something that
    is no [Exception], and then writes no run record, or it replaces the
    status and the sent-channel string of the record by the outcome of
    this invocation alone, also when the record was [sent]: the status is
    [empty], [rendered], [sent] or, exactly when the run raises,
    [failed], and the sent-channel string is empty unless the status is
    [sent].  So for a record that was not [sent] the new status is
    [failed] or is not lower in the order pending, empty or rendered,
    sent, and a record without channels loses none.  And [mark_sent], on
    any run record and for any channel argument, leaves status [sent] and
    a sent-channel set that contains the previous one. *)
Theorem unsent_run_advances (today : string) (cfg : Config.Settings)
    (db : Database) (w : W) (old : RunRow) :
  get_run db today = Some old ->
  (status old <> "sent" -> already_completed cfg db today = false) /\
  (forall res db' w' tr,
     already_completed cfg db today = false ->
     cmd_run today cfg db w = (res, (db', w', tr)) ->
     (exists ex, res = Raise ex /\ is_Exception ex = false /\
                 forall st ch, ~ In (EUpsertRun st ch) tr) \/
     exists new,
       get_run db' today = Some new /\
       In (EUpsertRun (status new) (sent_channels new)) tr /\
       written (status new) /\
       (status new <> "sent" -> sent_channels new = "") /\
       (status new = "failed" <-> exists ex, res = Raise ex) /\
       (status old <> "sent" ->
        status new = "failed" \/
        (status_rank (status old) <= status_rank (status new))%nat) /\
       (channel_set (sent_channels old) = ∅ ->
        channel_set (sent_channels old) ⊆ channel_set (sent_channels new))) /\
  (forall channel now,
     exists new,
       get_run (mark_sent db today channel now) today = Some new /\
       status new = "sent" /\
       (status_rank (status old) <= status_rank (status new))%nat /\
       channel_set (sent_channels old) ⊆ channel_set (sent_channels new)).
Proof.
  intros Hold. split; [|split].
  - intros Hunsent. unfold already_completed. rewrite Hold.
    destruct (String.eqb (status old) "sent") eqn:E; [|reflexivity].
    apply String.eqb_eq in E. contradiction.
  - intros res db' w' tr Hgo Hrun.
    destruct (cmd_run_record _ _ _ _ _ _ _ _ Hgo Hrun)
      as [Hcut|(st & ch & created & Hnew & Hin & Hw & Hch & Hfailed)];
      [now left|right].
    eexists. split; [exact Hnew|]. cbn [status sent_channels].
    split; [exact Hin|]. split; [exact Hw|]. split; [exact Hch|].
    split; [exact Hfailed|]. split.
    + intros Hunsent.
      destruct Hw as [Hst|[Hst|[Hst|Hst]]]; [right|right|right|now left];
        rewrite Hst; unfold status_rank;
        apply String.eqb_neq in Hunsent; rewrite Hunsent;
        destruct (_ || _); vm_compute; lia.
    + intros ->. apply empty_subseteq.
  - intros channel now.
    destruct (get_run_mark_sent db today channel now) as [created Hnew].
    eexists. split; [exact Hnew|]. split; [reflexivity|].
    cbn [status sent_channels]. split; [apply status_rank_le_sent|].
    intros c Hc. apply elem_of_channel_set.
    pose proof (proj1 (elem_of_channel_set _ _) Hc) as [Hne _].
    split; [exact Hne|].
    apply In_split_merged_any. right. eauto.
Qed.

End Controller.

Lemma unsent_run_advances_witness :
  exists new,
    get_run
      (mark_sent
         (upsert_run empty_db "2024-01-15" "sent" "email"
            "2024-01-15T08:31:00+00:00")
         "2024-01-15" "qq,telegram" "2024-01-15T09:00:00+00:00")
      "2024-01-15" = Some new /\
    status new = "sent" /\
    (status_rank "sent" <= status_rank (status new))%nat /\
    channel_set "email" ⊆ channel_set (sent_channels new).
Proof.
  exact (proj2 (proj2 (@unsent_run_advances _ sample_collaborators
           "2024-01-15" (sample_cfg ["email"])
           (upsert_run empty_db "2024-01-15" "sent" "email"
              "2024-01-15T08:31:00+00:00")
           (outside_with (env_with [] []) (Return []) (Return tt))
           {| status := "sent"; sent_channels := "email";
              created_at := "2024-01-15T08:31:00+00:00" |}
           eq_refl))
         "qq,telegram" "2024-01-15T09:00:00+00:00").
Defined.

End MonotonicityFacts.

(** ** The rate limiter *)

Module LimiterFacts.
Import Py World Llm SpecDefs MoreSpecDefs Samples FrameFacts.

Lemma time_monotonic_mono e :
  mono e <= fst (time_monotonic e)
  /\ mono (snd (time_monotonic e)) = fst (time_monotonic e).
Proof.
  unfold time_monotonic. destruct (elapsed e) as [|d ds]; cbn; lia.
Qed.

Lemma sleep_mono d e : mono (sleep d e) = mono e + Z.max 0 d.
Proof. reflexivity. Qed.

(** what one acquisition does to the limiter and to the clock *)
Lemma acquire_spec rl e slept rl' e' :
  acquire rl e = (Return slept, rl', e') ->
  let now := fst (time_monotonic e) in
  let ts := List.filter (fun t => now - WINDOW <? t) (_timestamps rl) in
  _rpm rl' = _rpm rl /\
  _timestamps rl' = (ts ++ [mono e'])%list /\
  mono e <= now /\ now <= mono e' /\
  (if _rpm rl <=? Z.of_nat (length ts)
   then exists t0 rest,
          ts = t0 :: rest /\ t0 + WINDOW <= mono e' /\
          slept = (if 0 <? t0 + WINDOW - now
                   then Some (t0 + WINDOW - now) else None)
   else slept = None).
Proof.
  unfold acquire. cbv zeta.
  pose proof (time_monotonic_mono e) as [Hle Heq].
  destruct (time_monotonic e) as [now e1]. cbn [fst snd] in *.
  generalize (List.filter (fun t => now - WINDOW <? t) (_timestamps rl)).
  intros ts.
  destruct (_rpm rl <=? Z.of_nat (length ts)).
  - destruct ts as [|t0 rest]; [intros Hx; discriminate Hx|].
    destruct (0 <? t0 + WINDOW - now) eqn:Ew.
    + pose proof (time_monotonic_mono (sleep (t0 + WINDOW - now) e1)) as [Hle2 Heq2].
      destruct (time_monotonic (sleep (t0 + WINDOW - now) e1)) as [t e3].
      cbn [fst snd] in *. rewrite sleep_mono in Hle2.
      intros [= <- <- <-]. cbn [_rpm _timestamps]. rewrite Heq2.
      pose proof (proj1 (Z.ltb_lt _ _) Ew) as Hw.
      split; [reflexivity|]. split; [reflexivity|].
      split; [lia|]. split; [lia|].
      exists t0, rest. rewrite Ew. repeat split; lia.
    + pose proof (time_monotonic_mono e1) as [Hle2 Heq2].
      destruct (time_monotonic e1) as [t e3]. cbn [fst snd] in *.
      intros [= <- <- <-]. cbn [_rpm _timestamps]. rewrite Heq2.
      pose proof (proj1 (Z.ltb_ge _ _) Ew) as Hw.
      split; [reflexivity|]. split; [reflexivity|].
      split; [lia|]. split; [lia|].
      exists t0, rest. rewrite Ew. repeat split; lia.
  - pose proof (time_monotonic_mono e1) as [Hle2 Heq2].
    destruct (time_monotonic e1) as [t e3]. cbn [fst snd] in *.
    intros [= <- <- <-]. cbn [_rpm _timestamps]. rewrite Heq2.
    split; [reflexivity|]. split; [reflexivity|].
    split; [lia|]. split; [lia|]. reflexivity.
Qed.

(** with a positive rate an acquisition always returns *)
Lemma acquire_returns rl e :
  1 <= _rpm rl ->
  exists slept rl' e', acquire rl e = (Return slept, rl', e').
Proof.
  intros Hrpm. unfold acquire.
  destruct (time_monotonic e) as [now e1].
  generalize (List.filter (fun t => now - WINDOW <? t) (_timestamps rl)).
  intros ts.
  destruct (_rpm rl <=? Z.of_nat (length ts)) eqn:E.
  - destruct ts as [|t0 rest]; [apply Z.leb_le in E; simpl in E; lia|].
    destruct (0 <? t0 + WINDOW - now).
    + destruct (time_monotonic (sleep (t0 + WINDOW - now) e1)) as [t e3]. eauto.
    + destruct (time_monotonic e1) as [t e3]. eauto.
  - destruct (time_monotonic e1) as [t e3]. eauto.
Qed.

(** *** Lists of clock readings *)

Lemma desc_app_l l1 l2 : desc (l1 ++ l2)%list -> desc l1.
Proof.
  induction l1 as [|x l1 IH]; simpl; [tauto|].
  intros [Hx Hd]. split; [|auto].
  intros y Hy. apply Hx. apply in_or_app. now left.
Qed.

Lemma filter_none {A} (p : A -> bool) (l : list A) :
  (forall x, In x l -> p x = false) -> List.filter p l = [].
Proof.
  induction l as [|y l IH]; intros Hall; [reflexivity|].
  simpl. rewrite (Hall y (or_introl eq_refl)). apply IH.
  intros z Hz. apply Hall. now right.
Qed.

Lemma filter_all {A} (p : A -> bool) (l : list A) :
  (forall x, In x l -> p x = true) -> List.filter p l = l.
Proof.
  induction l as [|y l IH]; intros Hall; [reflexivity|].
  simpl. rewrite (Hall y (or_introl eq_refl)). f_equal. apply IH.
  intros z Hz. apply Hall. now right.
Qed.

(** on a descending list a lower bound keeps a prefix *)
Lemma desc_filter_split (p : Z -> bool) l :
  desc l ->
  (forall x y, p y = true -> y <= x -> p x = true) ->
  l = (List.filter p l ++ List.filter (fun x => negb (p x)) l)%list.
Proof.
  intros Hd Hup. induction l as [|x l IH]; [reflexivity|].
  destruct Hd as [Hx Hd]. simpl. destruct (p x) eqn:Epx; simpl.
  - f_equal. now apply IH.
  - assert (Hnone : forall y, In y l -> p y = false).
    { intros y Hy. destruct (p y) eqn:Epy; [|reflexivity].
      rewrite (Hup x y Epy (Hx y Hy)) in Epx. discriminate. }
    rewrite (filter_none p l Hnone), filter_all; [reflexivity|].
    intros y Hy. now rewrite (Hnone y Hy).
Qed.

Lemma filter_rev_list {A} (p : A -> bool) (l : list A) :
  List.filter p (rev l) = rev (List.filter p l).
Proof.
  induction l as [|x l IH]; [reflexivity|].
  simpl. rewrite DbFacts.filter_app_list, IH. simpl.
  destruct (p x); simpl; [reflexivity|now rewrite app_nil_r].
Qed.

Lemma In_skipn {A} (x : A) m (l : list A) : In x (skipn m l) -> In x l.
Proof.
  revert l. induction m as [|m IH]; intros l; [now simpl|].
  destruct l as [|y l]; simpl; [tauto|]. intros Hx. right. now apply IH.
Qed.

Lemma In_skipn_app {A} (x : A) m (l1 l2 : list A) :
  In x (skipn m (l1 ++ l2)%list) -> In x (skipn m l1) \/ In x l2.
Proof.
  revert l1. induction m as [|m IH]; intros l1; simpl.
  - intros Hx. apply in_app_or in Hx. tauto.
  - destruct l1 as [|y l1]; simpl.
    + intros Hx. right. eapply In_skipn. exact Hx.
    + apply IH.
Qed.

Lemma In_skipn_app_l {A} (x : A) m (l1 l2 : list A) :
  In x (skipn m l1) -> In x (skipn m (l1 ++ l2)%list).
Proof.
  revert l1. induction m as [|m IH]; intros l1; simpl.
  - intros Hx. apply in_or_app. now left.
  - destruct l1 as [|y l1]; simpl; [tauto|]. apply IH.
Qed.

Lemma skipn_nil_length {A} m (l : list A) :
  skipn m l = [] -> (length l <= m)%nat.
Proof.
  revert l. induction m as [|m IH]; intros [|y l]; simpl; intros Hs;
    try lia; try discriminate.
  apply IH in Hs. lia.
Qed.

Lemma skipn_short {A} m (l : list A) :
  (length l <= m)%nat -> skipn m l = [].
Proof.
  revert l. induction m as [|m IH]; intros [|y l]; simpl; intros Hl;
    try reflexivity; try lia.
  apply IH. lia.
Qed.

(** in a list of at most [S m] elements, what lies beyond the first [m]
    is the last one *)
Lemma In_skipn_last {A} (x : A) m (l l' : list A) (z : A) :
  (length l <= S m)%nat -> l = (l' ++ [z])%list -> In x (skipn m l) -> x = z.
Proof.
  intros Hlen -> Hx. rewrite length_app in Hlen. simpl in Hlen.
  apply In_skipn_app in Hx as [Hx|[<-|[]]]; [|reflexivity].
  rewrite skipn_short in Hx by lia. destruct Hx.
Qed.

(** *** The invariant *)

Lemma limiter_inv_start n e : limiter_inv n [] (new_RateLimiter (Z.of_nat n)) e.
Proof.
  unfold limiter_inv. cbn. split; [reflexivity|].
  split; [exists []; split; [reflexivity|intros x []]|].
  split; [intros x []|]. split; exact I.
Qed.

Lemma limiter_inv_step n done rl e e1 slept rl' e' :
  (1 <= n)%nat ->
  limiter_inv n done rl e ->
  mono e <= mono e1 ->
  acquire rl e1 = (Return slept, rl', e') ->
  limiter_inv n (mono e' :: done) rl' e'.
Proof.
  intros Hn (Hrpm & (dead & Hdone & Hdead) & Hle & Hdesc & Hsp) Hclock Hacq.
  apply acquire_spec in Hacq. cbv zeta in Hacq.
  set (now := fst (time_monotonic e1)) in *.
  set (p := fun t => now - WINDOW <? t) in *.
  destruct Hacq as (Hrpm' & Hts & Hnow1 & Hnow2 & Hbranch).
  set (live := rev (_timestamps rl)) in *.
  assert (Hlive : _timestamps rl = rev live) by (unfold live; now rewrite rev_involutive).
  rewrite Hlive, filter_rev_list in Hts, Hbranch.
  set (keep := List.filter p live) in *.
  set (drop := List.filter (fun x => negb (p x)) live) in *.
  assert (Hsplit : live = (keep ++ drop)%list).
  { apply desc_filter_split.
    - rewrite Hdone in Hdesc. eapply desc_app_l. exact Hdesc.
    - intros x y Hy Hxy. unfold p in *. apply Z.ltb_lt in Hy.
      apply Z.ltb_lt. lia. }
  assert (Hkeep : forall x, In x keep -> now - WINDOW < x).
  { intros x Hx. apply filter_In in Hx as [_ Hx]. now apply Z.ltb_lt in Hx. }
  assert (Hdrop : forall x, In x drop -> x + WINDOW <= now).
  { intros x Hx. apply filter_In in Hx as [_ Hx].
    apply negb_true_iff, Z.ltb_ge in Hx. lia. }
  assert (Hdone' : done = (keep ++ (drop ++ dead))%list).
  { rewrite Hdone, Hsplit. now rewrite <- app_assoc. }
  assert (Hdead' : forall x, In x (drop ++ dead)%list -> x + WINDOW <= mono e').
  { intros x Hx. apply in_app_or in Hx as [Hx|Hx].
    - apply Hdrop in Hx. lia.
    - apply Hdead in Hx. lia. }
  (* at most [n] readings are still in the window *)
  assert (Hfew : (length keep <= n)%nat).
  { apply skipn_nil_length.
    destruct (skipn n keep) as [|x rest] eqn:Es; [reflexivity|exfalso].
    assert (Hx : In x (skipn n keep)) by (rewrite Es; now left).
    pose proof (Hkeep x (In_skipn _ _ _ Hx)) as Hin.
    apply (In_skipn_app_l x n keep (drop ++ dead)) in Hx.
    rewrite <- Hdone' in Hx.
    destruct n as [|m]; [lia|]. destruct done as [|h rest0]; [destruct Hx|].
    cbn [skipn] in Hx. cbn [spaced Nat.pred] in Hsp. destruct Hsp as [Hh _].
    specialize (Hh x Hx). specialize (Hle h (or_introl eq_refl)). lia. }
  unfold limiter_inv. split; [congruence|].
  split.
  { exists (drop ++ dead)%list. split; [|exact Hdead'].
    rewrite Hts, rev_app_distr, rev_involutive. cbn. now rewrite Hdone'. }
  split.
  { intros x [<-|Hx]; [lia|]. specialize (Hle x Hx). lia. }
  split.
  { cbn [desc]. split; [|exact Hdesc].
    intros x Hx. specialize (Hle x Hx). lia. }
  cbn [spaced]. split; [|exact Hsp].
  intros x Hx. rewrite Hdone' in Hx.
  apply In_skipn_app in Hx as [Hx|Hx]; [|now apply Hdead'].
  rewrite length_rev in Hbranch. rewrite Hrpm in Hbranch.
  destruct (Z.of_nat n <=? Z.of_nat (length keep)) eqn:Efull.
  - destruct Hbranch as (t0 & rest & Hrev & Ht0 & _).
    assert (Hk : keep = (rev rest ++ [t0])%list).
    { rewrite <- (rev_involutive keep), Hrev. reflexivity. }
    assert (Hx0 : x = t0).
    { eapply (In_skipn_last x (Nat.pred n) keep); [lia|exact Hk|exact Hx]. }
    subst x. exact Ht0.
  - apply Z.leb_gt in Efull.
    rewrite skipn_short in Hx by lia. destruct Hx.
Qed.

Lemma acquired_inv n done rl e :
  (1 <= n)%nat -> acquired n done rl e -> limiter_inv n done rl e.
Proof.
  intros Hn Hacq. induction Hacq as [e|done rl e e1 slept rl' e' _ IH Hclock Hstep].
  - apply limiter_inv_start.
  - eapply limiter_inv_step; eauto.
Qed.

(** no window of 60 seconds holds more than [n] of the readings *)
Lemma spaced_window m l a :
  spaced m l -> (length (List.filter (in_window a) l) <= S m)%nat.
Proof.
  induction l as [|t rest IH]; intros Hsp; [simpl; lia|].
  destruct Hsp as [Ht Hsp]. simpl.
  destruct (in_window a t) eqn:Ein; [|specialize (IH Hsp); lia].
  simpl. apply le_n_S.
  rewrite <- (firstn_skipn m rest), DbFacts.filter_app_list, length_app.
  assert (Hnone : List.filter (in_window a) (skipn m rest) = []).
  { assert (Hall : forall x, In x (skipn m rest) -> in_window a x = false).
    { intros x Hx. specialize (Ht x Hx). unfold in_window in *.
      apply andb_true_iff in Ein as [_ Ein]. apply Z.ltb_lt in Ein.
      apply andb_false_iff. left. apply Z.leb_gt. lia. }
    now apply filter_none. }
  rewrite Hnone. simpl.
  pose proof (filter_length_le (in_window a) (firstn m rest)) as Hf.
  pose proof (firstn_le_length m rest) as Hm. lia.
Qed.

(** *** A full window *)

Lemma full_window_sleeps n done rl e e1 :
  (1 <= n)%nat ->
  limiter_inv n done rl e ->
  length done = n ->
  mono e <= mono e1 ->
  (forall x, In x done -> fst (time_monotonic e1) < x + WINDOW) ->
  exists rl' e',
    acquire rl e1
    = (Return (Some (List.last done 0 + WINDOW - fst (time_monotonic e1))),
       rl', e') /\
    0 < List.last done 0 + WINDOW - fst (time_monotonic e1) /\
    List.last done 0 + WINDOW <= mono e'.
Proof.
  intros Hn (Hrpm & (dead & Hdone & Hdead) & Hle & _ & _) Hlen Hclock Hin.
  pose proof (time_monotonic_mono e1) as [Hnow Hmono].
  assert (Hnil : dead = []).
  { destruct dead as [|x dead]; [reflexivity|exfalso].
    assert (Hx : In x done)
      by (rewrite Hdone; apply in_or_app; right; now left).
    specialize (Hin x Hx). specialize (Hdead x (or_introl eq_refl)). lia. }
  subst dead. rewrite app_nil_r in Hdone.
  assert (Hts : _timestamps rl = rev done)
    by (rewrite Hdone; now rewrite rev_involutive).
  unfold acquire.
  destruct (time_monotonic e1) as [now e1']. cbn [fst snd] in *.
  rewrite Hts, Hrpm.
  rewrite filter_all.
  2:{ intros x Hx. apply in_rev in Hx. apply Z.ltb_lt.
      specialize (Hin x Hx). lia. }
  rewrite length_rev, Hlen, Z.leb_refl.
  destruct (rev done) as [|t0 rest] eqn:Erev.
  { apply (f_equal (@length Z)) in Erev. rewrite length_rev in Erev.
    simpl in Erev. lia. }
  assert (Hd : done = (rev rest ++ [t0])%list).
  { rewrite <- (rev_involutive done), Erev. reflexivity. }
  assert (Hlast : List.last done 0 = t0) by (rewrite Hd; apply last_last).
  rewrite Hlast.
  assert (Hwait : 0 < t0 + WINDOW - now).
  { assert (Ht0 : In t0 done)
      by (rewrite Hd; apply in_or_app; right; now left).
    specialize (Hin t0 Ht0). lia. }
  rewrite (proj2 (Z.ltb_lt _ _) Hwait).
  pose proof (time_monotonic_mono (sleep (t0 + WINDOW - now) e1')) as [Hle2 Heq2].
  destruct (time_monotonic (sleep (t0 + WINDOW - now) e1')) as [t e3].
  cbn [fst snd] in *. rewrite sleep_mono in Hle2.
  eexists _, _. split; [reflexivity|]. split; [exact Hwait|]. lia.
Qed.

(** *** One acquisition per chat call *)

Lemma chat_acquires_once c messages temperature max_tokens e :
  _rate_limiter (snd (fst (chat c messages temperature max_tokens e)))
  = snd (fst (acquire (_rate_limiter c) e)).
Proof.
  unfold chat. destruct (acquire (_rate_limiter c) e) as [[r rl] e1].
  destruct r as [slept|ex]; [|reflexivity].
  destruct (_post _ e1) as [[data|ex] e2]; reflexivity.
Qed.

(** the requests that go out under one acquisition *)
Lemma chat_attempts c messages temperature max_tokens e :
  1 <= _rpm (_rate_limiter c) ->
  exists k : nat,
    (1 <= k <= 3)%nat /\
    requests (snd (chat c messages temperature max_tokens e))
    = (requests e
       ++ repeat {| p_model := _model c; p_messages := messages;
                    p_temperature := temperature;
                    p_max_tokens := max_tokens |} k)%list.
Proof.
  intros Hrpm. unfold chat.
  destruct (acquire_returns (_rate_limiter c) e Hrpm)
    as (slept & rl' & e1 & Hacq).
  pose proof (acquire_frame (_rate_limiter c) e) as [_ Hq].
  rewrite Hacq in *. cbn [snd] in Hq.
  match goal with
  | |- context [_post ?payload e1] =>
      destruct (post_attempts_spec payload e1) as (k & Hk & Hreq & _);
      destruct (_post payload e1) as [r2 e2]
  end.
  cbn [snd] in Hreq. exists k. split; [exact Hk|].
  destruct r2; cbn [snd]; rewrite Hreq, Hq; reflexivity.
Qed.

(** C5, as stated, fails in its first part: the readings count the calls
    of [chat], not the requests that go out.  With one request per minute
    allowed and the gateway unreachable, one call of [chat] posts three
    times within 8 seconds and leaves one reading. *)
Lemma retries_share_one_reading :
  ~ (forall (c : LLMClient) (messages : list Message)
            (temperature : PrimFloat.float) (max_tokens : Z) (e : Env),
        1 <= _rpm (_rate_limiter c) ->
        _timestamps (_rate_limiter c) = [] ->
        let out := chat c messages temperature max_tokens e in
        length (_timestamps (_rate_limiter (snd (fst out))))
        = (length (requests (snd out)) - length (requests e))%nat).
Proof.
  intros Hclaim.
  set (c := with_limiter (new_LLMClient (sample_cfg [])) (new_RateLimiter 1)).
  set (out := chat c [] 0.3%float 4096 (env_with [] [])).
  assert (Hfacts : _timestamps (_rate_limiter (snd (fst out))) = [0] /\
                   length (requests (snd out)) = 3%nat /\
                   mono (snd out) = 8 * second)
    by (vm_compute; repeat split; reflexivity).
  destruct Hfacts as (Hts & Hreq & _).
  specialize (Hclaim c [] 0.3%float 4096 (env_with [] [])
                ltac:(vm_compute; discriminate) eq_refl).
  cbv zeta in Hclaim. fold out in Hclaim.
  rewrite Hts, Hreq in Hclaim. discriminate Hclaim.
Qed.

(** C5, amended.  A clock reading is recorded per call of [chat], not
    per request that goes out: [chat] performs exactly one acquisition
    per call, before its request is posted and whatever becomes of the
    request, an acquisition returns and appends exactly one clock reading
    to the readings still inside the window, and the one to three
    requests of that call go out without a further reading.  Over an
    exact monotonic clock, for a limiter made for [n >= 1] requests per
    minute and any history of acquisitions, held one at a time as under
    the lock: when [n] acquisitions have completed and all of them are
    still within 60 seconds, the next one sleeps until the oldest reading
    is 60 seconds old and completes no earlier; and no interval of 60
    seconds (closed at its start, open at its end) contains more than
    [n] completions. *)
Theorem rate_limiter_window (n : nat) (done : list Z) (rl : RateLimiter)
    (e : Env) :
  (1 <= n)%nat ->
  acquired n done rl e ->
  (forall c messages temperature max_tokens e0,
     _rate_limiter (snd (fst (chat c messages temperature max_tokens e0)))
     = snd (fst (acquire (_rate_limiter c) e0))) /\
  (forall c messages temperature max_tokens e0,
     1 <= _rpm (_rate_limiter c) ->
     exists k : nat,
       (1 <= k <= 3)%nat /\
       requests (snd (chat c messages temperature max_tokens e0))
       = (requests e0
          ++ repeat {| p_model := _model c; p_messages := messages;
                       p_temperature := temperature;
                       p_max_tokens := max_tokens |} k)%list) /\
  (forall e1, exists slept rl' e', acquire rl e1 = (Return slept, rl', e')) /\
  (forall e1 slept rl' e',
     acquire rl e1 = (Return slept, rl', e') ->
     _timestamps rl'
     = (List.filter (fun t => fst (time_monotonic e1) - WINDOW <? t)
          (_timestamps rl) ++ [mono e'])%list) /\
  (length done = n ->
   forall e1,
     mono e <= mono e1 ->
     (forall x, In x done -> fst (time_monotonic e1) < x + WINDOW) ->
     exists rl' e',
       acquire rl e1
       = (Return (Some (List.last done 0 + WINDOW - fst (time_monotonic e1))),
          rl', e') /\
       0 < List.last done 0 + WINDOW - fst (time_monotonic e1) /\
       List.last done 0 + WINDOW <= mono e') /\
  (forall a, (length (List.filter (in_window a) done) <= n)%nat).
Proof.
  intros Hn Hacq. pose proof (acquired_inv n done rl e Hn Hacq) as Hinv.
  split; [intros; apply chat_acquires_once|].
  split; [intros; now apply chat_attempts|].
  split.
  { intros e1. apply acquire_returns. destruct Hinv as (Hrpm & _). lia. }
  split; [intros e1 slept rl' e' Hstep; now apply acquire_spec in Hstep|].
  split.
  - intros Hlen e1 Hclock Hin. eapply full_window_sleeps; eauto.
  - intros a. destruct Hinv as (_ & _ & _ & _ & Hsp).
    destruct n as [|m]; [lia|]. now apply spaced_window.
Qed.

Lemma rate_limiter_window_witness :
  exists done rl e,
    acquired 2 done rl e /\ length done = 3%nat /\
    forall a, (length (List.filter (in_window a) done) <= 2)%nat.
Proof.
  assert (Hacq : exists done rl e,
            acquired 2 done rl e /\ length done = 3%nat).
  { eexists _, _, _. split.
    - eapply (acquired_next 2 _ _ _ (env_with [] [])).
      + eapply (acquired_next 2 _ _ _ (env_with [] [])).
        * eapply (acquired_next 2 _ _ _ (env_with [] [])).
          -- apply (acquired_none 2 (env_with [] [])).
          -- apply Z.le_refl.
          -- reflexivity.
        * apply Z.le_refl.
        * reflexivity.
      + apply Z.le_refl.
      + reflexivity.
    - reflexivity. }
  destruct Hacq as (done & rl & e & Hacq & Hlen).
  exists done, rl, e. split; [exact Hacq|]. split; [exact Hlen|].
  apply (rate_limiter_window 2 done rl e (le_S _ _ (le_n 1)) Hacq).
Defined.

End LimiterFacts.

(** ** The summarization engine *)

Module SummarizerFacts.
Import Py World Db Llm Summarizer SpecDefs Samples.

Lemma time_monotonic_keeps e :
  responses (snd (time_monotonic e)) = responses e
  /\ requests (snd (time_monotonic e)) = requests e.
Proof. unfold time_monotonic. destruct (elapsed e); split; reflexivity. Qed.

(** a fresh limiter for at least one request per minute lets the first
    request pass *)
Lemma acquire_fresh rpm e :
  1 <= rpm ->
  exists rl' e',
    acquire (new_RateLimiter rpm) e = (Return None, rl', e')
    /\ responses e' = responses e /\ requests e' = requests e.
Proof.
  intros Hrpm. unfold acquire, new_RateLimiter. cbn [_timestamps _rpm].
  pose proof (time_monotonic_keeps e) as [Hr1 Hq1].
  destruct (time_monotonic e) as [now e1]. cbn [snd] in *. cbn [List.filter length].
  destruct (rpm <=? Z.of_nat 0) eqn:E; [apply Z.leb_le in E; simpl in E; lia|].
  pose proof (time_monotonic_keeps e1) as [Hr2 Hq2].
  destruct (time_monotonic e1) as [t e3]. cbn [snd] in *.
  eexists _, _. split; [reflexivity|]. split; congruence.
Qed.

(** an unreachable gateway: the three attempts of [_post] all fail, and
    the last failure is re-raised *)
Lemma post_unreachable payload e :
  responses e = [] ->
  exists e',
    _post payload e = (Raise HTTPError, e')
    /\ length (requests e') = (length (requests e) + 3)%nat.
Proof.
  intros Hnone. unfold _post, post_attempts, http_post.
  rewrite Hnone. cbn [sleep responses requests].
  eexists. split; [reflexivity|]. cbn [requests].
  rewrite !length_app. simpl. lia.
Qed.

Section Engine.
Context `{Runtime}.

Lemma chat_json_unreachable c messages temperature max_tokens e :
  1 <= _rpm (_rate_limiter c) ->
  _timestamps (_rate_limiter c) = [] ->
  responses e = [] ->
  exists c' e',
    chat_json c messages temperature max_tokens e = (Raise HTTPError, c', e')
    /\ length (requests e') = (length (requests e) + 3)%nat.
Proof.
  intros Hrpm Hts Hnone. unfold chat_json, chat.
  destruct (_rate_limiter c) as [rpm ts] eqn:Erl. cbn in Hrpm, Hts. subst ts.
  destruct (acquire_fresh rpm e Hrpm) as (rl' & e1 & Hacq & Hr & Hq).
  unfold new_RateLimiter in Hacq. rewrite Hacq.
  match goal with
  | |- context [_post ?payload e1] =>
      destruct (post_unreachable payload e1) as (e2 & Hpost & Hlen);
        [congruence|rewrite Hpost]
  end.
  eexists _, _. split; [reflexivity|]. congruence.
Qed.

(** the failure of the first call leaves [summarize_one] at once *)
Lemma summarize_one_unreachable c paper e :
  1 <= _rpm (_rate_limiter c) ->
  _timestamps (_rate_limiter c) = [] ->
  responses e = [] ->
  exists c' e',
    summarize_one c paper e = (Raise HTTPError, c', e')
    /\ length (requests e') = (length (requests e) + 3)%nat.
Proof.
  intros Hrpm Hts Hnone. unfold summarize_one.
  destruct (chat_json_unreachable c (_build_messages paper) temperature_json
              4096 e Hrpm Hts Hnone) as (c' & e' & Hchat & Hlen).
  rewrite Hchat. cbn. eauto.
Qed.

(** the returned list pairs the input papers, in order *)
Lemma summarize_papers_pairs papers db cfg e :
  List.map s_paper (fst (fst (summarize_papers papers db cfg e))) = papers.
Proof.
  unfold summarize_papers.
  destruct (gather _ _) as [results [[db' c'] e']]. cbn [fst].
  rewrite List.map_map. induction papers as [|p ps IH]; [reflexivity|].
  cbn [List.map]. f_equal; [|exact IH].
  unfold collect. destruct (get_summary db' (arxiv_id p)) as [s|]; [|reflexivity].
  destruct (truthy (VDict s)); reflexivity.
Qed.

(** a paper without cached summary whose first model call fails in
    transport is handed back without summary, and nothing is stored *)
Lemma unreachable_gateway_no_summary paper db cfg e :
  has_summary db (arxiv_id paper) = false ->
  1 <= Config.llm_rate_limit_rpm cfg ->
  responses e = [] ->
  exists e',
    summarize_papers [paper] db cfg e
    = ([{| s_paper := paper; summary := None |}], db, e')
    /\ length (requests e') = (length (requests e) + 3)%nat.
Proof.
  intros Hnew Hrpm Hnone. unfold summarize_papers.
  cbn [List.filter]. rewrite Hnew. cbn [negb gather _do_one].
  destruct (summarize_one_unreachable (new_LLMClient cfg) paper e)
    as (c' & e' & Hone & Hlen); [exact Hrpm|reflexivity|exact Hnone|].
  rewrite Hone. cbn [bind List.map]. unfold collect, get_summary.
  unfold has_summary in Hnew.
  destruct (summaries db !! arxiv_id paper); [discriminate|].
  eauto.
Qed.

End Engine.

(** the sibling path: when the first reply cannot be used (here a body
    without choices, a [ValueError]) and the repair call then fails in
    transport, the minimal summary is returned by [summarize_one] and
    persisted *)
Example repair_failure_keeps_fallback :
  exists s db' e',
    @summarize_papers offline [sample_paper] empty_db (sample_cfg [])
      {| mono := 0; elapsed := []; responses := [Return (VDict [])];
         requests := []; smtp := []; onebot := []; delivered := [] |}
    = ([{| s_paper := sample_paper; summary := Some s |}], db', e')
    /\ get_summary db' (arxiv_id sample_paper) = Some s
    /\ dict_get s "title_zh" = Some (VStr (title sample_paper))
    /\ dict_get s "tldr_zh" = Some (VStr "unknown").
Proof. eexists _, _, _. vm_compute. repeat split. Qed.

(** C1 fails on the code.  One paper, an empty store, and a model
    gateway that cannot be reached: the three transport attempts of the
    first call fail, the exception leaves [summarize_one] (whose first
    handler catches [ValueError] only), [_do_one] builds the minimal
    summary but does not save it, and [summarize_papers] returns the paper
    with the absent-marker while the store holds no summary for it. *)
Theorem unreachable_gateway_loses_fallback :
  exists e',
    @summarize_papers offline [sample_paper] empty_db (sample_cfg [])
      (env_with [] [])
    = ([{| s_paper := sample_paper; summary := None |}], empty_db, e')
    /\ get_summary empty_db (arxiv_id sample_paper) = None
    /\ length (requests e') = 3%nat
    /\ fst (@_do_one offline sample_paper
              (empty_db, new_LLMClient (sample_cfg []), env_with [] []))
       = (arxiv_id sample_paper, @minimal_summary offline sample_paper).
Proof.
  destruct (@unreachable_gateway_no_summary offline sample_paper empty_db
              (sample_cfg []) (env_with [] []) eq_refl)
    as (e' & Hrun & Hlen); [vm_compute; discriminate|reflexivity|].
  exists e'. split; [exact Hrun|]. split; [reflexivity|].
  split; [exact Hlen|]. vm_compute. reflexivity.
Qed.

End SummarizerFacts.

(** ** More on the persistent store *)

Module StoreFacts.
Import Py Db PyStr PyStrFacts SpecDefs Samples MoreSamples DbFacts.

Lemma has_paper_In db id :
  has_paper db id = true <-> In id (List.map row_id (papers db)).
Proof.
  unfold has_paper. rewrite existsb_exists, in_map_iff. split.
  - intros (r & Hr & Heq). apply String.eqb_eq in Heq. eauto.
  - intros (r & Heq & Hr). exists r. split; [assumption|].
    now apply String.eqb_eq.
Qed.

Lemma upsert_papers_from_spec ps : forall acc db now,
  NoDup (List.map row_id (papers db)) ->
  exists added,
    upsert_papers_from acc db ps now
    = (acc + Z.of_nat (length added),
       {| papers := (papers db ++ added)%list;
          summaries := summaries db; runs := runs db |}) /\
    NoDup (List.map row_id (papers db ++ added)%list) /\
    (forall r, In r added -> In (row_paper r) ps /\ fetched_at r = now) /\
    (forall p, In p ps ->
       In (arxiv_id p) (List.map row_id (papers db ++ added)%list)) /\
    (length added <= length ps)%nat.
Proof.
  induction ps as [|p ps IH]; intros acc db now Hnd.
  - exists []. cbn. rewrite Z.add_0_r, app_nil_r. destruct db.
    repeat split; auto; try tauto; intros r [].
  - cbn [upsert_papers_from]. unfold upsert_paper.
    destruct (has_paper db (arxiv_id p)) eqn:Ehas.
    + destruct (IH acc db now Hnd) as (added & Hrun & Hnd' & Hrows & Hin & Hlen).
      exists added. split; [exact Hrun|]. split; [exact Hnd'|].
      split; [|split].
      * intros r Hr. destruct (Hrows r Hr). split; [now right|assumption].
      * intros q [<-|Hq]; [|now apply Hin].
        rewrite List.map_app. apply in_or_app. left. now apply has_paper_In.
      * simpl. lia.
    + set (row := {| row_paper := p; fetched_at := now |}).
      set (db1 := {| papers := (papers db ++ [row])%list;
                     summaries := summaries db; runs := runs db |}).
      assert (Hnd1 : NoDup (List.map row_id (papers db1))).
      { unfold db1. cbn [papers]. rewrite List.map_app. cbn.
        apply NoDup_app. split; [exact Hnd|]. split.
        - intros x Hx Hx2. apply list_elem_of_In in Hx2.
          destruct Hx2 as [Hx2|[]]. subst x.
          apply list_elem_of_In, has_paper_In in Hx.
          change (row_id row) with (arxiv_id p) in Hx. congruence.
        - apply NoDup_singleton. }
      destruct (IH (acc + 1) db1 now Hnd1)
        as (added & Hrun & Hnd' & Hrows & Hin & Hlen).
      exists (row :: added). unfold db1 in *. cbn [papers summaries runs] in *.
      rewrite <- app_assoc in Hrun, Hnd', Hin. cbn [app] in Hrun, Hnd', Hin.
      split.
      { rewrite Hrun. f_equal. cbn [length]. lia. }
      split; [exact Hnd'|]. split; [|split].
      * intros r [<-|Hr]; [split; [now left|reflexivity]|].
        destruct (Hrows r Hr). split; [now right|assumption].
      * intros q [<-|Hq]; [|now apply Hin].
        rewrite List.map_app. apply in_or_app. right. now left.
      * simpl. lia.
Qed.

(** X1. [upsert_papers] appends to table [papers] one row per paper
    whose identifier was not there yet, stamped with the fetch time and in
    the order of the input, and returns their number; rows already there,
    summaries and runs are untouched; identifiers stay unique; afterwards
    every input identifier is stored, and inserting the same list again
    adds nothing. *)
Theorem upsert_papers_inserts_new (db : Database) (ps : list Paper)
    (now now' : string) :
  NoDup (List.map row_id (papers db)) ->
  exists added,
    upsert_papers db ps now
    = (Z.of_nat (length added),
       {| papers := (papers db ++ added)%list;
          summaries := summaries db; runs := runs db |}) /\
    NoDup (List.map row_id (papers db ++ added)%list) /\
    (forall r, In r added -> In (row_paper r) ps /\ fetched_at r = now) /\
    (forall p, In p ps ->
       has_paper (snd (upsert_papers db ps now)) (arxiv_id p) = true) /\
    (length added <= length ps)%nat /\
    upsert_papers (snd (upsert_papers db ps now)) ps now'
    = (0, snd (upsert_papers db ps now)).
Proof.
  intros Hnd. unfold upsert_papers.
  destruct (upsert_papers_from_spec ps 0 db now Hnd)
    as (added & Hrun & Hnd' & Hrows & Hin & Hlen).
  exists added. rewrite Hrun. cbn [snd].
  split; [reflexivity|]. split; [exact Hnd'|]. split; [exact Hrows|].
  split; [intros p Hp; apply has_paper_In; cbn [papers]; now apply Hin|].
  split; [exact Hlen|].
  set (db1 := {| papers := _; summaries := _; runs := _ |}).
  assert (Hall : forall p, In p ps -> has_paper db1 (arxiv_id p) = true)
    by (intros p Hp; apply has_paper_In; cbn [papers]; now apply Hin).
  clearbody db1. clear -Hall. generalize 0 as acc.
  induction ps as [|p ps IH]; intros acc; [reflexivity|].
  cbn [upsert_papers_from]. unfold upsert_paper.
  rewrite (Hall p (or_introl eq_refl)). apply IH.
  intros q Hq. apply Hall. now right.
Qed.

Lemma upsert_papers_inserts_new_witness :
  exists added,
    upsert_papers empty_db
      [sample_paper; second_paper; sample_paper] "t"
    = (Z.of_nat (length added),
       {| papers := ([] ++ added)%list; summaries := ∅; runs := ∅ |})
    /\ length added = 2%nat.
Proof.
  destruct (upsert_papers_inserts_new empty_db
              [sample_paper; second_paper; sample_paper] "t" "t'"
              (NoDup_nil_2))
    as (added & Hrun & _).
  exists added. split; [exact Hrun|].
  assert (Hc : fst (upsert_papers empty_db
                      [sample_paper; second_paper; sample_paper] "t") = 2)
    by reflexivity.
  rewrite Hrun in Hc. cbn [fst] in Hc. lia.
Defined.

(** X2. A saved summary is read back as saved and [has_summary] holds; a
    later save for the same identifier replaces it; summaries of other
    identifiers, the papers and the runs are untouched (no paper row is
    required for the identifier). *)
Theorem save_summary_round_trip (db : Database) (id other : string)
    (s s' : pydict) :
  get_summary (save_summary db id s) id = Some s /\
  has_summary (save_summary db id s) id = true /\
  get_summary (save_summary (save_summary db id s) id s') id = Some s' /\
  save_summary (save_summary db id s) id s' = save_summary db id s' /\
  (other <> id ->
   get_summary (save_summary db id s) other = get_summary db other /\
   has_summary (save_summary db id s) other = has_summary db other) /\
  papers (save_summary db id s) = papers db /\
  runs (save_summary db id s) = runs db.
Proof.
  unfold get_summary, has_summary, save_summary. cbn [summaries papers runs].
  rewrite !lookup_insert_eq, insert_insert_eq.
  repeat split.
  - rewrite lookup_insert_ne by congruence. reflexivity.
  - rewrite lookup_insert_ne by congruence. reflexivity.
Qed.

Lemma save_summary_round_trip_witness :
  get_summary (save_summary (save_summary empty_db "2401.00001" [])
                 "2401.00002" wrong_contributions) "2401.00001"
  = get_summary (save_summary empty_db "2401.00001" []) "2401.00001".
Proof.
  destruct (save_summary_round_trip (save_summary empty_db "2401.00001" [])
              "2401.00002" "2401.00001" wrong_contributions [])
    as (_ & _ & _ & _ & Hother & _).
  apply Hother. discriminate.
Defined.

End StoreFacts.

(** ** The read queries *)

Module QueryFacts.
Import Py Db Queries PyStr SpecDefs MoreSpecDefs Samples MoreSamples DbFacts.

Section Order.
Context {A : Type} (key : A -> string).

Lemma insert_desc_perm r rs : insert_desc key r rs ≡ₚ r :: rs.
Proof.
  induction rs as [|x xs IH]; cbn; [reflexivity|].
  destruct (String.leb (key x) (key r)); [reflexivity|].
  rewrite IH. apply Permutation_swap.
Qed.

Lemma order_desc_perm rs : order_desc key rs ≡ₚ rs.
Proof.
  induction rs as [|r rs IH]; cbn; [reflexivity|].
  rewrite insert_desc_perm. now rewrite IH.
Qed.

Lemma insert_desc_sorted r rs :
  Sorted (newest_first key) rs ->
  Sorted (newest_first key) (insert_desc key r rs).
Proof.
  induction rs as [|x xs IH]; cbn; intros Hs.
  - repeat constructor.
  - destruct (String.leb (key x) (key r)) eqn:E.
    + constructor; [assumption|]. constructor. exact E.
    + apply Sorted_inv in Hs as [Hs Hhd]. constructor; [now apply IH|].
      assert (Hrx : newest_first key x r).
      { unfold newest_first.
        destruct (String.leb_total (key r) (key x)) as [Ht|Ht];
          [exact Ht|congruence]. }
      destruct xs as [|y ys]; cbn.
      * constructor. exact Hrx.
      * destruct (String.leb (key y) (key r)).
        -- constructor. exact Hrx.
        -- constructor. now apply HdRel_inv in Hhd.
Qed.

Lemma order_desc_sorted rs : Sorted (newest_first key) (order_desc key rs).
Proof.
  induction rs as [|r rs IH]; cbn; [constructor|].
  now apply insert_desc_sorted.
Qed.

End Order.

Lemma In_joined db r rs :
  In rs (joined db r) <-> fst rs = r /\ get_summary db (row_id r) = Some (snd rs).
Proof.
  unfold joined, get_summary. destruct rs as [r' s']. cbn.
  destruct (summaries db !! row_id r) as [s|]; cbn.
  - split.
    + intros [[= <- <-]|[]]. auto.
    + intros [-> [= ->]]. now left.
  - split; [tauto|]. intros [_ Hx]. discriminate.
Qed.

(** X3. [get_papers_without_summary] returns, newest first, exactly the
    stored rows whose identifier has no summary (as a list: a
    rearrangement of those rows); [get_all_papers_with_summaries]
    returns, newest first, exactly the stored rows that have one, each
    with its summary; every stored row is in one of the two results; and
    once a summary is saved for an identifier its rows leave the first
    result while the other rows stay. *)
Theorem queries_partition_store (db : Database) :
  get_papers_without_summary db
  ≡ₚ List.filter (fun r => negb (has_summary db (row_id r))) (papers db) /\
  (forall r, In r (get_papers_without_summary db) <->
             In r (papers db) /\ has_summary db (row_id r) = false) /\
  (forall r s, In (r, s) (get_all_papers_with_summaries db) <->
               In r (papers db) /\ get_summary db (row_id r) = Some s) /\
  Sorted (newest_first (fun r => published_at (row_paper r)))
    (get_papers_without_summary db) /\
  Sorted (newest_first (fun rs => published_at (row_paper (fst rs))))
    (get_all_papers_with_summaries db) /\
  (length (get_papers_without_summary db)
   + length (get_all_papers_with_summaries db) = length (papers db))%nat /\
  (forall id s r,
     In r (get_papers_without_summary (save_summary db id s)) <->
     In r (get_papers_without_summary db) /\ row_id r <> id).
Proof.
  assert (Hwithout : forall d r, In r (get_papers_without_summary d) <->
                       In r (papers d) /\ has_summary d (row_id r) = false).
  { intros d r. unfold get_papers_without_summary.
    rewrite <- !list_elem_of_In, order_desc_perm, !list_elem_of_In.
    rewrite filter_In, negb_true_iff. reflexivity. }
  split; [apply order_desc_perm|]. split; [apply Hwithout|].
  split.
  { intros r s. unfold get_all_papers_with_summaries.
    rewrite <- list_elem_of_In, order_desc_perm, list_elem_of_In.
    rewrite in_concat. split.
    - intros (l & Hl & Hin). apply in_map_iff in Hl as (r' & <- & Hr').
      apply In_joined in Hin as [Hfst Hsum]. cbn in *. subst r'. auto.
    - intros [Hr Hs]. exists (joined db r). split; [now apply in_map|].
      apply In_joined. auto. }
  split; [apply order_desc_sorted|]. split; [apply order_desc_sorted|].
  split.
  { unfold get_papers_without_summary, get_all_papers_with_summaries.
    rewrite !order_desc_perm.
    induction (papers db) as [|r rs IH]; [reflexivity|].
    cbn [List.filter List.map List.concat]. rewrite length_app.
    unfold joined at 1, has_summary at 1.
    destruct (summaries db !! row_id r); cbn [negb length]; lia. }
  intros id s r. rewrite !Hwithout. cbn [papers].
  unfold has_summary, save_summary. cbn [summaries].
  destruct (decide (row_id r = id)) as [->|Hne].
  - rewrite lookup_insert_eq. split; [intros [_ Hx]; discriminate|tauto].
  - rewrite lookup_insert_ne by congruence. tauto.
Qed.

Lemma queries_partition_store_witness :
  get_papers_without_summary
    (save_summary (snd (upsert_paper empty_db sample_paper "t"))
       "2401.00001" wrong_contributions) = [].
Proof.
  destruct (get_papers_without_summary
              (save_summary (snd (upsert_paper empty_db sample_paper "t"))
                 "2401.00001" wrong_contributions)) as [|r rs] eqn:E;
    [reflexivity|exfalso].
  destruct (queries_partition_store (snd (upsert_paper empty_db sample_paper "t")))
    as (_ & Hwithout & _ & _ & _ & _ & Hsave).
  assert (Hr : In r (get_papers_without_summary
                       (save_summary (snd (upsert_paper empty_db sample_paper "t"))
                          "2401.00001" wrong_contributions)))
    by (rewrite E; now left).
  apply Hsave in Hr as [Hr Hne]. apply Hwithout in Hr as [Hr _].
  cbn in Hr. destruct Hr as [<-|[]]. now apply Hne.
Defined.

End QueryFacts.

(** ** [mark_sent] keeps a canonical record *)

Module MarkSentFacts.
Import Py Db PyStr PyStrFacts SpecDefs Samples DbFacts.

(** the sent-channel set before a [mark_sent] *)
Lemma channel_set_merged db run_date channel :
  contains_char comma channel = false -> channel <> "" ->
  channel_set (merged db run_date channel)
  = match get_run db run_date with
    | Some run => channel_set (sent_channels run)
    | None => ∅
    end ∪ {[channel]}.
Proof.
  intros Hfree Hne. apply set_eq. intros c.
  rewrite elem_of_channel_set, (In_split_merged _ _ _ _ Hfree).
  rewrite elem_of_union, elem_of_singleton.
  destruct (get_run db run_date) as [run|].
  - split.
    + intros [Hc [->|(r & [= <-] & Hin)]]; [now right|now left].
    + intros [Hin| ->].
      * split; [now apply elem_of_channel_set in Hin|]. right. eauto.
      * split; [assumption|now left].
  - split.
    + intros [Hc [->|(r & Hr & _)]]; [now right|discriminate].
    + intros [Hin| ->]; [now apply not_elem_of_empty in Hin|].
      split; [assumption|now left].
Qed.

Lemma mark_sent_unfold db run_date channel now :
  mark_sent db run_date channel now
  = {| papers := papers db; summaries := summaries db;
       runs := <[run_date :=
                   {| status := "sent";
                      sent_channels := merged db run_date channel;
                      created_at := match get_run db run_date with
                                    | Some old => created_at old
                                    | None => now
                                    end |}]> (runs db) |}.
Proof.
  unfold mark_sent, merged, upsert_run, get_run.
  destruct (runs db !! run_date); reflexivity.
Qed.

Lemma mark_sent_twice_unfold db run_date a b t1 t2 :
  contains_char comma a = false -> a <> "" ->
  mark_sent (mark_sent db run_date a t1) run_date b t2
  = {| papers := papers db; summaries := summaries db;
       runs := <[run_date :=
                   {| status := "sent";
                      sent_channels :=
                        join "," (sorted (elements
                          (match get_run db run_date with
                           | Some run => channel_set (sent_channels run)
                           | None => ∅
                           end ∪ {[a]} ∪ {[b]})));
                      created_at := match get_run db run_date with
                                    | Some old => created_at old
                                    | None => t1
                                    end |}]> (runs db) |}.
Proof.
  intros Hfree Hne.
  rewrite (mark_sent_unfold (mark_sent db run_date a t1)).
  destruct (get_run_mark_sent db run_date a t1) as [created Hrun].
  unfold merged at 1. rewrite Hrun. cbn [sent_channels created_at].
  rewrite (channel_set_merged _ _ _ Hfree Hne).
  rewrite (mark_sent_unfold db) in Hrun |- *.
  cbn [papers summaries runs get_run] in *.
  unfold get_run in Hrun. cbn [runs] in Hrun.
  rewrite lookup_insert_eq in Hrun. injection Hrun as <-.
  rewrite insert_insert_eq. reflexivity.
Qed.

(** X4. For channel names that are non-empty and hold no comma, marking
    a channel a second time changes nothing, and the order in which two
    channels are marked does not matter: the stored record is the same,
    with the channels sorted and without duplicates, and the creation
    time of the run is kept. *)
Theorem mark_sent_canonical (db : Database) (run_id a b t1 t2 : string) :
  contains_char comma a = false -> a <> "" ->
  contains_char comma b = false -> b <> "" ->
  mark_sent (mark_sent db run_id a t1) run_id a t2 = mark_sent db run_id a t1 /\
  mark_sent (mark_sent db run_id a t1) run_id b t2
  = mark_sent (mark_sent db run_id b t1) run_id a t2.
Proof.
  intros Ha Hane Hb Hbne. split.
  - rewrite (mark_sent_twice_unfold _ _ _ _ _ _ Ha Hane).
    rewrite (mark_sent_unfold db run_id a t1). f_equal. f_equal.
    unfold merged.
    destruct (get_run db run_id) as [run|].
    + assert (Hs : channel_set (sent_channels run) ∪ {[a]} ∪ {[a]}
                   = channel_set (sent_channels run) ∪ {[a]})
        by (rewrite <- (assoc_L (∪)), (idemp_L (∪)); reflexivity).
      rewrite Hs. reflexivity.
    + assert (Hs : (∅ ∪ {[a]} ∪ {[a]} : gset string) = {[a]})
        by (rewrite (left_id_L ∅ (∪)), (idemp_L (∪)); reflexivity).
      rewrite Hs, elements_singleton. reflexivity.
  - rewrite (mark_sent_twice_unfold _ _ _ _ _ _ Ha Hane).
    rewrite (mark_sent_twice_unfold _ _ _ _ _ _ Hb Hbne).
    assert (Hs : forall S : gset string, S ∪ {[a]} ∪ {[b]} = S ∪ {[b]} ∪ {[a]}).
    { intros S. rewrite <- !(assoc_L (∪)). f_equal. apply (comm_L (∪)). }
    rewrite Hs. reflexivity.
Qed.

Lemma mark_sent_canonical_witness :
  mark_sent (mark_sent empty_db "2024-01-15" "qq" "t1") "2024-01-15" "email" "t2"
  = mark_sent (mark_sent empty_db "2024-01-15" "email" "t1") "2024-01-15" "qq" "t2".
Proof.
  apply (mark_sent_canonical empty_db "2024-01-15" "qq" "email" "t1" "t2");
    (reflexivity || discriminate).
Defined.

End MarkSentFacts.

(** ** The chat client *)

Module ClientFacts.
Import Py World Llm Health SpecDefs MoreSpecDefs Samples FrameFacts LimiterFacts.

(** X5. [_post] makes one to three HTTP attempts with the same payload,
    waiting 4 seconds after each failed attempt that is retried; it
    returns the first answer that is not an exception, and after three
    failures raises the exception of the third. *)
Theorem post_retry_policy (payload : Payload) (e : Env) :
  exists k : nat,
    (1 <= k <= 3)%nat /\
    requests (snd (_post payload e)) = (requests e ++ repeat payload k)%list /\
    responses (snd (_post payload e)) = skipn k (responses e) /\
    mono (snd (_post payload e)) = mono e + Z.of_nat (k - 1) * (4 * second) /\
    fst (_post payload e) = answer e (k - 1) /\
    (forall i, (i < k - 1)%nat -> exists ex, answer e i = Raise ex) /\
    ((k < 3)%nat -> exists data, fst (_post payload e) = Return data).
Proof. apply post_attempts_spec. Qed.

(** X6. With a positive rate limit, when the first HTTP answer is a body
    whose first choice carries a message with content [x], [chat] returns
    [x] after exactly one request for the client's model with the given
    messages, temperature and token limit; when that body has no
    [choices] entry, or an empty one, [chat] raises [ValueError]; and
    [check_health] is [True] exactly for a content that is a string with
    a character other than whitespace. *)
Theorem chat_reads_first_choice (c : LLMClient) (messages : list Message)
    (temperature : PrimFloat.float) (max_tokens : Z) (e : Env)
    (body : pydict) (rest : list (outcome pyval)) :
  1 <= _rpm (_rate_limiter c) ->
  responses e = Return (VDict body) :: rest ->
  let payload :=
    {| p_model := _model c; p_messages := messages;
       p_temperature := temperature; p_max_tokens := max_tokens |} in
  let out := chat c messages temperature max_tokens e in
  requests (snd out) = (requests e ++ [payload])%list /\
  responses (snd out) = rest /\
  (forall c0 more m x,
     dict_get body "choices" = Some (VList (VDict c0 :: more)) ->
     dict_get c0 "message" = Some (VDict m) ->
     dict_get m "content" = Some x ->
     fst (fst out) = Return x /\
     fst (fst (check_health c e))
     = match x with
       | VStr s => PyStr.nonempty (PyStr.strip s)
       | _ => false
       end) /\
  (dict_get body "choices" = None \/
   dict_get body "choices" = Some (VList []) ->
   fst (fst out) = Raise ValueError /\ fst (fst (check_health c e)) = false).
Proof.
  intros Hrpm Hresp payload out.
  assert (Hchat : forall msgs temp mt,
            chat c msgs temp mt e
            = (reply_content (VDict body),
               with_limiter c (snd (fst (acquire (_rate_limiter c) e))),
               {| mono := mono (snd (acquire (_rate_limiter c) e));
                  elapsed := elapsed (snd (acquire (_rate_limiter c) e));
                  responses := rest;
                  requests := (requests e
                               ++ [{| p_model := _model c; p_messages := msgs;
                                      p_temperature := temp;
                                      p_max_tokens := mt |}])%list;
                  smtp := smtp (snd (acquire (_rate_limiter c) e));
                  onebot := onebot (snd (acquire (_rate_limiter c) e));
                  delivered := delivered (snd (acquire (_rate_limiter c) e)) |})).
  { intros msgs temp mt. unfold chat.
    destruct (acquire_returns (_rate_limiter c) e Hrpm) as (slept & rl' & e1 & Hacq).
    pose proof (acquire_frame (_rate_limiter c) e) as [Hr Hq].
    rewrite Hacq in *. cbn [fst snd] in *.
    unfold _post, post_attempts, http_post. rewrite Hr, Hresp, Hq.
    reflexivity. }
  subst out. rewrite (Hchat messages temperature max_tokens).
  cbn [fst snd requests responses].
  split; [reflexivity|]. split; [reflexivity|].
  unfold check_health. rewrite Hchat. cbn [fst].
  split.
  - intros c0 more m x Hchoices Hmsg Hcontent.
    unfold reply_content. rewrite Hchoices. cbn [truthy negb bind subscript_0].
    unfold subscript. rewrite Hmsg. cbn [bind]. rewrite Hcontent.
    split; [reflexivity|]. destruct x; reflexivity.
  - intros [Hnone|Hnone]; unfold reply_content; rewrite Hnone; cbn; auto.
Qed.

Lemma chat_reads_first_choice_witness :
  fst (fst (chat (new_LLMClient (sample_cfg [])) [] 0.3%float 4096
              {| mono := 0; elapsed := [];
                 responses := [Return (reply_body (VStr "ok") [] [])];
                 requests := []; smtp := []; onebot := []; delivered := [] |}))
  = Return (VStr "ok").
Proof.
  destruct (chat_reads_first_choice (new_LLMClient (sample_cfg [])) []
              0.3%float 4096
              {| mono := 0; elapsed := [];
                 responses := [Return (reply_body (VStr "ok") [] [])];
                 requests := []; smtp := []; onebot := []; delivered := [] |}
              _ [] ltac:(vm_compute; discriminate) eq_refl)
    as (_ & _ & Hok & _).
  exact (proj1 (Hok _ _ _ _ eq_refl eq_refl eq_refl)).
Defined.

End ClientFacts.

(** ** More on strings *)

Module PyStrMoreFacts.
Import PyStr PyStrFacts.

(** joining the fields of a split gives the string back *)
Lemma join_split sep s : join (String sep EmptyString) (split sep s) = s.
Proof.
  induction s as [|c s IH]; [reflexivity|]. cbn [split].
  destruct (Ascii.eqb c sep) eqn:Ec.
  - apply Ascii.eqb_eq in Ec. subst c.
    destruct (split sep s) as [|w ws] eqn:E; [now apply split_not_nil in E|].
    change (join (String sep "") ("" :: w :: ws))
      with (String sep (join (String sep "") (w :: ws))).
    now rewrite IH.
  - destruct (split sep s) as [|w ws] eqn:E; [now apply split_not_nil in E|].
    destruct ws as [|w' ws'].
    + cbn in *. now rewrite IH.
    + change (join (String sep "") (String c w :: w' :: ws'))
        with (String c (join (String sep "") (w :: w' :: ws'))).
      now rewrite IH.
Qed.

Lemma lstrip_nonspace c s :
  is_space c = false -> lstrip (String c s) = String c s.
Proof.
  intros Hc.
  change (lstrip (String c s)) with (if is_space c then lstrip s else String c s).
  now rewrite Hc.
Qed.

Lemma rstrip_nonspace x c :
  is_space c = false ->
  rstrip (String.append x (String c EmptyString))
  = String.append x (String c EmptyString).
Proof.
  intros Hc. induction x as [|a x IH].
  - change (String.append "" (String c "")) with (String c "").
    change (rstrip (String c "")) with (if is_space c then "" else String c "").
    now rewrite Hc.
  - change (String.append (String a x) (String c ""))
      with (String a (String.append x (String c ""))).
    change (rstrip (String a (String.append x (String c ""))))
      with (match rstrip (String.append x (String c "")) with
            | EmptyString => if is_space a then "" else String a ""
            | String b r => String a (String b r)
            end).
    rewrite IH. destruct x; reflexivity.
Qed.

Lemma append_nil_l (s : string) : String.append "" s = s.
Proof. reflexivity. Qed.

Lemma append_cons (a : ascii) (x s : string) :
  String.append (String a x) s = String a (String.append x s).
Proof. reflexivity. Qed.

Lemma append_assoc (a b c : string) :
  String.append (String.append a b) c = String.append a (String.append b c).
Proof.
  induction a as [|x a IH]; [reflexivity|].
  rewrite !append_cons. now rewrite IH.
Qed.

Lemma prefix_nil (s : string) : String.prefix "" s = true.
Proof. destruct s; reflexivity. Qed.

Lemma prefix_append (p r : string) : String.prefix p (String.append p r) = true.
Proof.
  induction p as [|a p IH]; [apply prefix_nil|].
  rewrite append_cons. cbn [String.prefix].
  destruct (ascii_dec a a); [exact IH|congruence].
Qed.

Lemma find_from_app c pre rest i :
  contains_char c pre = false ->
  find_from c (String.append pre (String c rest)) i
  = i + Z.of_nat (String.length pre).
Proof.
  revert i. induction pre as [|a pre IH]; intros i Hpre.
  - rewrite append_nil_l. cbn [find_from String.length].
    rewrite Ascii.eqb_refl. cbn. lia.
  - rewrite append_cons. cbn [find_from String.length].
    cbn [contains_char] in Hpre. apply orb_false_iff in Hpre as [Ha Hpre].
    rewrite Ha, (IH _ Hpre). lia.
Qed.

Lemma find_from_none c s i :
  contains_char c s = false -> find_from c s i = -1.
Proof.
  revert i. induction s as [|a s IH]; intros i Hs; [reflexivity|].
  cbn [find_from]. cbn [contains_char] in Hs.
  apply orb_false_iff in Hs as [Ha Hs]. rewrite Ha. now apply IH.
Qed.

Lemma rfind_from_none c s i last :
  contains_char c s = false -> rfind_from c s i last = last.
Proof.
  revert i last. induction s as [|a s IH]; intros i last Hs; [reflexivity|].
  cbn [rfind_from]. cbn [contains_char] in Hs.
  apply orb_false_iff in Hs as [Ha Hs]. rewrite Ha. now apply IH.
Qed.

Lemma rfind_from_app c x post i last :
  contains_char c post = false ->
  rfind_from c (String.append x (String c post)) i last
  = i + Z.of_nat (String.length x).
Proof.
  revert i last. induction x as [|a x IH]; intros i last Hpost.
  - rewrite append_nil_l. cbn [rfind_from String.length].
    rewrite Ascii.eqb_refl, rfind_from_none by assumption. cbn. lia.
  - rewrite append_cons. cbn [rfind_from String.length].
    rewrite (IH _ _ Hpost). lia.
Qed.

Lemma length_append (a b : string) :
  String.length (String.append a b) = (String.length a + String.length b)%nat.
Proof.
  induction a as [|x a IH]; [reflexivity|].
  rewrite append_cons. cbn [String.length]. now rewrite IH.
Qed.

Lemma substring_prefix (b c : string) :
  String.substring 0 (String.length b) (String.append b c) = b.
Proof.
  induction b as [|x b IH].
  - rewrite append_nil_l. destruct c; reflexivity.
  - rewrite append_cons. cbn [String.length String.substring]. now rewrite IH.
Qed.

(** the piece [b] of [a ++ b ++ c] *)
Lemma substring_middle (a b c : string) :
  String.substring (String.length a) (String.length b)
    (String.append a (String.append b c)) = b.
Proof.
  induction a as [|x a IH].
  - rewrite append_nil_l. apply substring_prefix.
  - rewrite append_cons. cbn [String.length String.substring]. exact IH.
Qed.

Lemma last_app_one {A} (l : list A) (x d : A) : List.last (l ++ [x])%list d = x.
Proof. apply last_last. Qed.

End PyStrMoreFacts.

(** ** Extracting JSON from a reply *)

Module ExtractFacts.
Import Py PyStr PyStrFacts PyStrMoreFacts Llm MoreSpecDefs Samples MoreSamples.

Section Extract.
Context `{Runtime}.

Lemma extract_unfenced text :
  startswith (strip text) fence = false ->
  _extract_json (VStr text) = parse_stripped (strip text).
Proof. intros Hno. unfold _extract_json. now rewrite Hno. Qed.

Lemma fenced_lines lang body :
  contains_char newline lang = false ->
  split newline
    (String.append fence
       (String.append lang
          (String newline (String.append body (String newline fence)))))
  = (String.append fence lang :: split newline body ++ [fence])%list.
Proof.
  intros Hlang.
  rewrite <- append_assoc.
  rewrite split_app_sep.
  2:{ clear -Hlang. cbn. exact Hlang. }
  rewrite split_app. reflexivity.
Qed.

(** X7. A reply wrapped in a code fence, with or without a language
    tag on the opening line, is read as the text between the two fence
    lines: [_extract_json] gives for it what it gives for that text
    alone. *)
Theorem extract_json_fenced (lang body : string) :
  contains_char newline lang = false ->
  startswith (strip body) fence = false ->
  _extract_json
    (VStr (String.append fence
             (String.append lang
                (String newline (String.append body (String newline fence))))))
  = _extract_json (VStr body).
Proof.
  intros Hlang Hbody.
  set (text := String.append fence
                 (String.append lang
                    (String newline (String.append body (String newline fence))))).
  assert (Hstrip : strip text = text).
  { unfold strip.
    assert (Hl : lstrip text = text) by (apply lstrip_nonspace; reflexivity).
    rewrite Hl.
    assert (Hend : text
                   = String.append
                       (String.append fence
                          (String.append lang
                             (String newline
                                (String.append body (String newline "``")))))
                       "`").
    { unfold text. rewrite !append_assoc. do 2 f_equal.
      rewrite !append_cons, !append_assoc. reflexivity. }
    rewrite Hend. apply rstrip_nonspace. reflexivity. }
  rewrite (extract_unfenced body Hbody).
  unfold _extract_json. rewrite Hstrip.
  assert (Hstart : startswith text fence = true) by apply prefix_append.
  rewrite Hstart. unfold text. rewrite (fenced_lines lang body Hlang).
  assert (Hfirst : startswith (String.append fence lang) fence = true)
    by apply prefix_append.
  rewrite Hfirst.
  destruct (split newline body) as [|w ws] eqn:Esplit;
    [now apply split_not_nil in Esplit|].
  change ((w :: ws) ++ [fence])%list with (w :: (ws ++ [fence]))%list.
  cbv iota.
  change (w :: (ws ++ [fence]))%list with ((w :: ws) ++ [fence])%list.
  rewrite last_app_one.
  change (String.eqb (strip fence) fence) with true. cbv iota.
  rewrite removelast_last, <- Esplit, join_split.
  reflexivity.
Qed.

(** X8. When the stripped text is no JSON by itself, [_extract_json]
    tries the piece that runs from the first opening brace to the last
    closing brace, both included, and nothing else: it returns the value
    of that piece, raises [ValueError] when the piece is no JSON either,
    and lets any other exception of [json.loads] through; without such a
    pair of braces it raises [ValueError]. *)
Theorem extract_json_embedded (text pre mid post : string) :
  startswith (strip text) fence = false ->
  json_loads (strip text) = NotJSON ->
  (strip text
   = String.append pre
       (String.append (String "{" (String.append mid "}")) post) ->
   contains_char "{" pre = false ->
   contains_char "}" post = false ->
   _extract_json (VStr text)
   = match json_loads (String "{" (String.append mid "}")) with
     | Loaded v => Return v
     | NotJSON => Raise ValueError
     | LoadFails ex => Raise ex
     end) /\
  (contains_char "{" (strip text) = false \/
   contains_char "}" (strip text) = false ->
   _extract_json (VStr text) = Raise ValueError).
Proof.
  intros Hfence Hdirect. rewrite (extract_unfenced text Hfence).
  unfold parse_stripped. rewrite Hdirect. split.
  - intros Ht Hpre Hpost. rewrite Ht.
    set (piece := String "{" (String.append mid "}")).
    assert (Hstart : find (String.append pre (String.append piece post)) "{"
                     = Z.of_nat (String.length pre)).
    { unfold find, piece. rewrite append_cons.
      rewrite (find_from_app _ _ _ _ Hpre). lia. }
    assert (Hend : rfind (String.append pre (String.append piece post)) "}"
                   = Z.of_nat (String.length pre + String.length piece - 1)).
    { unfold rfind, piece.
      assert (Hshape : String.append pre
                         (String.append (String "{" (String.append mid "}")) post)
                       = String.append
                           (String.append pre (String "{" mid))
                           (String "}" post)).
      { repeat (rewrite ?append_assoc, ?append_cons, ?append_nil_l).
        reflexivity. }
      rewrite Hshape, (rfind_from_app _ _ _ _ _ Hpost).
      rewrite !length_append. cbn [String.length].
      rewrite length_append. cbn [String.length]. lia. }
    rewrite Hstart, Hend.
    assert (Hlen : (1 <= String.length piece)%nat) by (unfold piece; cbn; lia).
    assert (Hcond : negb (Z.of_nat (String.length pre) =? -1)
                    && negb (Z.of_nat (String.length pre + String.length piece - 1)
                             =? -1)
                    && (Z.of_nat (String.length pre)
                        <? Z.of_nat (String.length pre + String.length piece - 1))
                    = true).
    { unfold piece in *. cbn [String.length] in *.
      rewrite length_append in *. cbn [String.length] in *.
      repeat (apply andb_true_iff; split);
        try (apply negb_true_iff, Z.eqb_neq; lia).
      apply Z.ltb_lt. lia. }
    rewrite Hcond. unfold slice.
    replace (Z.to_nat (Z.of_nat (String.length pre))) with (String.length pre)
      by lia.
    replace (Z.to_nat (Z.of_nat (String.length pre + String.length piece - 1)
                       + 1 - Z.of_nat (String.length pre)))
      with (String.length piece) by lia.
    rewrite substring_middle. reflexivity.
  - intros [Hnone|Hnone].
    + unfold find. rewrite (find_from_none _ _ _ Hnone). reflexivity.
    + unfold rfind. rewrite (rfind_from_none _ _ _ _ Hnone).
      rewrite andb_false_r. reflexivity.
Qed.

(** X9. On a string [_extract_json] raises [ValueError], the exception
    [summarize_one] answers with a repair attempt, or else an exception
    that [json.loads] raised on a piece of the text and that is no
    [JSONDecodeError] (a [RecursionError] on deeply nested text, say),
    which it lets through; so where [json.loads] fails by
    [JSONDecodeError] only, nothing but [ValueError] is raised.  On a
    reply that is no string it raises [AttributeError]; and a value it
    returns is always one that [json.loads] produced. *)
Theorem extract_json_outcomes (raw : pyval) :
  (forall ex, _extract_json raw = Raise ex ->
     match raw with
     | VStr _ => ex = ValueError \/ exists piece, json_loads piece = LoadFails ex
     | _ => ex = AttributeError
     end) /\
  ((forall piece ex, json_loads piece <> LoadFails ex) ->
   forall text ex, raw = VStr text -> _extract_json raw = Raise ex ->
                   ex = ValueError) /\
  (forall v, _extract_json raw = Return v ->
     exists text piece, raw = VStr text /\ json_loads piece = Loaded v).
Proof.
  assert (Hraise : forall ex, _extract_json raw = Raise ex ->
            match raw with
            | VStr _ =>
                ex = ValueError \/ exists piece, json_loads piece = LoadFails ex
            | _ => ex = AttributeError
            end).
  { unfold _extract_json. destruct raw as [| | | |text| |];
      try (intros ex [= <-]; reflexivity).
    set (t := if startswith (strip text) fence then _ else strip text).
    clearbody t. intros ex.
    destruct (json_loads t) as [v0| |x0] eqn:E0.
    - intros Hx. discriminate Hx.
    - destruct (negb (find t "{" =? -1) && negb (rfind t "}" =? -1)
                && (find t "{" <? rfind t "}")).
      + destruct (json_loads (slice t (find t "{") (rfind t "}" + 1)))
          as [v1| |x1] eqn:E1.
        * intros Hx. discriminate Hx.
        * intros [= <-]. now left.
        * intros [= <-]. right. eauto.
      + intros [= <-]. now left.
    - intros [= <-]. right. eauto. }
  split; [exact Hraise|]. split.
  - intros Hclean text ex -> Hex. apply Hraise in Hex.
    destruct Hex as [Hex|[piece Hpiece]]; [exact Hex|].
    now apply Hclean in Hpiece.
  - unfold _extract_json. destruct raw as [| | | |text| |];
      try (intros v Hv; discriminate Hv).
    set (t := if startswith (strip text) fence then _ else strip text).
    clearbody t. intros v.
    destruct (json_loads t) as [v0| |x0] eqn:E0.
    + intros [= <-]. eauto.
    + destruct (negb (find t "{" =? -1) && negb (rfind t "}" =? -1)
                && (find t "{" <? rfind t "}")).
      * destruct (json_loads (slice t (find t "{") (rfind t "}" + 1)))
          as [v1| |x1] eqn:E1.
        -- intros [= <-]. eauto.
        -- intros Hv. discriminate Hv.
        -- intros Hv. discriminate Hv.
      * intros Hv. discriminate Hv.
    + intros Hv. discriminate Hv.
Qed.

End Extract.

Lemma extract_json_fenced_witness :
  @_extract_json empty_object_codec
    (VStr (String.append fence
             (String.append "json"
                (String newline (String.append "{}" (String newline fence))))))
  = Return (VDict []).
Proof.
  rewrite (@extract_json_fenced empty_object_codec "json" "{}" eq_refl eq_refl).
  reflexivity.
Defined.

Lemma extract_json_embedded_witness :
  @_extract_json empty_object_codec (VStr "Sure: {} ok") = Return (VDict []).
Proof.
  exact (proj1 (@extract_json_embedded empty_object_codec
                  "Sure: {} ok" "Sure: " "" " ok" eq_refl eq_refl)
           eq_refl eq_refl eq_refl).
Defined.

End ExtractFacts.

(** ** More on the summarization engine *)

Module EngineFacts.
Import Py World Db Llm Summarizer SpecDefs MoreSpecDefs Samples ValidateFacts
       FrameFacts LimiterFacts ClientFacts.

(* evaluate comparisons of literal keys and lookups in [defaults] *)
Ltac eval_literal_keys :=
  repeat match goal with
  | |- context [String.eqb ?a ?b] =>
      let r := eval vm_compute in (String.eqb a b) in
      change (String.eqb a b) with r
  | |- context [dict_get defaults ?k] =>
      let r := eval vm_compute in (dict_get defaults k) in
      change (dict_get defaults k) with r
  end; cbv beta iota.

Section Engine.
Context `{Runtime}.

Lemma fill_default_valid s item :
  (forall v, dict_get s (fst item) = Some v -> truthy v = true) ->
  is_Some (dict_get s (fst item)) ->
  fill_default s item = s.
Proof.
  destruct item as [key default]. cbn [fst]. intros Hv [v Hget].
  unfold fill_default. rewrite Hget, (Hv v Hget). reflexivity.
Qed.

Lemma validate_valid (data : pydict) : valid_summary (_validate_summary data).
Proof.
  split; [|split].
  - intros key Hkey. rewrite validate_get.
    destruct (String.eqb key "links") eqn:El.
    { eexists. split; [reflexivity|].
      apply normal_links_truthy. now apply filled_truthy. }
    destruct (String.eqb key "contributions_zh") eqn:Ec.
    { eexists. split; [reflexivity|].
      apply normal_contributions_truthy. now apply filled_truthy. }
    cbn in Hkey.
    repeat (destruct Hkey as [<-|Hkey];
            [first [discriminate El | discriminate Ec
                   | eval_literal_keys; eexists; split; [reflexivity|];
                     now apply filled_truthy]|]).
    destruct Hkey.
  - rewrite validate_get. eval_literal_keys.
    destruct (filled data "contributions_zh" (VList [VStr "unknown"]));
      cbn; eauto.
  - rewrite validate_get. eval_literal_keys.
    destruct (filled data "links" default_links); cbn; eauto.
Qed.

(** X10. A summary that already has the nine fields truthy, a list of
    contributions and a mapping of links passes [_validate_summary]
    unchanged; what [_validate_summary] returns has that shape; so
    validating twice is validating once. *)
Theorem validate_summary_idempotent (data : pydict) :
  (valid_summary data -> _validate_summary data = data) /\
  valid_summary (_validate_summary data) /\
  _validate_summary (_validate_summary data) = _validate_summary data.
Proof.
  assert (Hfix : forall s, valid_summary s -> _validate_summary s = s).
  { intros s (Hall & [lc Hc] & [ll Hl]). unfold _validate_summary.
    assert (Hfold : fold_left fill_default defaults s = s).
    { assert (Hitems : forall ds,
                (forall item, In item ds -> In (fst item) (List.map fst defaults)) ->
                fold_left fill_default ds s = s).
      { induction ds as [|item ds IH]; intros Hds; [reflexivity|].
        cbn [fold_left]. rewrite fill_default_valid.
        - apply IH. intros it Hit. apply Hds. now right.
        - intros v Hv. destruct (Hall _ (Hds item (or_introl eq_refl)))
            as (v' & Hv' & Ht). congruence.
        - destruct (Hall _ (Hds item (or_introl eq_refl))) as (v' & Hv' & _).
          eauto. }
      apply Hitems. intros item Hitem. now apply in_map. }
    rewrite Hfold, Hc, Hl. reflexivity. }
  split; [apply Hfix|]. split; [apply validate_valid|].
  apply Hfix, validate_valid.
Qed.

End Engine.

Lemma validate_summary_idempotent_witness :
  @_validate_summary offline (@minimal_summary offline sample_paper)
  = @minimal_summary offline sample_paper.
Proof.
  apply (proj1 (@validate_summary_idempotent offline
                  (@minimal_summary offline sample_paper))).
  apply (@validate_valid offline).
Defined.

Section Tasks.
Context `{Runtime}.

Lemma chat_requests c messages temperature max_tokens e :
  (length (requests (snd (chat c messages temperature max_tokens e)))
   <= length (requests e) + 3)%nat.
Proof.
  unfold chat. pose proof (acquire_frame (_rate_limiter c) e) as [_ Hq].
  destruct (acquire (_rate_limiter c) e) as [[r rl] e1]. cbn [snd] in Hq.
  destruct r as [slept|ex]; [|cbn [snd]; rewrite Hq; lia].
  match goal with
  | |- context [_post ?payload e1] =>
      destruct (post_attempts_spec payload e1) as (k & Hk & Hreq & _);
      destruct (_post payload e1) as [r2 e2]
  end.
  cbn [snd] in *. destruct r2; cbn [snd];
    rewrite Hreq, length_app, repeat_length, Hq; lia.
Qed.

Lemma chat_json_snd c messages temperature max_tokens e :
  snd (chat_json c messages temperature max_tokens e)
  = snd (chat c messages temperature max_tokens e).
Proof.
  unfold chat_json.
  destruct (chat c messages temperature max_tokens e) as [[r c'] e'].
  destruct r; reflexivity.
Qed.

Lemma validate_py_valid (r : outcome pyval) s :
  bind r _validate_summary_py = Return s -> valid_summary s.
Proof.
  destruct r as [v|ex]; [|discriminate]. cbn [bind].
  destruct v as [| | | | | |d]; try discriminate.
  unfold _validate_summary_py. intros Heq.
  apply (f_equal (fun o => match o with Return x => x | Raise _ => s end)) in Heq.
  cbv beta iota in Heq. rewrite <- Heq. apply validate_valid.
Qed.

Lemma summarize_one_outcome c paper e :
  match fst (fst (summarize_one c paper e)) with
  | Return s => valid_summary s
  | Raise ex => is_ValueError ex = false
  end /\
  (length (requests (snd (summarize_one c paper e)))
   <= length (requests e) + 9)%nat.
Proof.
  unfold summarize_one.
  pose proof (chat_requests c (_build_messages paper) temperature_json 4096 e)
    as Hq1.
  rewrite <- chat_json_snd in Hq1.
  destruct (chat_json c (_build_messages paper) temperature_json 4096 e)
    as [[r c1] e1]. cbn [snd] in Hq1.
  destruct (bind r _validate_summary_py) as [s|ex] eqn:Er.
  { cbn [fst snd]. split; [now apply validate_py_valid in Er|lia]. }
  destruct (is_ValueError ex) eqn:Ev; cbn [negb].
  2:{ cbn [fst snd]. split; [exact Ev|lia]. }
  pose proof (chat_requests c1 (_build_messages paper) temperature_chat 4096 e1)
    as Hq2.
  destruct (chat c1 (_build_messages paper) temperature_chat 4096 e1)
    as [[raw c2] e2]. cbn [snd] in Hq2.
  destruct raw as [raw|ex2].
  2:{ cbn [fst snd]. split; [apply validate_valid|lia]. }
  destruct (_build_repair_messages raw) as [msgs|ex3].
  2:{ cbn [fst snd]. split; [apply validate_valid|lia]. }
  pose proof (chat_requests c2 msgs temperature_json 4096 e2) as Hq3.
  rewrite <- chat_json_snd in Hq3.
  destruct (chat_json c2 msgs temperature_json 4096 e2) as [[r3 c3] e3].
  cbn [snd] in Hq3.
  destruct (bind r3 _validate_summary_py) as [s3|ex4] eqn:Er3; cbn [fst snd].
  - split; [now apply validate_py_valid in Er3|lia].
  - split; [apply validate_valid|lia].
Qed.

(** X11. [summarize_one] never raises [ValueError]: a reply that cannot
    be parsed is answered inside it, with the repaired reply or the
    minimal summary.  Every summary it returns has the validated shape,
    and one paper costs at most nine HTTP requests (three calls of three
    attempts). *)
Theorem summarize_one_contains_parse_errors (c : LLMClient) (paper : Paper)
    (e : Env) :
  (forall ex, fst (fst (summarize_one c paper e)) = Raise ex ->
              ex <> ValueError) /\
  (forall s, fst (fst (summarize_one c paper e)) = Return s ->
             valid_summary s) /\
  (length (requests (snd (summarize_one c paper e)))
   <= length (requests e) + 9)%nat.
Proof.
  destruct (summarize_one_outcome c paper e) as [Hout Hreq].
  split; [|split; [|exact Hreq]].
  - intros ex Hex. rewrite Hex in Hout. intros ->. discriminate.
  - intros s Hs. now rewrite Hs in Hout.
Qed.

Lemma set_links_stored s paper :
  valid_summary s ->
  exists s', set_links s paper = Return s' /\ stored_for paper s'.
Proof.
  intros (Hall & Hc & [links Hl]). unfold set_links, dict_contains.
  rewrite Hl, Hl.
  eexists. split; [reflexivity|]. split; [split; [|split]|].
  - intros key Hkey. destruct (String.eqb_spec key "links") as [->|Hne].
    + rewrite dict_get_set_eq. eexists. split; [reflexivity|].
      cbn [truthy].
      destruct (dict_set (dict_set links "abs" (VStr (abs_url paper))) "pdf"
                  (VStr (pdf_url paper))) eqn:E; [|reflexivity].
      destruct (dict_set links "abs" (VStr (abs_url paper))) as [|[k v] d];
        cbn in E; [discriminate|].
      destruct (String.eqb k "pdf"); discriminate.
    + rewrite dict_get_set_ne by congruence. now apply Hall.
  - rewrite dict_get_set_ne by discriminate. exact Hc.
  - rewrite dict_get_set_eq. eauto.
  - eexists. split; [apply dict_get_set_eq|]. split.
    + rewrite dict_get_set_ne by discriminate. apply dict_get_set_eq.
    + apply dict_get_set_eq.
Qed.

Lemma do_one_effect paper db c e :
  let db' := fst (fst (snd (_do_one paper (db, c, e)))) in
  db' = db \/
  exists s, db' = save_summary db (arxiv_id paper) s /\ stored_for paper s.
Proof.
  unfold _do_one.
  destruct (summarize_one_outcome c paper e) as [Hout _].
  destruct (summarize_one c paper e) as [[r c1] e1]. cbn [fst] in Hout.
  destruct r as [s|ex]; cbn [bind].
  - destruct (set_links_stored s paper Hout) as (s' & Hset & Hstored).
    rewrite Hset. cbn. right. eauto.
  - cbn. now left.
Qed.

Lemma gather_effect tasks : forall db c e,
  let db' := fst (fst (snd (gather tasks (db, c, e)))) in
  papers db' = papers db /\ runs db' = runs db /\
  forall id,
    get_summary db' id = get_summary db id \/
    exists p s, In p tasks /\ arxiv_id p = id /\
                get_summary db' id = Some s /\ stored_for p s.
Proof.
  induction tasks as [|p rest IH]; intros db c e.
  - cbn. auto.
  - cbn [gather].
    pose proof (do_one_effect p db c e) as Hone.
    destruct (_do_one p (db, c, e)) as [r [[db1 c1] e1]]. cbn [fst snd] in Hone.
    specialize (IH db1 c1 e1).
    destruct (gather rest (db1, c1, e1)) as [rs [[db2 c2] e2]].
    cbn [fst snd] in *. destruct IH as (Hp & Hr & Hsum).
    assert (Hframe : papers db1 = papers db /\ runs db1 = runs db).
    { destruct Hone as [->|(s & -> & _)]; auto. }
    destruct Hframe as [Hp1 Hr1].
    split; [congruence|]. split; [congruence|].
    intros id. destruct (Hsum id) as [Hsame|(q & s & Hq & Hid & Hget & Hst)].
    + rewrite Hsame. destruct Hone as [->|(s & -> & Hst)]; [now left|].
      destruct (String.eqb_spec (arxiv_id p) id) as [Heq|Hne].
      * right. exists p, s. split; [now left|]. split; [exact Heq|].
        split; [|exact Hst]. unfold get_summary, save_summary. cbn [summaries].
        rewrite Heq. apply lookup_insert_eq.
      * left. unfold get_summary, save_summary. cbn [summaries].
        now rewrite lookup_insert_ne.
    + right. exists q, s. split; [now right|]. auto.
Qed.

(** what [summarize_papers] does to the store *)
Lemma summarize_papers_spec (papers0 : list Paper) (db : Database)
    (cfg : Config.Settings) (e : Env) :
  let out := fst (fst (summarize_papers papers0 db cfg e)) in
  let db' := snd (fst (summarize_papers papers0 db cfg e)) in
  let e' := snd (summarize_papers papers0 db cfg e) in
  papers db' = papers db /\ runs db' = runs db /\
  List.map s_paper out = papers0 /\
  (forall id, has_summary db id = true ->
              get_summary db' id = get_summary db id) /\
  (forall id,
     get_summary db' id = get_summary db id \/
     exists p s, In p papers0 /\ arxiv_id p = id /\ has_summary db id = false /\
                 get_summary db' id = Some s /\ stored_for p s) /\
  ((forall p, In p papers0 -> has_summary db (arxiv_id p) = true) ->
   db' = db /\ e' = e).
Proof.
  cbv zeta.
  assert (Hpairs : List.map s_paper (fst (fst (summarize_papers papers0 db cfg e)))
                   = papers0).
  { unfold summarize_papers.
    destruct (gather _ _) as [results [[db1 c1] e1]]. cbn [fst].
    rewrite List.map_map. induction papers0 as [|p ps IH]; [reflexivity|].
    cbn [List.map]. f_equal; [|exact IH].
    unfold collect. destruct (get_summary db1 (arxiv_id p)) as [s|]; [|reflexivity].
    destruct (truthy (VDict s)); reflexivity. }
  unfold summarize_papers in *.
  set (todo := List.filter (fun p => negb (has_summary db (arxiv_id p))) papers0)
    in *.
  pose proof (gather_effect todo db (new_LLMClient cfg) e) as Heff.
  assert (Hnone : (forall p, In p papers0 -> has_summary db (arxiv_id p) = true) ->
                  todo = []).
  { intros Hall. unfold todo. apply LimiterFacts.filter_none.
    intros p Hp. now rewrite (Hall p Hp). }
  destruct (gather todo (db, new_LLMClient cfg, e)) as [results [[db1 c1] e1]] eqn:Eg.
  cbn [fst snd] in *. destruct Heff as (Hp & Hr & Hsum).
  assert (Hadded : forall id,
            get_summary db1 id = get_summary db id \/
            exists p s, In p papers0 /\ arxiv_id p = id /\
                        has_summary db id = false /\
                        get_summary db1 id = Some s /\ stored_for p s).
  { intros id. destruct (Hsum id) as [Hsame|(p & s & Hin & Hid & Hget & Hst)];
      [now left|right].
    unfold todo in Hin. apply filter_In in Hin as [Hin Hnew].
    apply negb_true_iff in Hnew. rewrite Hid in Hnew.
    exists p, s. auto. }
  split; [exact Hp|]. split; [exact Hr|]. split; [exact Hpairs|].
  split; [|split; [exact Hadded|]].
  - intros id Hcached.
    destruct (Hadded id) as [Hsame|(p & s & _ & _ & Hnew & _)];
      [exact Hsame|congruence].
  - intros Hall. rewrite (Hnone Hall) in Eg. cbn in Eg.
    injection Eg as _ <- _ <-. split; reflexivity.
Qed.

(** X12. [summarize_papers] leaves the papers and the runs alone and
    never replaces a summary that was cached; every summary it adds
    belongs to an input paper without cached summary and has the
    validated shape with that paper's own two links; the result lists the
    input papers in order; and when every input paper is cached, no
    request is made and store and environment stay as they were. *)
Theorem summarize_papers_effect (papers0 : list Paper) (db : Database)
    (cfg : Config.Settings) (e : Env) :
  let out := fst (fst (summarize_papers papers0 db cfg e)) in
  let db' := snd (fst (summarize_papers papers0 db cfg e)) in
  let e' := snd (summarize_papers papers0 db cfg e) in
  papers db' = papers db /\ runs db' = runs db /\
  List.map s_paper out = papers0 /\
  (forall id, has_summary db id = true ->
              get_summary db' id = get_summary db id) /\
  (forall id,
     get_summary db' id = get_summary db id \/
     exists p s, In p papers0 /\ arxiv_id p = id /\ has_summary db id = false /\
                 get_summary db' id = Some s /\ stored_for p s) /\
  ((forall p, In p papers0 -> has_summary db (arxiv_id p) = true) ->
   db' = db /\ e' = e).
Proof. apply summarize_papers_spec. Qed.

End Tasks.

End EngineFacts.

(** ** More on pushing *)

Module ChannelFacts.
Import Py World Push Cli SpecDefs Samples PushFacts.

Lemma results_set_keys (results : results_t) key ok :
  (In key (List.map fst results) /\
   List.map fst (results_set results key ok) = List.map fst results) \/
  (~ In key (List.map fst results) /\
   List.map fst (results_set results key ok)
   = (List.map fst results ++ [key])%list).
Proof.
  induction results as [|[k b] rest IH]; [right; split; [intros []|reflexivity]|].
  cbn [results_set List.map fst].
  destruct (String.eqb_spec k key) as [->|Hne].
  - left. split; [now left|reflexivity].
  - cbn [List.map fst]. destruct IH as [[Hin Heq]|[Hnin Heq]].
    + left. split; [now right|]. now rewrite Heq.
    + right. split; [|now rewrite Heq].
      intros [Hk|Hin]; [congruence|contradiction].
Qed.

Lemma results_set_true (results : results_t) key ok c :
  In (c, true) (results_set results key ok) ->
  (c = key /\ ok = true) \/ In (c, true) results.
Proof.
  induction results as [|[k b] rest IH]; cbn [results_set].
  - intros [[= <- <-]|[]]. now left.
  - destruct (String.eqb_spec k key) as [->|Hne].
    + intros [[= <- <-]|Hin]; [now left|right; now right].
    + intros [Heq|Hin]; [right; now left|].
      destruct (IH Hin) as [Hk|Hr]; [now left|right; now right].
Qed.

(** one turn of the loop, whatever is in the mapping already *)
Lemma push_one_shape cfg channel results e :
  exists ok,
    fst (push_one cfg channel (results, e))
    = results_set results (channel_key channel) ok /\
    (ok = true ->
     (channel_key channel = "email" /\ Config.email_configured cfg = true) \/
     (channel_key channel = "qq" /\ Config.qq_configured cfg = Return true)) /\
    (Config.email_configured cfg = false ->
     smtp (snd (push_one cfg channel (results, e))) = smtp e) /\
    responses (snd (push_one cfg channel (results, e))) = responses e /\
    requests (snd (push_one cfg channel (results, e))) = requests e /\
    mono (snd (push_one cfg channel (results, e))) = mono e.
Proof.
  unfold push_one. fold (channel_key channel).
  destruct (String.eqb_spec (channel_key channel) "email") as [Heq|Hne].
  - rewrite Heq. destruct (Config.email_configured cfg) eqn:Ecfg; cbn [negb].
    + unfold send_email. destruct (smtp e) as [|[u|ex] rs]; cbn [fst snd].
      * exists false. repeat split; auto; discriminate.
      * exists true. repeat split; auto; discriminate.
      * exists false. repeat split; auto; discriminate.
    + exists false. cbn [fst snd]. repeat split; auto; discriminate.
  - destruct (String.eqb_spec (channel_key channel) "qq") as [Heq|Hne2].
    + rewrite Heq. destruct (Config.qq_configured cfg) as [[|]|ex] eqn:Ecfg.
      * unfold send_qq. destruct (onebot e) as [|[u|ex] rs]; cbn [fst snd].
        -- exists false. repeat split; auto; discriminate.
        -- exists true. repeat split; auto.
        -- exists false. repeat split; auto; discriminate.
      * exists false. cbn [fst snd]. repeat split; auto; discriminate.
      * exists false. cbn [fst snd]. repeat split; auto; discriminate.
    + exists false. cbn [fst snd]. repeat split; auto; discriminate.
Qed.

(** the properties of the mapping that every turn keeps *)
Lemma push_loop_shape cfg channels : forall results e,
  let out := fold_left (fun st ch => push_one cfg ch st) channels (results, e) in
  (forall c, In (c, true) (fst out) ->
     In (c, true) results \/
     (In c (List.map channel_key channels) /\
      ((c = "email" /\ Config.email_configured cfg = true) \/
       (c = "qq" /\ Config.qq_configured cfg = Return true)))) /\
  (forall c, In c (List.map fst (fst out)) ->
     In c (List.map fst results) \/ In c (List.map channel_key channels)) /\
  (NoDup (List.map fst results) -> NoDup (List.map fst (fst out))) /\
  (Config.email_configured cfg = false -> smtp (snd out) = smtp e) /\
  responses (snd out) = responses e /\
  requests (snd out) = requests e /\
  mono (snd out) = mono e.
Proof.
  induction channels as [|ch rest IH]; intros results e.
  - cbn. repeat split; auto.
  - cbn [fold_left].
    destruct (push_one_shape cfg ch results e)
      as (ok & Hres & Hok & Hsmtp & Hresp & Hreq & Hmono).
    destruct (push_one cfg ch (results, e)) as [results1 e1].
    cbn [fst snd] in *. subst results1.
    specialize (IH (results_set results (channel_key ch) ok) e1).
    cbv zeta in IH. destruct IH as (Htrue & Hkeys & Hnd & Hs & Hr & Hq & Hm).
    cbv zeta. split; [|split; [|split; [|split; [|split; [|split]]]]].
    + intros c Hc. destruct (Htrue c Hc) as [Hin|[Hin Hcase]].
      * apply results_set_true in Hin as [[-> ->]|Hin]; [|now left].
        right. split; [now left|]. destruct (Hok eq_refl) as [[-> ?]|[-> ?]]; auto.
      * right. split; [now right|exact Hcase].
    + intros c Hc. destruct (Hkeys c Hc) as [Hin|Hin]; [|right; now right].
      destruct (results_set_keys results (channel_key ch) ok)
        as [[_ Heq]|[_ Heq]]; rewrite Heq in Hin; [now left|].
      apply in_app_or in Hin as [Hin|[<-|[]]]; [now left|right; now left].
    + intros Hnd0. apply Hnd.
      destruct (results_set_keys results (channel_key ch) ok)
        as [[_ Heq]|[E Heq]]; rewrite Heq; [exact Hnd0|].
      apply NoDup_app. split; [exact Hnd0|].
      split; [|apply NoDup_singleton].
      intros x Hx Hx2. apply list_elem_of_In in Hx, Hx2.
      destruct Hx2 as [<-|[]]. contradiction.
    + intros Hcfg. rewrite (Hs Hcfg). now apply Hsmtp.
    + congruence.
    + congruence.
    + congruence.
Qed.

(** every configured channel gets its entry, and entries stay *)
Lemma push_loop_keys cfg channels : forall results e,
  let out := fold_left (fun st ch => push_one cfg ch st) channels (results, e) in
  (forall c, In c (List.map fst results) -> In c (List.map fst (fst out))) /\
  (forall ch, In ch channels -> In (channel_key ch) (List.map fst (fst out))).
Proof.
  induction channels as [|ch rest IH]; intros results e.
  - cbn. split; [auto|intros ch []].
  - cbn [fold_left].
    destruct (push_one_shape cfg ch results e) as (ok & Hres & _).
    destruct (push_one cfg ch (results, e)) as [results1 e1].
    cbn [fst snd] in *. subst results1.
    specialize (IH (results_set results (channel_key ch) ok) e1).
    cbv zeta in IH |- *. destruct IH as [Hstay Hall].
    assert (Hstep : forall c,
              In c (List.map fst results) \/ c = channel_key ch ->
              In c (List.map fst (results_set results (channel_key ch) ok))).
    { intros c Hc.
      destruct (results_set_keys results (channel_key ch) ok)
        as [[Hin Heq]|[_ Heq]]; rewrite Heq.
      - destruct Hc as [Hc| ->]; assumption.
      - apply in_or_app. destruct Hc as [Hc| ->]; [now left|right; now left]. }
    split.
    + intros c Hc. apply Hstay, Hstep. now left.
    + intros c [<-|Hc]; [|now apply Hall].
      apply Hstay, Hstep. now right.
Qed.

(** X13. Whatever is configured, the mapping [push_digest] returns has
    one entry for each configured channel, under its stripped lower-case
    name, and no other entry; it reports success only for the channels
    [email] and [qq], and only when they are configured, so every other
    name is mapped to [False]; with mail not configured no mail is
    attempted; and the model gateway and the clock are not touched. *)
Theorem push_digest_reports (md txt run_date : string)
    (cfg : Config.Settings) (e : Env) :
  let out := Push.push_digest md txt run_date cfg e in
  (forall c, In c (List.map fst (fst out)) <->
             In c (List.map channel_key (Config.push_channels cfg))) /\
  NoDup (List.map fst (fst out)) /\
  (forall c, In (c, true) (fst out) ->
     (c = "email" /\ Config.email_configured cfg = true) \/
     (c = "qq" /\ Config.qq_configured cfg = Return true)) /\
  (forall c ok, In (c, ok) (fst out) -> c <> "email" -> c <> "qq" ->
                ok = false) /\
  (Config.email_configured cfg = false -> smtp (snd out) = smtp e) /\
  responses (snd out) = responses e /\
  requests (snd out) = requests e /\
  mono (snd out) = mono e.
Proof.
  assert (Hmain :
    let out := Push.push_digest md txt run_date cfg e in
    (forall c, In c (List.map fst (fst out)) <->
               In c (List.map channel_key (Config.push_channels cfg))) /\
    NoDup (List.map fst (fst out)) /\
    (forall c, In (c, true) (fst out) ->
       (c = "email" /\ Config.email_configured cfg = true) \/
       (c = "qq" /\ Config.qq_configured cfg = Return true)) /\
    (Config.email_configured cfg = false -> smtp (snd out) = smtp e) /\
    responses (snd out) = responses e /\
    requests (snd out) = requests e /\
    mono (snd out) = mono e).
  { unfold Push.push_digest.
    destruct (Config.push_channels cfg) as [|ch rest] eqn:Ech.
    - cbn. repeat split; auto; try tauto. constructor.
    - pose proof (push_loop_shape cfg (ch :: rest) [] e) as Hloop.
      pose proof (push_loop_keys cfg (ch :: rest) [] e) as [_ Hall].
      cbv zeta in Hloop, Hall |- *.
      destruct Hloop as (Htrue & Hkeys & Hnd & Hs & Hr & Hq & Hm).
      split; [|split; [|split; [|split; [|split; [|split]]]]]; auto.
      + intros c. split.
        * intros Hc. destruct (Hkeys c Hc) as [[]|Hin]. exact Hin.
        * intros Hc. apply in_map_iff in Hc as (ch0 & <- & Hch0).
          now apply Hall.
      + apply Hnd. constructor.
      + intros c Hc. destruct (Htrue c Hc) as [[]|[_ Hcase]]. exact Hcase. }
  cbv zeta in Hmain |- *.
  destruct Hmain as (Hkeys & Hnd & Htrue & Hs & Hr & Hq & Hm).
  split; [exact Hkeys|]. split; [exact Hnd|]. split; [exact Htrue|].
  split; [|auto].
  intros c ok Hin Hemail Hqq. destruct ok; [|reflexivity].
  destruct (Htrue c Hin) as [[Hc _]|[Hc _]]; contradiction.
Qed.

End ChannelFacts.

(** ** More on the run controller *)

Module RunFacts.
Import Py Db World Cli PyStr PyStrFacts SpecDefs MoreSpecDefs Samples MoreSamples
       DbFacts CliFacts StoreFacts EngineFacts.

Lemma upsert_papers_from_grows ps : forall acc db now,
  let db' := snd (upsert_papers_from acc db ps now) in
  (exists added, papers db' = (papers db ++ added)%list) /\
  summaries db' = summaries db /\ runs db' = runs db /\
  (forall p, In p ps -> has_paper db' (arxiv_id p) = true).
Proof.
  induction ps as [|p ps IH]; intros acc db now.
  - cbn. split; [exists []; now rewrite app_nil_r|]. repeat split. intros p [].
  - cbn [upsert_papers_from]. unfold upsert_paper.
    destruct (has_paper db (arxiv_id p)) eqn:Ehas.
    + specialize (IH acc db now). cbv zeta in IH |- *.
      destruct IH as ([added Hadd] & Hs & Hr & Hin).
      split; [eauto|]. split; [exact Hs|]. split; [exact Hr|].
      intros q [<-|Hq]; [|now apply Hin].
      unfold has_paper in *. rewrite Hadd, existsb_app_list, Ehas. reflexivity.
    + set (db1 := {| papers := _; summaries := _; runs := _ |}).
      specialize (IH (acc + 1) db1 now). cbv zeta in IH |- *.
      destruct IH as ([added Hadd] & Hs & Hr & Hin).
      split.
      { exists ({| row_paper := p; fetched_at := now |} :: added).
        rewrite Hadd. unfold db1. cbn [papers]. now rewrite <- app_assoc. }
      split; [exact Hs|]. split; [exact Hr|].
      intros q [<-|Hq]; [|now apply Hin].
      unfold has_paper. rewrite Hadd. unfold db1. cbn [papers].
      rewrite !existsb_app_list. cbn [existsb]. unfold row_id at 2.
      cbn [row_paper]. rewrite String.eqb_refl, orb_true_r. reflexivity.
Qed.

(** [upsert_run] writes the row of one date and nothing else *)
Lemma upsert_run_frame db run_date st sent now :
  papers (upsert_run db run_date st sent now) = papers db /\
  summaries (upsert_run db run_date st sent now) = summaries db /\
  (forall d, d <> run_date ->
     get_run (upsert_run db run_date st sent now) d = get_run db d).
Proof.
  unfold upsert_run, get_run. cbn [papers summaries runs].
  repeat split. intros d Hd. now rewrite lookup_insert_ne.
Qed.

Section Controller.
Context {W : Type} `{Collaborators W}.

(** X14. A run that is not skipped goes through the stages in the order
    fetch, store, summarize, render, save, push and stops at the first
    that fails; then it closes the store.  Unless it is cut short by
    something that is no [Exception], and then it writes no run record,
    it writes the run record once, as its last action on the store before
    closing it: [empty] after the fetch stage alone, [rendered] or [sent]
    after all six stages, and [failed] with no channel exactly when the
    run raises. *)
Theorem cmd_run_stage_order (today : string) (cfg : Config.Settings)
    (db : Database) (w : W) :
  already_completed cfg db today = false ->
  let out := cmd_run today cfg db w in
  exists (k : nat) (db1 : Database),
    (1 <= k <= 6)%nat /\
    ((exists st ch now,
        snd (snd out) = (firstn k stages ++ [EUpsertRun st ch; EClose])%list /\
        fst (fst (snd out)) = upsert_run db1 today st ch now /\
        match fst out with
        | Return _ =>
            (st = "empty" /\ ch = "" /\ k = 1%nat) \/
            (st = "rendered" /\ ch = "" /\ k = 6%nat) \/
            (st = "sent" /\ k = 6%nat)
        | Raise ex => is_Exception ex = true /\ st = "failed" /\ ch = ""
        end) \/
     (exists ex,
        fst out = Raise ex /\ is_Exception ex = false /\
        snd (snd out) = (firstn k stages ++ [EClose])%list /\
        fst (fst (snd out)) = db1 /\
        forall st ch, ~ In (EUpsertRun st ch) (snd (snd out)))).
Proof.
  intros Hgo. pose proof (cmd_run_shape today cfg db w Hgo) as Hshape.
  cbv zeta in Hshape |- *.
  destruct (cmd_run today cfg db w) as [r [[db' w'] tr]].
  cbn [fst snd] in *. destruct Hshape as (k & db1 & Hk & Hshape).
  exists k, db1. split; [exact Hk|].
  destruct r as [u|ex].
  - left. destruct Hshape as (st & ch & now & Htr & Hdb & Hst).
    exists st, ch, now. auto.
  - destruct (is_Exception ex) eqn:Eex.
    + left. destruct Hshape as (now & Htr & Hdb).
      exists "failed", "", now. auto.
    + right. destruct Hshape as [Htr Hdb]. exists ex.
      split; [reflexivity|]. split; [exact Eex|]. split; [exact Htr|].
      split; [exact Hdb|].
      intros st ch Hin. rewrite Htr in Hin.
      apply in_app_or in Hin as [Hin|[Hin|[]]];
        [now apply not_in_stages in Hin|discriminate Hin].
Qed.

(** X15. After a run that recorded [sent] with exactly the configured
    channels (none of them empty or containing a comma), a second run for
    the same date, in whatever world, does nothing but close the store. *)
Theorem cmd_run_second_run_noop (today : string) (cfg : Config.Settings)
    (db db' : Database) (w w' : W) (tr : list event) :
  cmd_run today cfg db w = (Return tt, (db', w', tr)) ->
  In (EUpsertRun "sent" (join "," (Config.push_channels cfg))) tr ->
  Config.push_channels cfg <> [] ->
  (forall ch, In ch (Config.push_channels cfg) ->
     nonempty ch = true /\ contains_char comma ch = false) ->
  forall w2 : W, cmd_run today cfg db' w2 = (Return tt, (db', w2, [EClose])).
Proof.
  intros Hrun Hin Hne Hnames w2.
  destruct (already_completed cfg db today) eqn:Hgo.
  { unfold cmd_run, pipeline in Hrun. rewrite Hgo in Hrun.
    injection Hrun as _ _ <-. destruct Hin as [Hin|[]]. discriminate. }
  pose proof (cmd_run_shape today cfg db w Hgo) as Hshape.
  cbv zeta in Hshape. rewrite Hrun in Hshape. cbn [fst snd] in Hshape.
  destruct Hshape as (k & db1 & _ & st & ch & now & Htr & Hdb & _).
  rewrite Htr in Hin. apply in_app_or in Hin as [Hin|Hin];
    [now apply not_in_stages in Hin|].
  destruct Hin as [[= -> ->]|[Hin|[]]]; [|discriminate].
  destruct (get_run_upsert_run db1 today "sent"
              (join "," (Config.push_channels cfg)) now) as [created Hget].
  rewrite <- Hdb in Hget.
  assert (Hdone : already_completed cfg db' today = true).
  { unfold already_completed. rewrite Hget. cbn [status].
    change (String.eqb "sent" "sent") with true. cbv iota.
    apply andb_true_iff. split; apply bool_decide_eq_true.
    - destruct (Config.push_channels cfg) as [|c cs]; [congruence|].
      intros Hempty.
      assert (Hc : c ∈ (list_to_set (c :: cs) : gset string))
        by (apply elem_of_list_to_set; left).
      rewrite Hempty in Hc. now apply not_elem_of_empty in Hc.
    - intros c Hc. apply elem_of_list_to_set in Hc.
      unfold already_sent. cbn [sent_channels].
      assert (Hjoin : nonempty (join "," (Config.push_channels cfg)) = true).
      { destruct (Config.push_channels cfg) as [|c0 cs]; [congruence|].
        destruct (Hnames c0 (or_introl eq_refl)) as [Hc0 _].
        destruct c0 as [|a c0]; [discriminate|].
        destruct cs; reflexivity. }
      rewrite Hjoin. apply elem_of_list_to_set.
      change "," with (String comma EmptyString).
      rewrite split_join; [exact Hc|exact Hne|].
      intros x Hx. now apply Hnames. }
  unfold cmd_run, pipeline. rewrite Hdone. reflexivity.
Qed.

End Controller.

Lemma cmd_run_stage_order_witness :
  exists (k : nat) (db1 : Database),
    (1 <= k <= 6)%nat /\
    ((exists st ch now,
        snd (snd first_run)
        = (firstn k stages ++ [EUpsertRun st ch; EClose])%list /\
        fst (fst (snd first_run)) = upsert_run db1 "2024-01-15" st ch now /\
        match fst first_run with
        | Return _ =>
            (st = "empty" /\ ch = "" /\ k = 1%nat) \/
            (st = "rendered" /\ ch = "" /\ k = 6%nat) \/
            (st = "sent" /\ k = 6%nat)
        | Raise ex => is_Exception ex = true /\ st = "failed" /\ ch = ""
        end) \/
     (exists ex,
        fst first_run = Raise ex /\ is_Exception ex = false /\
        snd (snd first_run) = (firstn k stages ++ [EClose])%list /\
        fst (fst (snd first_run)) = db1 /\
        forall st ch, ~ In (EUpsertRun st ch) (snd (snd first_run)))).
Proof.
  apply (@cmd_run_stage_order _ sample_collaborators "2024-01-15"
           (sample_cfg ["email"]) empty_db
           (outside_with (env_with [Return tt] []) (Return [sample_paper])
              (Return tt))).
  reflexivity.
Defined.

Lemma cmd_run_second_run_noop_witness :
  @cmd_run _ sample_collaborators "2024-01-15" (sample_cfg ["email"])
    (fst (fst (snd first_run))) later_outside
  = (Return tt, (fst (fst (snd first_run)), later_outside, [EClose])).
Proof.
  apply (@cmd_run_second_run_noop _ sample_collaborators "2024-01-15"
           (sample_cfg ["email"]) empty_db (fst (fst (snd first_run)))
           (outside_with (env_with [Return tt] []) (Return [sample_paper])
              (Return tt))
           (snd (fst (snd first_run))) (snd (snd first_run))).
  - assert (Hr : fst first_run = Return tt) by (vm_compute; reflexivity).
    change (first_run
            = (Return tt,
               (fst (fst (snd first_run)), snd (fst (snd first_run)),
                snd (snd first_run)))).
    destruct first_run as [r [[d w] t]]. cbn [fst snd] in *.
    now rewrite Hr.
  - vm_compute. repeat (first [left; reflexivity | right]).
  - discriminate.
  - intros ch [<-|[]]. split; reflexivity.
Defined.

Section Repository.
Context `{Runtime}.
Variables render_md render_txt :
  list Summarizer.Summarized -> string -> outcome string.

(** X16. Whatever happens in a run of this repository's pipeline, also
    when it raises: the rows of table [papers] that were there stay, in
    place; a summary that was stored is not replaced; the run records of
    other dates are untouched; and when the run is not skipped every
    fetched paper is stored afterwards. *)
Theorem cmd_run_keeps_store (today : string) (cfg : Config.Settings)
    (db : Database) (o : Outside) :
  let out :=
    @cmd_run _ (repo_collaborators render_md render_txt) today cfg db o in
  let db' := fst (fst (snd out)) in
  (exists added, papers db' = (papers db ++ added)%list) /\
  (forall id, has_summary db id = true ->
              get_summary db' id = get_summary db id) /\
  (forall d, d <> today -> get_run db' d = get_run db d) /\
  (already_completed cfg db today = false ->
   forall ps, catalog o = Return ps ->
   forall p, In p ps -> has_paper db' (arxiv_id p) = true).
Proof.
  cbv zeta.
  destruct (already_completed cfg db today) eqn:Hgo.
  { unfold cmd_run, pipeline. rewrite Hgo. cbn [fst snd].
    split; [exists []; now rewrite app_nil_r|].
    split; [auto|]. split; [auto|]. discriminate. }
  destruct (@cmd_run_store _ (repo_collaborators render_md render_txt)
              today cfg db o Hgo) as (d & Hd & Hfinal).
  cbn [fetch_papers summarize_papers _now_iso repo_collaborators] in Hd.
  (* the store of the last stage *)
  assert (Hstage :
    (exists added, papers d = (papers db ++ added)%list) /\
    (forall id, has_summary db id = true ->
                get_summary d id = get_summary db id) /\
    runs d = runs db /\
    (forall ps, catalog o = Return ps ->
     forall p, In p ps -> has_paper d (arxiv_id p) = true)).
  { destruct Hd as [[-> Hfetch]|(p & ps & w1 & Hfetch & ->)].
    - split; [exists []; now rewrite app_nil_r|]. split; [auto|].
      split; [reflexivity|]. intros ps Hcat q Hq.
      destruct Hfetch as [(ex & w1 & Hf)|(w1 & Hf)];
        injection Hf as Hf _; rewrite Hcat in Hf;
        [discriminate Hf|injection Hf as ->; destruct Hq].
    - injection Hfetch as Hcat <-.
      pose proof (upsert_papers_from_grows (p :: ps) 0 db (wall o)) as Hup.
      cbv zeta in Hup. fold (upsert_papers db (p :: ps) (wall o)) in Hup.
      destruct (upsert_papers db (p :: ps) (wall o)) as [n db1].
      cbn [snd] in Hup |- *. destruct Hup as ([added Hadd] & Hs1 & Hr1 & Hin1).
      pose proof (summarize_papers_spec (p :: ps) db1 cfg (env o))
        as (Hp2 & Hr2 & _ & Hkeep & _).
      destruct (Summarizer.summarize_papers (p :: ps) db1 cfg (env o))
        as [[out2 db2] e2].
      cbn [fst snd] in *.
      split; [exists added; congruence|]. split.
      { intros id Hid. rewrite Hkeep.
        - unfold get_summary. now rewrite Hs1.
        - unfold has_summary in *. now rewrite Hs1. }
      split; [congruence|].
      intros ps' Hcat' q Hq. rewrite Hcat in Hcat'. injection Hcat' as <-.
      unfold has_paper. rewrite Hp2. now apply Hin1. }
  destruct Hstage as ([added Hadd] & Hsum & Hruns & Hfetched).
  destruct Hfinal as [Hdb|(st & ch & now & Hdb)]; rewrite Hdb.
  - split; [eauto|]. split; [exact Hsum|].
    split; [intros dt _; unfold get_run; now rewrite Hruns|].
    intros _. exact Hfetched.
  - destruct (upsert_run_frame d today st ch now) as (Hp & Hs & Hr).
    split; [exists added; congruence|]. split.
    { intros id Hid. unfold get_summary at 1. rewrite Hs.
      now apply Hsum. }
    split.
    { intros dt Hdt. rewrite (Hr dt Hdt). unfold get_run. now rewrite Hruns. }
    intros _ ps Hcat q Hq. unfold has_paper. rewrite Hp.
    now apply (Hfetched ps Hcat q Hq).
Qed.

End Repository.

End RunFacts.

(** ** The other commands *)

Module CommandFacts.
Import Py Db World Cli Queries Commands PyStr PyStrFacts PyStrMoreFacts
       SpecDefs MoreSpecDefs Samples MoreSamples DbFacts StoreFacts QueryFacts
       MarkSentFacts EngineFacts RunFacts.

Lemma was_sent_mark_sent_any db run_date channel now c :
  c <> "" ->
  was_sent (mark_sent db run_date channel now) run_date c = true <->
  was_sent db run_date c = true \/ In c (split comma channel).
Proof.
  intros Hc. destruct (get_run_mark_sent db run_date channel now)
    as [created Hrun].
  rewrite !was_sent_true. split.
  - intros (run & Hr & Hin). rewrite Hrun in Hr. injection Hr as <-.
    cbn [sent_channels] in Hin.
    apply In_split_merged_any in Hin as [Hin|(r & Hr & Hin)]; [now right|].
    left. exists r. split; [exact Hr|]. now apply elem_of_channel_set in Hin.
  - intros Hcase. eexists. split; [exact Hrun|]. cbn [sent_channels].
    apply In_split_merged_any. destruct Hcase as [(r & Hr & Hin)|Hin];
      [right|now left].
    exists r. split; [exact Hr|]. now apply elem_of_channel_set.
Qed.


Lemma In_without_summary db r :
  In r (get_papers_without_summary db) <->
  In r (papers db) /\ has_summary db (row_id r) = false.
Proof.
  unfold get_papers_without_summary.
  rewrite <- !list_elem_of_In, order_desc_perm, !list_elem_of_In.
  rewrite filter_In, negb_true_iff. reflexivity.
Qed.

Section Commands.
Context {W : Type} `{Collaborators W}.

(** X17. [cmd_fetch] stores every fetched paper and touches neither the
    summaries nor the run records: when the fetch raises, the exception
    goes to the caller with the store as it was, and no [failed] run is
    recorded; the store is closed in both cases. *)
Theorem cmd_fetch_effect (cfg : Config.Settings) (db : Database) (w : W) :
  let out := cmd_fetch cfg db w in
  let db' := fst (fst (snd out)) in
  summaries db' = summaries db /\ runs db' = runs db /\
  (exists added, papers db' = (papers db ++ added)%list) /\
  (forall ex, fst (fetch_papers cfg w) = Raise ex ->
     fst out = Raise ex /\ db' = db) /\
  (forall ps, fst (fetch_papers cfg w) = Return ps ->
     fst out = Return tt /\
     forall p, In p ps -> has_paper db' (arxiv_id p) = true) /\
  last (snd (snd out)) = Some EClose.
Proof.
  cbv zeta. unfold cmd_fetch.
  destruct (fetch_papers cfg w) as [r w1]. destruct r as [ps|ex]; cbn [fst snd].
  - pose proof (upsert_papers_from_grows ps 0 db (_now_iso w1)) as Hup.
    cbv zeta in Hup. fold (upsert_papers db ps (_now_iso w1)) in Hup.
    destruct (upsert_papers db ps (_now_iso w1)) as [n db1]. cbn [fst snd] in *.
    destruct Hup as (Hadd & Hs & Hr & Hin).
    split; [exact Hs|]. split; [exact Hr|]. split; [exact Hadd|].
    split; [intros ex Hx; discriminate Hx|].
    split; [|reflexivity]. intros ps' [= <-]. split; [reflexivity|exact Hin].
  - split; [reflexivity|]. split; [reflexivity|].
    split; [exists []; now rewrite app_nil_r|].
    split; [intros ex' [= <-]; split; reflexivity|].
    split; [|reflexivity]. intros ps Hx. discriminate Hx.
Qed.


(** X19. When [cmd_send] gets through its stages and at least one channel
    succeeded, the run of its date has status [sent], and a non-empty
    channel name is on record afterwards exactly when it was on record
    before or is (a comma-separated part of) a channel that succeeded
    now. *)
Theorem cmd_send_marks_sent (today : string) (cfg : Config.Settings)
    (db : Database) (w w3 w4 : W) (r : PaperRow * pydict)
    (rows : list (PaperRow * pydict)) (md txt : string)
    (results : Push.results_t) :
  get_all_papers_with_summaries db = r :: rows ->
  render_markdown (List.map with_summary (r :: rows)) today = Return md ->
  render_plaintext (List.map with_summary (r :: rows)) today = Return txt ->
  _save_digest md txt today cfg w = (Return tt, w3) ->
  push_digest md txt today cfg w3 = (Return results, w4) ->
  succeeded results <> [] ->
  let out := cmd_send today cfg db w in
  let db' := fst (fst (snd out)) in
  fst out = Return tt /\
  (exists run, get_run db' today = Some run /\ status run = "sent") /\
  forall c, c <> "" ->
    (was_sent db' today c = true <->
     was_sent db today c = true \/
     exists x, In x (succeeded results) /\ In c (split comma x)).
Proof.
  intros Hrows Hmd Htxt Hsave Hpush Hsent. cbv zeta. unfold cmd_send.
  rewrite Hrows, Hmd, Htxt, Hsave, Hpush.
  destruct (succeeded results) as [|c0 cs] eqn:Es; [congruence|].
  cbn [fst snd]. split; [reflexivity|].
  destruct (get_run_mark_sent db today (join "," (c0 :: cs)) (_now_iso w4))
    as [created Hrun].
  split; [eexists; split; [exact Hrun|reflexivity]|].
  intros c Hc. rewrite (was_sent_mark_sent_any _ _ _ _ _ Hc).
  change "," with (String comma EmptyString).
  rewrite split_join_concat by discriminate.
  rewrite in_concat. split.
  - intros [Hold|(l & Hl & Hin)]; [now left|right].
    apply in_map_iff in Hl as (x & <- & Hx). eauto.
  - intros [Hold|(x & Hx & Hin)]; [now left|right].
    exists (split comma x). split; [now apply in_map|exact Hin].
Qed.

End Commands.

Lemma cmd_send_marks_sent_witness :
  was_sent
    (fst (fst (snd (@cmd_send _ sample_collaborators "2024-01-15"
                      (sample_cfg ["email"]) one_summarized
                      (outside_with (env_with [Return tt] []) (Return [])
                         (Return tt))))))
    "2024-01-15" "email" = true.
Proof.
  eapply (@cmd_send_marks_sent _ sample_collaborators "2024-01-15"
            (sample_cfg ["email"]) one_summarized
            (outside_with (env_with [Return tt] []) (Return []) (Return tt))).
  - reflexivity.
  - reflexivity.
  - reflexivity.
  - reflexivity.
  - reflexivity.
  - discriminate.
  - discriminate.
  - right. exists "email". split; [left; reflexivity|left; reflexivity].
Defined.

Section Repository.
Context `{Runtime}.
Variables render_md render_txt :
  list Summarizer.Summarized -> string -> outcome string.

(** X20. [cmd_summarize] of this repository changes the summaries only:
    a stored summary is kept as it is, every summary added belongs to a
    stored paper that had none and has the validated shape with that
    paper's links; when every stored paper has a summary it does nothing
    but close the store. *)
Theorem cmd_summarize_effect (cfg : Config.Settings) (db : Database)
    (o : Outside) :
  let out :=
    @cmd_summarize _ (repo_collaborators render_md render_txt) cfg db o in
  let db' := fst (fst (snd out)) in
  papers db' = papers db /\ runs db' = runs db /\
  (forall id, has_summary db id = true ->
              get_summary db' id = get_summary db id) /\
  (forall id,
     get_summary db' id = get_summary db id \/
     exists r s, In r (papers db) /\ row_id r = id /\
                 has_summary db id = false /\
                 get_summary db' id = Some s /\ stored_for (row_paper r) s) /\
  ((forall r, In r (papers db) -> has_summary db (row_id r) = true) ->
   out = (Return tt, (db, o, [EClose]))).
Proof.
  cbv zeta. unfold cmd_summarize.
  pose proof (In_without_summary db) as Hrows.
  destruct (get_papers_without_summary db) as [|r rows] eqn:Eq.
  { cbn [fst snd]. repeat split; auto. }
  cbn [summarize_papers repo_collaborators].
  pose proof (summarize_papers_spec (List.map row_paper (r :: rows)) db cfg
                (env o)) as (Hp & Hr & _ & Hkeep & Hadded & _).
  destruct (Summarizer.summarize_papers (List.map row_paper (r :: rows)) db
              cfg (env o)) as [[out db1] e1].
  cbn [fst snd] in *.
  split; [exact Hp|]. split; [exact Hr|].
  split; [exact Hkeep|]. split.
  - intros id. destruct (Hadded id) as [Hsame|(p & s & Hin & Hid & Hnew & Hget & Hst)];
      [now left|right].
    apply in_map_iff in Hin as (r0 & <- & Hr0).
    apply Hrows in Hr0 as [Hr0 _]. exists r0, s. auto.
  - intros Hall. exfalso.
    destruct (proj1 (Hrows r) (or_introl eq_refl)) as [Hin Hnone].
    rewrite (Hall r Hin) in Hnone. discriminate.
Qed.

End Repository.

End CommandFacts.

(** ** The comma-separated settings *)

Module ConfigFacts.
Import PyStr PyStrFacts PyStrMoreFacts ConfigLists.

Lemma lstrip_idempotent s : lstrip (lstrip s) = lstrip s.
Proof.
  induction s as [|c s IH]; [reflexivity|].
  change (lstrip (String c s)) with (if is_space c then lstrip s else String c s).
  destruct (is_space c) eqn:Ec; [exact IH|].
  now apply lstrip_nonspace.
Qed.

Lemma rstrip_cons c s :
  rstrip (String c s)
  = match rstrip s with
    | EmptyString => if is_space c then EmptyString else String c EmptyString
    | r => String c r
    end.
Proof. reflexivity. Qed.

Lemma rstrip_idempotent s : rstrip (rstrip s) = rstrip s.
Proof.
  induction s as [|c s IH]; [reflexivity|].
  rewrite rstrip_cons. destruct (rstrip s) as [|a r] eqn:Er.
  - destruct (is_space c) eqn:Ec; [reflexivity|].
    rewrite rstrip_cons. change (rstrip "") with "". now rewrite Ec.
  - rewrite rstrip_cons, IH. reflexivity.
Qed.

Lemma lstrip_rstrip_lstrip s : lstrip (rstrip (lstrip s)) = rstrip (lstrip s).
Proof.
  induction s as [|c s IH]; [reflexivity|].
  change (lstrip (String c s)) with (if is_space c then lstrip s else String c s).
  destruct (is_space c) eqn:Ec; [exact IH|].
  rewrite rstrip_cons. destruct (rstrip s) as [|a r].
  - rewrite Ec. now apply lstrip_nonspace.
  - now apply lstrip_nonspace.
Qed.

Lemma strip_idempotent s : strip (strip s) = strip s.
Proof.
  unfold strip. rewrite lstrip_rstrip_lstrip. apply rstrip_idempotent.
Qed.

Lemma lstrip_sep_free c s :
  contains_char c s = false -> contains_char c (lstrip s) = false.
Proof.
  induction s as [|a s IH]; [reflexivity|]. intros Hs.
  change (lstrip (String a s)) with (if is_space a then lstrip s else String a s).
  destruct (is_space a); [|exact Hs].
  cbn [contains_char] in Hs. apply orb_false_iff in Hs as [_ Hs]. now apply IH.
Qed.

Lemma rstrip_sep_free c s :
  contains_char c s = false -> contains_char c (rstrip s) = false.
Proof.
  induction s as [|a s IH]; [reflexivity|]. intros Hs.
  cbn [contains_char] in Hs. apply orb_false_iff in Hs as [Ha Hs].
  specialize (IH Hs). rewrite rstrip_cons. destruct (rstrip s) as [|b r].
  - destruct (is_space a); [reflexivity|]. cbn [contains_char].
    now rewrite Ha.
  - cbn [contains_char] in *. now rewrite Ha, IH.
Qed.

Lemma nonempty_true s : nonempty s = true <-> s <> "".
Proof.
  unfold nonempty. rewrite negb_true_iff. apply String.eqb_neq.
Qed.

(** X21. Every entry of a comma-separated setting ([push_channels],
    [arxiv_categories] and the two keyword lists) is non-empty, holds no
    comma and has no white space at either end; the entries are the
    stripped non-blank fields of the text, in order. *)
Theorem comma_list_entries (text : string) :
  (forall x, In x (comma_list text) ->
     x <> "" /\ contains_char comma x = false /\ strip x = x) /\
  (forall x, In x (comma_list text) <->
     x <> "" /\ exists field, In field (split comma text) /\ x = strip field) /\
  (length (comma_list text) <= length (split comma text))%nat.
Proof.
  assert (Hin : forall x, In x (comma_list text) <->
            x <> "" /\ exists field, In field (split comma text) /\ x = strip field).
  { intros x. unfold comma_list. rewrite filter_In, nonempty_true, in_map_iff.
    split.
    - intros [(f & <- & Hf) Hne]. eauto.
    - intros [Hne (f & Hf & ->)]. eauto. }
  split; [|split; [exact Hin|]].
  - intros x Hx. apply Hin in Hx as [Hne (f & Hf & ->)].
    split; [exact Hne|]. split; [|apply strip_idempotent].
    unfold strip. apply rstrip_sep_free, lstrip_sep_free.
    eapply split_no_sep; eauto.
  - unfold comma_list.
    etransitivity; [apply filter_length_le|]. now rewrite length_map.
Qed.

(** X22. Reading back a list of entries written with commas between
    them gives the list again, provided no entry is empty, holds a comma
    or begins or ends with white space. *)
Theorem comma_list_round_trip (xs : list string) :
  (forall x, In x xs ->
     x <> "" /\ contains_char comma x = false /\ strip x = x) ->
  comma_list (join "," xs) = xs.
Proof.
  intros Hclean. destruct xs as [|x0 xs0]; [reflexivity|].
  unfold comma_list. change "," with (String comma EmptyString).
  rewrite split_join; [|discriminate|intros x Hx; now apply Hclean].
  assert (Hmap : forall l : list string,
            (forall x, In x l -> strip x = x) -> List.map strip l = l).
  { induction l as [|y l IH]; intros Hl; [reflexivity|].
    cbn [List.map]. rewrite (Hl y (or_introl eq_refl)), IH; [reflexivity|].
    intros x Hx. apply Hl. now right. }
  rewrite Hmap by (intros x Hx; now apply Hclean).
  apply LimiterFacts.filter_all.
  intros x Hx. apply nonempty_true. now apply Hclean.
Qed.

Lemma comma_list_round_trip_witness :
  comma_list (join "," ["cs.CL"; "cs.AI"]) = ["cs.CL"; "cs.AI"].
Proof.
  apply (comma_list_round_trip ["cs.CL"; "cs.AI"]).
  intros x [<-|[<-|[]]]; (split; [discriminate|split; reflexivity]).
Defined.

End ConfigFacts.

(** ** Fetching *)

Module FetchFacts.
Import Py Db Fetcher MoreSpecDefs Samples MoreSamples.

Lemma NoDup_map_filter {A B} (f : A -> B) (p : A -> bool) (l : list A) :
  NoDup (List.map f l) -> NoDup (List.map f (List.filter p l)).
Proof.
  induction l as [|a l IH]; cbn [List.map List.filter]; intros Hnd;
    [constructor|].
  apply NoDup_cons in Hnd as [Hx Hnd].
  destruct (p a); cbn [List.map]; [|auto].
  apply NoDup_cons. split; [|auto].
  intros Hin. apply Hx. apply list_elem_of_In in Hin. apply list_elem_of_In.
  apply in_map_iff in Hin as (y & Hy & Hin). apply filter_In in Hin as [Hin _].
  apply in_map_iff. eauto.
Qed.

Lemma NoDup_map_firstn {A B} (f : A -> B) (n : nat) (l : list A) :
  NoDup (List.map f l) -> NoDup (List.map f (firstn n l)).
Proof.
  intros Hnd. rewrite <- firstn_map.
  eapply sublist_NoDup; [exact Hnd|apply sublist_take].
Qed.

Lemma In_firstn_list {A} (n : nat) (l : list A) x : In x (firstn n l) -> In x l.
Proof.
  revert l. induction n as [|n IH]; intros [|a l]; cbn; try tauto.
  intros [->|Hin]; auto.
Qed.

Lemma In_py_take {A} (n : Z) (l : list A) x : In x (py_take n l) -> In x l.
Proof. unfold py_take. destruct (0 <=? n); apply In_firstn_list. Qed.

Lemma add_paper_collected st p :
  collected st ->
  collected (add_paper st p) /\
  forall q, In q (fst (add_paper st p)) -> In q (fst st) \/ q = p.
Proof.
  destruct st as [acc seen]. intros [Hnd Hseen]. unfold add_paper.
  unfold collected.
  destruct (bool_decide (arxiv_id p ∈ seen)) eqn:E; cbn [fst snd] in *.
  - split; [split; assumption|]. auto.
  - apply bool_decide_eq_false in E. split; [split|].
    + rewrite List.map_app. cbn [List.map]. apply NoDup_app.
      split; [exact Hnd|]. split; [|apply NoDup_singleton].
      intros x Hx Hx2. apply list_elem_of_In in Hx2.
      destruct Hx2 as [<-|[]].
      apply list_elem_of_In, in_map_iff in Hx as (q & Hq & Hin).
      apply E. rewrite <- Hq. now apply Hseen.
    + intros q Hq. apply in_app_or in Hq as [Hq|[<-|[]]].
      * apply elem_of_union. left. now apply Hseen.
      * apply elem_of_union. right. now apply elem_of_singleton.
    + intros q Hq. apply in_app_or in Hq as [Hq|[<-|[]]]; auto.
Qed.

Lemma add_batch_collected batch : forall st,
  collected st ->
  collected (fold_left add_paper batch st) /\
  forall q, In q (fst (fold_left add_paper batch st)) ->
            In q (fst st) \/ In q batch.
Proof.
  induction batch as [|p batch IH]; intros st Hst; cbn [fold_left].
  - split; [exact Hst|]. auto.
  - destruct (add_paper_collected st p Hst) as [Hst1 Hin1].
    destruct (IH (add_paper st p) Hst1) as [Hst2 Hin2].
    split; [exact Hst2|].
    intros q Hq. destruct (Hin2 q Hq) as [Hq1|Hq1]; [|right; now right].
    destruct (Hin1 q Hq1) as [Hq0| ->]; [now left|right; now left].
Qed.

Lemma fetch_arxiv_page_spec query start n e :
  asked (snd (_fetch_arxiv_page query start n e))
  = (asked e ++ [(query, start, n)])%list /\
  pages (snd (_fetch_arxiv_page query start n e)) = skipn 1 (pages e) /\
  slept (snd (_fetch_arxiv_page query start n e)) = slept e /\
  published_since (snd (_fetch_arxiv_page query start n e)) = published_since e /\
  (forall batch, fst (_fetch_arxiv_page query start n e) = Return batch ->
     In (Return batch) (pages e)).
Proof.
  unfold _fetch_arxiv_page.
  destruct (pages e) as [|r rs];
    cbn [fst snd asked pages slept published_since skipn];
    repeat split; try reflexivity.
  - intros batch Hb. discriminate Hb.
  - intros batch ->. now left.
Qed.

(** the loop over the pages *)
Lemma fetch_pages_spec query fetch_limit starts : forall page_idx st e,
  0 <= page_idx ->
  collected st ->
  let out := fetch_pages query fetch_limit starts page_idx st e in
  NoDup (List.map arxiv_id (fst out)) /\
  (forall p, In p (fst out) ->
     In p (fst st) \/ exists page, In (Return page) (pages e) /\ In p page) /\
  published_since (snd out) = published_since e /\
  exists k : nat,
    (k <= length starts)%nat /\
    asked (snd out)
    = (asked e ++ List.map (request query fetch_limit) (firstn k starts))%list /\
    pages (snd out) = skipn k (pages e) /\
    slept (snd out)
    = slept e + 4 * (if 0 <? page_idx then Z.of_nat k
                     else Z.of_nat (k - 1)) /\
    (starts <> [] -> (1 <= k)%nat).
Proof.
  induction starts as [|start rest IH]; intros page_idx st e Hidx Hst.
  - cbn. destruct Hst as [Hnd _]. split; [exact Hnd|]. split; [auto|].
    split; [reflexivity|]. exists 0%nat. cbn.
    rewrite app_nil_r. repeat split; try lia.
    + destruct (0 <? page_idx); lia.
    + congruence.
  - cbn [fetch_pages].
    set (e0 := if 0 <? page_idx then sleep 4 e else e).
    assert (He0 : pages e0 = pages e /\ asked e0 = asked e /\
                  published_since e0 = published_since e /\
                  slept e0 = slept e + (if 0 <? page_idx then 4 else 0)).
    { unfold e0. destruct (0 <? page_idx); cbn; repeat split; lia. }
    destruct He0 as (Hp0 & Ha0 & Hs0 & Hsl0).
    destruct (fetch_arxiv_page_spec query start
                (Z.min page_size (fetch_limit - start)) e0)
      as (Hask & Hpages & Hslept & Hsince & Hbatch).
    destruct (_fetch_arxiv_page query start
                (Z.min page_size (fetch_limit - start)) e0) as [r e1].
    cbn [fst snd] in Hask, Hpages, Hslept, Hsince, Hbatch.
    assert (Hstop : forall acc,
              NoDup (List.map arxiv_id acc) ->
              (forall p, In p acc ->
                 In p (fst st) \/
                 exists page, In (Return page) (pages e) /\ In p page) ->
              let out := (acc, e1) in
              NoDup (List.map arxiv_id (fst out)) /\
              (forall p, In p (fst out) ->
                 In p (fst st) \/
                 exists page, In (Return page) (pages e) /\ In p page) /\
              published_since (snd out) = published_since e /\
              exists k : nat,
                (k <= length (start :: rest))%nat /\
                asked (snd out)
                = (asked e
                   ++ List.map (request query fetch_limit)
                        (firstn k (start :: rest)))%list /\
                pages (snd out) = skipn k (pages e) /\
                slept (snd out)
                = slept e + 4 * (if 0 <? page_idx then Z.of_nat k
                                 else Z.of_nat (k - 1)) /\
                (start :: rest <> [] -> (1 <= k)%nat)).
    { intros acc Hnd Hin. cbn [fst snd]. split; [exact Hnd|].
      split; [exact Hin|]. split; [congruence|].
      exists 1%nat. cbn [length firstn List.map]. split; [lia|].
      split; [rewrite Hask, Ha0; reflexivity|].
      split; [rewrite Hpages, Hp0; reflexivity|].
      split; [|lia]. rewrite Hslept, Hsl0. destruct (0 <? page_idx); lia. }
    destruct r as [[|p batch]|ex].
    + apply Hstop; [apply Hst|auto].
    + destruct (add_batch_collected (p :: batch) st Hst) as [Hst1 Hin1].
      assert (Hfrom : forall q, In q (fst (fold_left add_paper (p :: batch) st)) ->
                In q (fst st) \/
                exists page, In (Return page) (pages e) /\ In q page).
      { intros q Hq. destruct (Hin1 q Hq) as [Hq0|Hq0]; [now left|right].
        exists (p :: batch). split; [|exact Hq0].
        rewrite <- Hp0. now apply Hbatch. }
      destruct (Z.of_nat (length (p :: batch))
                <? Z.min page_size (fetch_limit - start)).
      * apply Hstop; [apply Hst1|exact Hfrom].
      * specialize (IH (page_idx + 1) (fold_left add_paper (p :: batch) st) e1
                      ltac:(lia) Hst1).
        cbv zeta in IH |- *.
        destruct IH as (Hnd & Hin & Hsince2 & k & Hk & Hask2 & Hpages2 & Hslept2 & _).
        split; [exact Hnd|]. split.
        { intros q Hq. destruct (Hin q Hq) as [Hq0|(page & Hpage & Hq0)];
            [now apply Hfrom|right].
          exists page. split; [|exact Hq0].
          rewrite Hpages, Hp0 in Hpage. destruct (pages e); [destruct Hpage|].
          now right. }
        split; [congruence|].
        exists (S k). cbn [length firstn List.map]. split; [lia|].
        split.
        { rewrite Hask2, Hask, Ha0, <- app_assoc. reflexivity. }
        split.
        { rewrite Hpages2, Hpages, Hp0. destruct (pages e) as [|r0 rs].
          - now rewrite !skipn_nil.
          - reflexivity. }
        split; [|lia].
        rewrite Hslept2, Hslept, Hsl0.
        destruct (0 <? page_idx) eqn:E0.
        -- assert (E1 : (0 <? page_idx + 1) = true) by (apply Z.ltb_lt; lia).
           rewrite E1. lia.
        -- assert (E1 : (0 <? page_idx + 1) = true) by (apply Z.ltb_lt; lia).
           rewrite E1. lia.
    + apply Hstop; [apply Hst|auto].
Qed.

Lemma length_page_starts fetch_limit :
  fetch_limit <= 300 -> (length (page_starts fetch_limit) <= 3)%nat.
Proof.
  intros Hle. unfold page_starts, page_size.
  rewrite length_map, length_seq.
  assert ((fetch_limit + 100 - 1) / 100 < 4)
    by (apply Z.div_lt_upper_bound; lia).
  lia.
Qed.

Lemma In_page_starts fetch_limit start :
  In start (page_starts fetch_limit) -> 0 <= start < fetch_limit.
Proof.
  unfold page_starts, page_size. intros Hin.
  apply in_map_iff in Hin as (k & <- & Hk). apply in_seq in Hk.
  destruct (Z_le_gt_dec fetch_limit 0) as [Hneg|Hpos].
  - assert ((fetch_limit + 100 - 1) / 100 < 1)
      by (apply Z.div_lt_upper_bound; lia). lia.
  - assert (Hdiv : 100 * ((fetch_limit + 100 - 1) / 100) <= fetch_limit + 100 - 1)
      by (apply Z.mul_div_le; lia).
    lia.
Qed.

Lemma length_py_take {A} (n : Z) (l : list A) :
  0 <= n -> Z.of_nat (length (py_take n l)) <= n.
Proof.
  intros Hn. unfold py_take. assert ((0 <=? n) = true) as -> by lia.
  pose proof (firstn_le_length (Z.to_nat n) l). lia.
Qed.

(** what [fetch_papers] returns and asks for *)
Lemma fetch_papers_spec (cfg : FetchSettings) (e : Arxiv) :
  let out := fetch_papers cfg e in
  let limit := Z.min (max_papers_per_day cfg * 3) 300 in
  NoDup (List.map arxiv_id (fst out)) /\
  (forall p, In p (fst out) ->
     keeps (arxiv_include_keywords cfg) (arxiv_exclude_keywords cfg) p = true /\
     published_since e (published_at p) (time_window_hours cfg) <> Some false /\
     exists page, In (Return page) (pages e) /\ In p page) /\
  (0 <= max_papers_per_day cfg ->
   Z.of_nat (length (fst out)) <= max_papers_per_day cfg) /\
  (arxiv_categories cfg = [] -> out = ([], e)) /\
  (arxiv_categories cfg <> [] ->
   exists k : nat,
     (k <= 3)%nat /\
     asked (snd out)
     = (asked e
        ++ List.map (request (_build_query (arxiv_categories cfg)) limit)
             (firstn k (page_starts limit)))%list /\
     pages (snd out) = skipn k (pages e) /\
     slept (snd out) = slept e + 4 * Z.of_nat (k - 1) /\
     (1 <= max_papers_per_day cfg -> (1 <= k)%nat)).
Proof.
  cbv zeta. unfold fetch_papers.
  destruct (arxiv_categories cfg) as [|c cs] eqn:Ecat.
  { cbn [fst snd]. split; [constructor|]. split; [intros p []|].
    split; [cbn; lia|]. split; [reflexivity|congruence]. }
  set (limit := Z.min (max_papers_per_day cfg * 3) 300).
  assert (Hinit : collected ([], ∅)).
  { split; [constructor|intros p []]. }
  pose proof (fetch_pages_spec (_build_query (c :: cs)) limit
                (page_starts limit) 0 ([], ∅) e ltac:(lia) Hinit) as Hloop.
  cbv zeta in Hloop.
  destruct (fetch_pages (_build_query (c :: cs)) limit (page_starts limit) 0
              ([], ∅) e) as [all_papers e1].
  cbn [fst snd] in *.
  destruct Hloop as (Hnd & Hin & Hsince & k & Hk & Hask & Hpages & Hslept & Hone).
  split.
  { unfold py_take.
    destruct (0 <=? max_papers_per_day cfg);
      apply NoDup_map_firstn, NoDup_map_filter, NoDup_map_filter, Hnd. }
  split.
  { intros p Hp. apply In_py_take in Hp.
    unfold _apply_keyword_filter in Hp. apply filter_In in Hp as [Hp Hkeeps].
    unfold _apply_time_filter in Hp. apply filter_In in Hp as [Hp Htime].
    split; [exact Hkeeps|]. split.
    - rewrite <- Hsince. intros Hold. rewrite Hold in Htime. discriminate.
    - destruct (Hin p Hp) as [[]|Hpage]. exact Hpage. }
  split; [apply length_py_take|]. split; [discriminate|].
  intros _. exists k.
  assert (Hlim : limit <= 300) by (unfold limit; lia).
  pose proof (length_page_starts limit Hlim).
  split; [lia|]. split; [exact Hask|]. split; [exact Hpages|].
  split; [rewrite Hslept; reflexivity|].
  intros Hmax. apply Hone. unfold page_starts, page_size.
  assert (1 <= (limit + 100 - 1) / 100)
    by (apply Z.div_le_lower_bound; unfold limit; lia).
  destruct (Z.to_nat ((limit + 100 - 1) / 100)) eqn:E; [lia|]. discriminate.
Qed.

(** X23. The papers [fetch_papers] returns carry pairwise different
    identifiers, number at most [max_papers_per_day], pass the keyword
    filter, are not older than the time window (a paper whose time cannot
    be read is kept), and each was on a page the API answered; without
    categories nothing is asked and nothing returned. *)
Theorem fetch_papers_result (cfg : FetchSettings) (e : Arxiv) :
  let out := fetch_papers cfg e in
  NoDup (List.map arxiv_id (fst out)) /\
  (forall p, In p (fst out) ->
     keeps (arxiv_include_keywords cfg) (arxiv_exclude_keywords cfg) p = true /\
     published_since e (published_at p) (time_window_hours cfg) <> Some false /\
     exists page, In (Return page) (pages e) /\ In p page) /\
  (0 <= max_papers_per_day cfg ->
   Z.of_nat (length (fst out)) <= max_papers_per_day cfg) /\
  (arxiv_categories cfg = [] -> out = ([], e)).
Proof.
  destruct (fetch_papers_spec cfg e) as (H1 & H2 & H3 & H4 & _).
  cbv zeta. auto.
Qed.

(** X24. With categories configured, [fetch_papers] asks for at most
    three pages, in order from offset 0 in steps of 100, each for at most
    100 and at least one entry and all for the same query, and sleeps
    4 seconds between two requests; it asks for at least one page when
    the daily maximum is positive. *)
Theorem fetch_papers_paging (cfg : FetchSettings) (e : Arxiv) :
  arxiv_categories cfg <> [] ->
  let out := fetch_papers cfg e in
  let limit := Z.min (max_papers_per_day cfg * 3) 300 in
  exists k : nat,
    (k <= 3)%nat /\
    asked (snd out)
    = (asked e
       ++ List.map (request (_build_query (arxiv_categories cfg)) limit)
            (firstn k (page_starts limit)))%list /\
    (forall q start n,
       In (q, start, n)
         (List.map (request (_build_query (arxiv_categories cfg)) limit)
            (firstn k (page_starts limit))) ->
       1 <= n <= 100 /\ 0 <= start < limit /\ start + n <= limit) /\
    pages (snd out) = skipn k (pages e) /\
    slept (snd out) = slept e + 4 * Z.of_nat (k - 1) /\
    (1 <= max_papers_per_day cfg -> (1 <= k)%nat).
Proof.
  intros Hcat.
  destruct (fetch_papers_spec cfg e) as (_ & _ & _ & _ & Hpaging).
  cbv zeta in *. destruct (Hpaging Hcat) as (k & Hk & Hask & Hpages & Hslept & Hone).
  exists k. split; [exact Hk|]. split; [exact Hask|].
  split; [|auto].
  intros q start n Hin. apply in_map_iff in Hin as (s & Hreq & Hs).
  apply In_firstn_list, In_page_starts in Hs.
  unfold request, page_size in Hreq. injection Hreq as _ <- <-. lia.
Qed.

Lemma fetch_papers_paging_witness :
  exists k : nat,
    (k <= 3)%nat /\
    slept (snd (fetch_papers sample_fetch_cfg sample_arxiv))
    = 0 + 4 * Z.of_nat (k - 1).
Proof.
  destruct (fetch_papers_paging sample_fetch_cfg sample_arxiv
              ltac:(discriminate))
    as (k & Hk & _ & _ & _ & Hslept & _).
  exists k. split; [exact Hk|exact Hslept].
Defined.

End FetchFacts.
